(** * Detection and price resolution engine of the NFT mint flow

  A shallow embedding of
    - [src/lib/provider-configs.ts]   (PROVIDER_CONFIGS, getProviderConfig),
    - [src/lib/provider-detector.ts]  (detectNFTProvider, validateParameters),
    - the price optimizer             (callManifoldWithFallback, fetchPriceData),
  followed by the properties the specification states about them.

  The TypeScript code is asynchronous, reads a chain through
  [client.readContract], mutates two of its arguments in place and uses
  exceptions for control flow.  The embedding therefore runs in a state and
  exception monad whose state holds the log of remote calls issued so far and
  the mutable objects, and whose exceptions survive only up to the enclosing
  [try]/[catch].

  Conventions of the embedding:
    - a read answers with any JavaScript value or is rejected, and the answer
      may depend on every read issued before (a [PublicClient] is a function
      of the log), so a theorem quantified over clients covers every pattern
      of answers and failures;
    - the members of a Promise.all are run one after the other in array
      order, each to completion.  For members that are single reads this is
      the order in which the engine issues them.  The two members of the
      Manifold protocol retry under a second ABI, and the engine issues both
      first reads before either retry: for them the log and the answers are
      those of the source when no retry is made, or when the answers of the
      chain do not depend on the log ([history_independent]);
    - the string conversions of the JavaScript host (toLowerCase, BigInt and
      Number of a string, parseInt, the string form of a number) are fields of
      a [Host] record that every definition takes as a parameter;
    - numbers are integer-valued or NaN; in particular the amount of a request
      is a whole count.  [BigInt] of a fractional or infinite amount raises a
      RangeError in the source; such requests are outside the embedding, and
      nothing is proved about them;
    - constants imported from [~/lib/nft-standards] are fields of a
      [Standards] record, and the ABI tables imported from there are names. *)

From Stdlib Require Import ZArith List String Ascii Bool Lia DecimalString.
Import ListNotations.
Set Warnings "-register-all".
Open Scope string_scope.
Open Scope Z_scope.

(** ** JavaScript values *)

Module Js.

(** Numbers are the integer-valued doubles and NaN: every number the engine
    inspects is a count, a token decimal count or a timestamp.  Fractional
    and infinite doubles are outside the embedding. *)
Inductive number : Type :=
| NaN
| Int (z : Z).

(** What a decoded contract read can hand back. *)
Inductive value : Type :=
| VUndef
| VNull
| VBool (b : bool)
| VBig (z : Z)                          (* bigint *)
| VNum (n : number)
| VStr (s : string)
| VArr (items : list value)
| VObj (fields : list (string * value)).

Inductive exn : Type :=
| TypeError
| SyntaxError
| CallFailed                            (* a rejected readContract *)
| Error (msg : string).

Inductive result (A : Type) : Type :=
| Ok (a : A)
| Throw (e : exn).
Arguments Ok {A} a.
Arguments Throw {A} e.

(** String conversions of the host that the engine calls but that are not
    part of the repository.  Every theorem below holds for any host. *)
Record Host : Type := {
  toLowerCase    : string -> string;         (* String.prototype.toLowerCase *)
  StringToBigInt : string -> option Z;       (* BigInt(s); None is a SyntaxError *)
  StringToNumber : string -> number;         (* Number(s) *)
  NumberToString : number -> string;         (* Number.prototype.toString *)
  parseInt       : string -> number          (* parseInt(s) *)
}.

Definition number_truthy (n : number) : bool :=
  match n with
  | NaN => false
  | Int z => negb (z =? 0)
  end.

Definition string_truthy (s : string) : bool :=
  negb (s =? "")%string.

(** ToBoolean *)
Definition truthy (v : value) : bool :=
  match v with
  | VUndef | VNull => false
  | VBool b => b
  | VBig z => negb (z =? 0)
  | VNum n => number_truthy n
  | VStr s => string_truthy s
  | VArr _ | VObj _ => true
  end.

Definition opt_truthy (o : option string) : bool :=
  match o with
  | Some s => string_truthy s
  | None => false
  end.

(** An optional string when it is truthy *)
Definition nonempty (o : option string) : option string :=
  match o with
  | Some s => if string_truthy s then Some s else None
  | None => None
  end.

(** [a || b] *)
Definition or_else (a b : value) : value :=
  if truthy a then a else b.

Definition is_undefined (v : value) : bool :=
  match v with VUndef => true | _ => false end.

(** [typeof v === "object"] *)
Definition typeof_object (v : value) : bool :=
  match v with VNull | VArr _ | VObj _ => true | _ => false end.

Definition typeof_bigint (v : value) : bool :=
  match v with VBig _ => true | _ => false end.

Definition typeof_number (v : value) : bool :=
  match v with VNum _ => true | _ => false end.

Definition isArray (v : value) : bool :=
  match v with VArr _ => true | _ => false end.

(** [v === "s"] for a string literal *)
Definition is_string (v : value) (s : string) : bool :=
  match v with VStr t => (t =? s)%string | _ => false end.

(** [v === BigInt(0)] *)
Definition is_big_zero (v : value) : bool :=
  match v with VBig z => z =? 0 | _ => false end.

Fixpoint assoc (k : string) (fields : list (string * value)) : option value :=
  match fields with
  | [] => None
  | (k', v) :: rest => if (k' =? k)%string then Some v else assoc k rest
  end.

Definition has_own (k : string) (v : value) : bool :=
  match v with
  | VObj fields => match assoc k fields with Some _ => true | None => false end
  | _ => false
  end.

Definition Z_of_length {A} (l : list A) : Z := Z.of_nat (List.length l).

(** [v.k] on a value that is neither null nor undefined; the names the
    engine reads are not inherited from any prototype except [length]. *)
Definition getprop (v : value) (k : string) : value :=
  match v with
  | VObj fields => match assoc k fields with Some x => x | None => VUndef end
  | VArr items => if (k =? "length")%string then VNum (Int (Z_of_length items)) else VUndef
  | VStr s => if (k =? "length")%string then VNum (Int (Z.of_nat (String.length s))) else VUndef
  | _ => VUndef
  end.

(** [v[i]] on an array *)
Definition index (v : value) (i : nat) : value :=
  match v with
  | VArr items => nth i items VUndef
  | _ => VUndef
  end.

Definition string_of_Z (z : Z) : string :=
  NilZero.string_of_int (Z.to_int z).

Section Conversions.
Variable host : Host.

(** [v.toString()].  null and undefined have no methods; an object whose
    own [toString] field holds data is not callable.  Arrays join their
    elements, printing null and undefined as the empty string. *)
Fixpoint toString (v : value) : option string :=
  match v with
  | VUndef | VNull => None
  | VBool true => Some "true"
  | VBool false => Some "false"
  | VBig z => Some (string_of_Z z)
  | VNum n => Some (NumberToString host n)
  | VStr s => Some s
  | VArr items =>
      (fix join (l : list value) : option string :=
         match l with
         | [] => Some ""
         | x :: rest =>
             let sx := match x with
                       | VUndef | VNull => Some ""
                       | _ => toString x
                       end in
             match sx, rest with
             | None, _ => None
             | Some s, [] => Some s
             | Some s, _ :: _ =>
                 match join rest with
                 | Some r => Some (s ++ "," ++ r)
                 | None => None
                 end
             end
         end) items
  | VObj fields =>
      match assoc "toString" fields with
      | Some _ => None
      | None => Some "[object Object]"
      end
  end.

(** [Number(v)]; None is the TypeError of an object without a primitive
    form.  A bigint converts to the nearest double; the embedding keeps
    the integer, which orders the same way against 0 and 255 and is the
    converted value up to 2^53. *)
Definition ToNumber (v : value) : option number :=
  match v with
  | VUndef => Some NaN
  | VNull => Some (Int 0)
  | VBool b => Some (Int (if b then 1 else 0))
  | VBig z => Some (Int z)
  | VNum n => Some n
  | VStr s => Some (StringToNumber host s)
  | VArr _ | VObj _ =>
      match toString v with
      | Some s => Some (StringToNumber host s)
      | None => None
      end
  end.

(** [v > 0] *)
Definition gt_zero (v : value) : option bool :=
  match ToNumber v with
  | Some (Int z) => Some (0 <? z)
  | Some NaN => Some false
  | None => None
  end.

(** [v.toLowerCase()] : only strings have the method. *)
Definition lower (v : value) : option string :=
  match v with
  | VStr s => Some (toLowerCase host s)
  | _ => None
  end.

(** [BigInt(s)] *)
Definition BigInt_of_string (s : string) : result Z :=
  match StringToBigInt host s with
  | Some z => Ok z
  | None => Throw SyntaxError
  end.
End Conversions.

(** ToString of a primitive *)
Definition prim_to_string (host : Host) (v : value) : string :=
  match v with
  | VUndef => "undefined"
  | VNull => "null"
  | VBool true => "true"
  | VBool false => "false"
  | VBig z => string_of_Z z
  | VNum n => NumberToString host n
  | VStr s => s
  | VArr _ | VObj _ => ""
  end.

(** ToPrimitive: arrays and objects go through their string form. *)
Definition to_primitive (host : Host) (v : value) : option value :=
  match v with
  | VArr _ | VObj _ =>
      match toString host v with
      | Some s => Some (VStr s)
      | None => None
      end
  | _ => Some v
  end.

(** A template literal interpolating [v] *)
Definition template (host : Host) (v : value) : option string :=
  match to_primitive host v with
  | Some p => Some (prim_to_string host p)
  | None => None
  end.

Definition number_add (a b : number) : number :=
  match a, b with
  | Int x, Int y => Int (x + y)
  | _, _ => NaN
  end.

(** [a + b] : string concatenation as soon as one side is a string, bigint
    addition for two bigints, number addition for two non-bigints, and a
    TypeError when a bigint meets a number. *)
Definition add (host : Host) (a b : value) : result value :=
  match to_primitive host a, to_primitive host b with
  | Some pa, Some pb =>
      match pa, pb with
      | VStr s, _ => Ok (VStr (s ++ prim_to_string host pb))
      | _, VStr s => Ok (VStr (prim_to_string host pa ++ s))
      | VBig x, VBig y => Ok (VBig (x + y))
      | VBig _, _ | _, VBig _ => Throw TypeError
      | _, _ =>
          match ToNumber host pa, ToNumber host pb with
          | Some x, Some y => Ok (VNum (number_add x y))
          | _, _ => Throw TypeError
          end
      end
  | _, _ => Throw TypeError
  end.

(** [a - b] with [b] a bigint *)
Definition sub_big (a : value) (b : Z) : result value :=
  match a with
  | VBig x => Ok (VBig (x - b))
  | _ => Throw TypeError
  end.

(** [a * b] with [b] a bigint: any other left operand is a TypeError
    (numbers cannot be mixed with bigints, and every other value converts
    to a number first). *)
Definition mul_big (a : value) (b : Z) : result value :=
  match a with
  | VBig x => Ok (VBig (x * b))
  | _ => Throw TypeError
  end.

(** [n || 1] then [BigInt(...)] for an optional count.  [BigInt] raises a
    RangeError on a fractional or infinite number; those are outside the
    embedding, so what is proved about a count is proved for requests whose
    amount is absent or whole. *)
Definition count_or_one (n : option number) : Z :=
  match n with
  | Some (Int z) => if z =? 0 then 1 else z
  | _ => 1
  end.

End Js.
Import Js.

(** ** Remote reads and the effect monad *)

Module Rpc.

(** The ABI a read is decoded against: one of the tables imported from
    [~/lib/nft-standards], or a fragment written inline at the call site
    (input types, output types, mutability; the fragment's name is the
    function name of the call). *)
Inductive abi : Type :=
| ERC165_ABI
| MANIFOLD_DETECTION_ABI
| MANIFOLD_EXTENSION_ABI
| MANIFOLD_ERC721_EXTENSION_ABI
| MANIFOLD_ERC1155_EXTENSION_ABI
| PRICE_DISCOVERY_ABI
| MINT_ABI
| THIRDWEB_OPENEDITONERC721_ABI
| THIRDWEB_ERC1155_EXTENSION_ABI
| Fragment (inputs outputs : list string) (stateMutability : string).

(** The argument object of [client.readContract]. *)
Record call : Type := mkCall {
  address : value;
  abi_of : abi;
  functionName : string;
  args : list value
}.

(** The chain seen through the client: the answer to a read may depend on
    every read issued before it; [None] is a rejected promise (revert,
    timeout, undecodable data). *)
Definition PublicClient : Type := list call -> call -> option value.

(** State threaded through the engine: the reads issued so far, oldest first,
    and the objects the code mutates in place. *)
Record state (H : Type) : Type := mkState {
  trace : list call;
  heap : H
}.
Arguments mkState {H} trace heap.
Arguments trace {H} s.
Arguments heap {H} s.

Definition M (H A : Type) : Type := state H -> result A * state H.

Definition ret {H A} (a : A) : M H A :=
  fun s => (Ok a, s).

Definition bind {H A B} (m : M H A) (k : A -> M H B) : M H B :=
  fun s =>
    match m s with
    | (Ok a, s') => k a s'
    | (Throw e, s') => (Throw e, s')
    end.

Definition throw {H A} (e : exn) : M H A :=
  fun s => (Throw e, s).

(** [try { m } catch (e) { handler e }] : what [m] did to the state stays. *)
Definition try_catch {H A} (m : M H A) (handler : exn -> M H A) : M H A :=
  fun s =>
    match m s with
    | (Ok a, s') => (Ok a, s')
    | (Throw e, s') => handler e s'
    end.

(** A promise run to completion, its outcome kept as data. *)
Definition settle {H A} (m : M H A) : M H (result A) :=
  fun s => let (r, s') := m s in (Ok r, s').

(** [await] of a settled promise *)
Definition await {H A} (r : result A) : M H A :=
  match r with
  | Ok a => ret a
  | Throw e => throw e
  end.

(** [promise.catch(() => d)] *)
Definition catch_as {H A} (m : M H A) (d : A) : M H A :=
  try_catch m (fun _ => ret d).

Definition get_heap {H} : M H H :=
  fun s => (Ok (heap s), s).

Definition set_heap {H} (h : H) : M H unit :=
  fun s => (Ok tt, mkState (trace s) h).

Definition lift {H A} (r : result A) : M H A :=
  await r.

(** The value of a host conversion that throws a TypeError when undefined. *)
Definition or_TypeError {H A} (o : option A) : M H A :=
  match o with
  | Some a => ret a
  | None => throw TypeError
  end.

Section Client.
Variable client : PublicClient.

Definition readContract {H} (c : call) : M H value :=
  fun s =>
    (match client (trace s) c with
     | Some v => Ok v
     | None => Throw CallFailed
     end,
     mkState (List.app (trace s) [c]) (heap s)).

End Client.

End Rpc.
Import Rpc.

Declare Scope engine_scope.
Delimit Scope engine_scope with engine.
Notation "x <- m ;; k" := (bind m (fun x => k))
  (at level 61, m at next level, right associativity) : engine_scope.
Notation "m ;;; k" := (bind m (fun _ => k))
  (at level 61, right associativity) : engine_scope.
Open Scope engine_scope.

(** A template literal that interpolates a value read from the chain (the
    log lines of the engine): converting an array or object to a string can
    itself raise, inside whatever [try] encloses the log line. *)
Definition interpolate {H} (host : Host) (v : value) : M H string :=
  or_TypeError (template host v).

(** ** The data model of [~/lib/types] *)

(** The keys of PROVIDER_CONFIGS. *)
Inductive NFTProvider : Type :=
| manifold
| opensea
| zora
| generic
| nfts2me
| thirdweb.

Definition provider_eqb (a b : NFTProvider) : bool :=
  match a, b with
  | manifold, manifold | opensea, opensea | zora, zora
  | generic, generic | nfts2me, nfts2me | thirdweb, thirdweb => true
  | _, _ => false
  end.

Record MintParams : Type := mkMintParams {
  contractAddress : string;
  chainId : number;
  provider : option NFTProvider;
  recipient : option string;
  amount : option number;
  tokenId : option string;
  instanceId : option string;
  merkleProof : option (list string)
}.

(** [contractInfo.claim] : the Manifold claim record, fields as read. *)
Record Claim : Type := mkClaim {
  cost : value;
  merkleRoot : value;
  erc20 : value;
  startDate : value;
  endDate : value;
  walletMax : value
}.

(** [contractInfo.claimCondition] : the thirdweb claim condition. *)
Record ClaimCondition : Type := mkClaimCondition {
  id : number;
  pricePerToken : value;
  currency : value;
  maxClaimableSupply : value;
  cc_merkleRoot : value;
  startTimestamp : number;
  quantityLimitPerWallet : value
}.

Record NFTContractInfo : Type := mkInfo {
  info_provider : NFTProvider;
  isERC1155 : bool;
  isERC721 : bool;
  extensionAddress : value;               (* VUndef when absent *)
  hasManifoldExtension : option bool;
  claim : option Claim;
  claimCondition : option ClaimCondition
}.

Record Erc20Details : Type := mkErc20 {
  erc20_address : value;
  symbol : value;
  decimals : number;
  allowance : value;
  balance : value
}.

(** The result of fetchPriceData: [totalCost] is the one mandatory field. *)
Record PriceData : Type := mkPriceData {
  mintPrice : option value;
  erc20Details : option Erc20Details;
  totalCost : value;
  price_claim : option Claim
}.

(** Constants of [~/lib/nft-standards] that the engine compares against. *)
Record Standards : Type := {
  KNOWN_CONTRACTS_manifoldExtension : string;
  THIRDWEB_NATIVE_TOKEN : string;
  INTERFACE_IDS_ERC721 : string;
  INTERFACE_IDS_ERC1155 : string
}.

(** ** provider-configs.ts *)

Module ProviderConfigs.

Record PriceDiscovery : Type := mkPriceDiscovery {
  abis : list abi;
  functionNames : list string;
  requiresInstanceId : option bool;
  requiresAmountParam : option bool
}.

(** [buildArgs] builds the arguments of the mint transaction for the
    submission layer; neither the detector nor the price resolver calls it,
    and it is left out of the record. *)
Record MintConfig : Type := mkMintConfig {
  mint_abi : abi;
  mint_functionName : string;
  calculateValue : value -> MintParams -> result value
}.

Record ProviderConfig : Type := mkProviderConfig {
  name : string;
  extensionAddresses : option (list string);
  priceDiscovery : PriceDiscovery;
  mintConfig : MintConfig;
  requiredParams : list string;
  supportsERC20 : bool
}.

(** The address the detector and the configuration hardcode. *)
Definition HARDCODED_THIRDWEB_EXTENSION : string :=
  "0xcd0bafa3bba1b32869343fb69d2778daf4412181".

Definition ONE_XDAI : Z := 1000000000000000000.

(** [price * BigInt(params.amount || 1)] *)
Definition price_times_amount (price : value) (params : MintParams) : result value :=
  mul_big price (count_or_one (amount params)).

Section Configs.
Variable host : Host.
Variable std : Standards.

Definition manifold_config : ProviderConfig :=
  {| name := "manifold";
     extensionAddresses := Some [KNOWN_CONTRACTS_manifoldExtension std];
     priceDiscovery :=
       {| abis := [MANIFOLD_EXTENSION_ABI];
          functionNames := ["MINT_FEE"];
          requiresInstanceId := Some true;
          requiresAmountParam := None |};
     mintConfig :=
       {| mint_abi := MANIFOLD_EXTENSION_ABI;
          mint_functionName := "mint";
          calculateValue := fun mintFee _ => Ok mintFee |};
     requiredParams := ["contractAddress"; "chainId"];
     supportsERC20 := true |}.

Definition opensea_config : ProviderConfig :=
  {| name := "opensea";
     extensionAddresses := None;
     priceDiscovery :=
       {| abis := [PRICE_DISCOVERY_ABI];
          functionNames := ["mintPrice"; "price"; "publicMintPrice"];
          requiresInstanceId := None;
          requiresAmountParam := None |};
     mintConfig :=
       {| mint_abi := MINT_ABI;
          mint_functionName := "mint";
          calculateValue := price_times_amount |};
     requiredParams := ["contractAddress"; "chainId"];
     supportsERC20 := false |}.

Definition zora_config : ProviderConfig :=
  {| name := "zora";
     extensionAddresses := None;
     priceDiscovery :=
       {| abis := [PRICE_DISCOVERY_ABI];
          functionNames := ["mintPrice"; "price"];
          requiresInstanceId := None;
          requiresAmountParam := None |};
     mintConfig :=
       {| mint_abi := MINT_ABI;
          mint_functionName := "mint";
          calculateValue := price_times_amount |};
     requiredParams := ["contractAddress"; "chainId"];
     supportsERC20 := false |}.

Definition generic_config : ProviderConfig :=
  {| name := "generic";
     extensionAddresses := None;
     priceDiscovery :=
       {| abis := [PRICE_DISCOVERY_ABI];
          functionNames := ["mintPrice"; "price"; "MINT_PRICE"; "getMintPrice"];
          requiresInstanceId := None;
          requiresAmountParam := None |};
     mintConfig :=
       {| mint_abi := MINT_ABI;
          mint_functionName := "mint";
          calculateValue := price_times_amount |};
     requiredParams := ["contractAddress"; "chainId"];
     supportsERC20 := false |}.

Definition nfts2me_config : ProviderConfig :=
  {| name := "nfts2me";
     extensionAddresses := None;
     priceDiscovery :=
       {| abis := [Fragment ["uint256"] ["uint256"] "view"];
          functionNames := ["mintFee"];
          requiresInstanceId := None;
          requiresAmountParam := Some true |};
     mintConfig :=
       {| mint_abi := Fragment ["uint256"] [] "payable";
          mint_functionName := "mint";
          calculateValue := price_times_amount |};
     requiredParams := ["contractAddress"; "chainId"];
     supportsERC20 := false |}.

Definition thirdweb_config : ProviderConfig :=
  {| name := "thirdweb";
     extensionAddresses := None;
     priceDiscovery :=
       {| abis := [THIRDWEB_OPENEDITONERC721_ABI];
          functionNames := ["claimCondition"; "getClaimConditionById"];
          requiresInstanceId := Some false;
          requiresAmountParam := None |};
     mintConfig :=
       {| mint_abi := THIRDWEB_OPENEDITONERC721_ABI;
          mint_functionName := "claim";
          calculateValue := price_times_amount |};
     requiredParams := ["contractAddress"; "chainId"];
     supportsERC20 := true |}.

Definition PROVIDER_CONFIGS (p : NFTProvider) : ProviderConfig :=
  match p with
  | manifold => manifold_config
  | opensea => opensea_config
  | zora => zora_config
  | generic => generic_config
  | nfts2me => nfts2me_config
  | thirdweb => thirdweb_config
  end.

Definition getManifoldABI (contractInfo : option NFTContractInfo) : abi :=
  match contractInfo with
  | None => MANIFOLD_ERC721_EXTENSION_ABI
  | Some info =>
      if isERC721 info then MANIFOLD_ERC721_EXTENSION_ABI
      else if isERC1155 info then MANIFOLD_ERC1155_EXTENSION_ABI
      else MANIFOLD_ERC721_EXTENSION_ABI
  end.

(** [currency && currency.toLowerCase() !== THIRDWEB_NATIVE_TOKEN.toLowerCase()];
    a truthy currency that is not a string has no [toLowerCase]. *)
Definition pays_in_erc20 (currency : value) : result bool :=
  if truthy currency then
    match lower host currency with
    | Some c => Ok (negb (c =? toLowerCase host (THIRDWEB_NATIVE_TOKEN std))%string)
    | None => Throw TypeError
    end
  else Ok false.

(** The value rule of the two derived thirdweb configurations. *)
Definition thirdweb_calculateValue (contractInfo : NFTContractInfo)
    (price : value) (params : MintParams) : result value :=
  let currency := match claimCondition contractInfo with
                  | Some cc => currency cc
                  | None => VUndef
                  end in
  match pays_in_erc20 currency with
  | Ok false => price_times_amount price params
  | Ok true => Ok (VBig 0)
  | Throw e => Throw e
  end.

Definition is_hardcoded_address (addr : string) : bool :=
  (toLowerCase host addr =? HARDCODED_THIRDWEB_EXTENSION)%string.

Definition getProviderConfig (provider : NFTProvider)
    (contractInfo : option NFTContractInfo) (params : option MintParams)
  : ProviderConfig :=
  let baseConfig := PROVIDER_CONFIGS provider in
  match provider with
  | manifold =>
      let manifoldABI := getManifoldABI contractInfo in
      {| name := name baseConfig;
         extensionAddresses := extensionAddresses baseConfig;
         priceDiscovery :=
           {| abis := [manifoldABI];
              functionNames := functionNames (priceDiscovery baseConfig);
              requiresInstanceId := requiresInstanceId (priceDiscovery baseConfig);
              requiresAmountParam := requiresAmountParam (priceDiscovery baseConfig) |};
         mintConfig :=
           {| mint_abi := manifoldABI;
              mint_functionName := mint_functionName (mintConfig baseConfig);
              calculateValue := calculateValue (mintConfig baseConfig) |};
         requiredParams := requiredParams baseConfig;
         supportsERC20 := supportsERC20 baseConfig |}
  | thirdweb =>
      match contractInfo with
      | None => baseConfig
      | Some info =>
          let extensionDiscovery :=
            {| abis := [THIRDWEB_ERC1155_EXTENSION_ABI];
               functionNames := ["claimCondition"];
               requiresInstanceId := Some false;
               requiresAmountParam := None |} in
          if isERC1155 info then
            if match params with
               | Some p => is_hardcoded_address (contractAddress p)
               | None => false
               end
            then
              {| name := name baseConfig;
                 extensionAddresses := extensionAddresses baseConfig;
                 priceDiscovery := extensionDiscovery;
                 mintConfig :=
                   {| mint_abi := THIRDWEB_ERC1155_EXTENSION_ABI;
                      mint_functionName := "claim";
                      calculateValue := fun _ p =>
                        Ok (VBig (ONE_XDAI * count_or_one (amount p))) |};
                 requiredParams := requiredParams baseConfig;
                 supportsERC20 := supportsERC20 baseConfig |}
            else
              {| name := name baseConfig;
                 extensionAddresses := extensionAddresses baseConfig;
                 priceDiscovery := extensionDiscovery;
                 mintConfig :=
                   {| mint_abi := THIRDWEB_ERC1155_EXTENSION_ABI;
                      mint_functionName := "claim";
                      calculateValue := thirdweb_calculateValue info |};
                 requiredParams := requiredParams baseConfig;
                 supportsERC20 := supportsERC20 baseConfig |}
          else
            match claimCondition info with
            | Some _ =>
                {| name := name baseConfig;
                   extensionAddresses := extensionAddresses baseConfig;
                   priceDiscovery := priceDiscovery baseConfig;
                   mintConfig :=
                     {| mint_abi := mint_abi (mintConfig baseConfig);
                        mint_functionName := mint_functionName (mintConfig baseConfig);
                        calculateValue := thirdweb_calculateValue info |};
                   requiredParams := requiredParams baseConfig;
                   supportsERC20 := supportsERC20 baseConfig |}
            | None => baseConfig
            end
      end
  | _ => baseConfig
  end.

End Configs.

End ProviderConfigs.
Import ProviderConfigs.

(** ** provider-detector.ts *)

Module ProviderDetector.

Definition ZERO_ADDRESS : string :=
  "0x0000000000000000000000000000000000000000".

Definition ZERO_BYTES32 : string :=
  "0x0000000000000000000000000000000000000000000000000000000000000000".

(** A classification without extension data. *)
Definition basic_info (p : NFTProvider) (is1155 is721 : bool) : NFTContractInfo :=
  {| info_provider := p;
     isERC1155 := is1155;
     isERC721 := is721;
     extensionAddress := VUndef;
     hasManifoldExtension := None;
     claim := None;
     claimCondition := None |}.

(** [{ provider, isERC1155: isERC1155 as boolean, isERC721: isERC721 as boolean }]
    built from the answers of the interface probes.  The cast is static; the
    record keeps the boolean the answer stands for, the only thing any reader
    of the flags looks at. *)
Definition classified (p : NFTProvider) (isERC721 isERC1155 : value) : NFTContractInfo :=
  basic_info p (truthy isERC1155) (truthy isERC721).

Definition manifold_info (is1155 is721 : bool) (ext : value) : NFTContractInfo :=
  {| info_provider := manifold;
     isERC1155 := is1155;
     isERC721 := is721;
     extensionAddress := ext;
     hasManifoldExtension := Some true;
     claim := None;
     claimCondition := None |}.

(** [try { m } catch { }] around a block that returns from the function when
    it yields [Some]. *)
Definition attempt {H A} (m : M H (option A)) : M H (option A) :=
  try_catch m (fun _ => ret None).

(** Statement sequencing with early return. *)
Definition or_next {H A} (m k : M H (option A)) : M H (option A) :=
  r <- m ;;
  match r with
  | Some a => ret (Some a)
  | None => k
  end.

Fixpoint first_of {H A} (steps : list (M H (option A))) : M H (option A) :=
  match steps with
  | [] => ret None
  | m :: rest => or_next m (first_of rest)
  end.

Section Detector.
Variable host : Host.
Variable std : Standards.
Variable client : PublicClient.

Definition Det : Type -> Type := M unit.

Definition read (c : call) : Det value := readContract client c.

Definition supportsInterface_call (addr : string) (interfaceId : string) : call :=
  mkCall (VStr addr) ERC165_ABI "supportsInterface" [VStr interfaceId].

Definition getExtensions_call (addr : string) : call :=
  mkCall (VStr addr) MANIFOLD_DETECTION_ABI "getExtensions" [].

(** Batch 1: the three probes of the Promise.all, each with its own
    [.catch]; the embedding issues them in array order. *)
Definition interface_batch (addr : string) : Det (value * value * value) :=
  isERC721 <- catch_as (read (supportsInterface_call addr (INTERFACE_IDS_ERC721 std))) (VBool false) ;;
  isERC1155 <- catch_as (read (supportsInterface_call addr (INTERFACE_IDS_ERC1155 std))) (VBool false) ;;
  extensions <- catch_as (read (getExtensions_call addr)) VNull ;;
  ret (isERC721, isERC1155, extensions).

(** [PROVIDER_CONFIGS.manifold.extensionAddresses?.includes(ext)] *)
Definition is_known_extension (ext : value) : bool :=
  match extensionAddresses (PROVIDER_CONFIGS std manifold) with
  | Some known => existsb (is_string ext) known
  | None => false
  end.

(** [extensions.find(...)] : only arrays have [find]. *)
Definition find_known_extension (extensions : value) : Det value :=
  match extensions with
  | VArr items =>
      ret (match List.find is_known_extension items with
           | Some ext => ext
           | None => VUndef
           end)
  | _ => throw TypeError
  end.

(** [extensions.length > 0] *)
Definition has_entries (extensions : value) : Det bool :=
  or_TypeError (gt_zero host (getprop extensions "length")).

Definition manifold_step (isERC721 isERC1155 extensions : value)
  : Det (option NFTContractInfo) :=
  if truthy extensions then
    nonempty <- has_entries extensions ;;
    if (nonempty : bool) then
      knownManifoldExtension <- find_known_extension extensions ;;
      accept <- (if truthy knownManifoldExtension then ret true
                 else has_entries extensions) ;;
      if (accept : bool) then
        ret (Some (manifold_info (truthy isERC1155) (truthy isERC721)
                     (or_else knownManifoldExtension (index extensions 0))))
      else ret None
    else ret None
  else ret None.

Definition nfts2me_step (addr : string) (isERC721 isERC1155 : value)
  : Det (option NFTContractInfo) :=
  attempt (
    version <- read (mkCall (VStr addr) (Fragment [] ["uint256"] "pure") "n2mVersion" []) ;;
    if is_undefined version then ret None
    else
      interpolate host version ;;;
      ret (Some (classified nfts2me isERC721 isERC1155))).

Definition sharedMetadata_call (addr : string) : call :=
  mkCall (VStr addr) (Fragment [] ["string"; "string"; "string"; "string"] "view")
    "sharedMetadata" [].

Definition erc721_claimCondition_call (addr : string) : call :=
  mkCall (VStr addr) (Fragment [] ["uint256"; "uint256"] "view") "claimCondition" [].

Definition thirdweb_erc721_step (addr : string) (isERC721 isERC1155 : value)
  : Det (option NFTContractInfo) :=
  if truthy isERC721 then
    attempt (
      claimConditionResult <- read (erc721_claimCondition_call addr) ;;
      match claimConditionResult with
      | VArr [startId; count] =>
          interpolate host startId ;;;
          interpolate host count ;;;
          try_catch (read (sharedMetadata_call addr) ;;; ret tt) (fun _ => ret tt) ;;;
          ret (Some (classified thirdweb isERC721 isERC1155))
      | _ => ret None
      end)
  else ret None.

Definition CLAIM_CONDITION_OUTPUTS : list string :=
  ["uint256"; "uint256"; "uint256"; "bytes32"; "uint256"; "address"; "string"].

Definition erc1155_claimCondition_call (addr : string) : call :=
  mkCall (VStr addr) (Fragment ["uint256"] CLAIM_CONDITION_OUTPUTS "view")
    "claimCondition" [VBig 0].

(** Pattern 1: claimCondition mapping with a token id *)
Definition pattern_claimCondition (addr : string) (isERC721 isERC1155 : value)
  : Det (option NFTContractInfo) :=
  attempt (
    r <- read (erc1155_claimCondition_call addr) ;;
    if truthy r && typeof_object r
    then ret (Some (classified thirdweb isERC721 isERC1155))
    else ret None).

(** Pattern 2: multi-phase drop *)
Definition pattern_activeClaimConditionId (addr : string) (isERC721 isERC1155 : value)
  : Det (option NFTContractInfo) :=
  attempt (
    activeId <- read (mkCall (VStr addr) (Fragment [] ["uint256"] "view")
                        "getActiveClaimConditionId" []) ;;
    if typeof_bigint activeId || typeof_number activeId
    then interpolate host activeId ;;; ret (Some (classified thirdweb isERC721 isERC1155))
    else ret None).

Definition VERIFY_REQUEST : value :=
  VObj [("to", VStr ZERO_ADDRESS); ("tokenId", VBig 0); ("quantity", VBig 1);
        ("pricePerToken", VBig 0); ("currency", VStr ZERO_ADDRESS);
        ("validityStartTimestamp", VBig 0); ("validityEndTimestamp", VBig 0);
        ("uid", VStr ZERO_BYTES32)].

(** Pattern 3: signature minting; callable without revert is a match. *)
Definition pattern_verify (addr : string) (isERC721 isERC1155 : value)
  : Det (option NFTContractInfo) :=
  attempt (
    read (mkCall (VStr addr)
            (Fragment ["tuple(address,uint256,uint256,uint256,address,uint128,uint128,bytes32)"; "bytes"]
                      ["bool"; "address"] "view")
            "verify" [VERIFY_REQUEST; VStr "0x"]) ;;;
    ret (Some (classified thirdweb isERC721 isERC1155))).

Definition thirdwebIndicators : list string :=
  ["contractURI"; "owner"; "nextTokenIdToMint"; "totalSupply";
   "mintTo"; "lazyMint"; "reveal"; "setClaimConditions"].

(** The two counting loops (patterns 4 and 7): every accessor that answers
    bumps the counter, and the second hit classifies. *)
Fixpoint counting_loop (addr : string) (fragment : abi) (isERC721 isERC1155 : value)
    (names : list string) (found : nat) : Det (option NFTContractInfo) :=
  match names with
  | [] => ret None
  | functionName :: rest =>
      hit <- try_catch
               (read (mkCall (VStr addr) fragment functionName []) ;;;
                ret (Some (S found)))
               (fun _ => ret None) ;;
      match hit with
      | Some found' =>
          if (2 <=? found')%nat
          then ret (Some (classified thirdweb isERC721 isERC1155))
          else counting_loop addr fragment isERC721 isERC1155 rest found'
      | None => counting_loop addr fragment isERC721 isERC1155 rest found
      end
  end.

Definition pattern_indicators (addr : string) (isERC721 isERC1155 : value)
  : Det (option NFTContractInfo) :=
  counting_loop addr (Fragment [] ["string"] "view") isERC721 isERC1155
    thirdwebIndicators 0.

Definition drop1155Functions : list string :=
  ["claim"; "setClaimConditions"; "getActiveClaimConditionId"; "verifyClaim"].

Definition takes_claim_arguments (functionName : string) : bool :=
  (functionName =? "claim")%string || (functionName =? "verifyClaim")%string.

(** Pattern 5: drop functions, each tried without arguments and, for the two
    that take some, once more under the five-argument signature. *)
Fixpoint pattern_drop1155 (addr : string) (isERC721 isERC1155 : value)
    (names : list string) : Det (option NFTContractInfo) :=
  match names with
  | [] => ret None
  | functionName :: rest =>
      or_next
        (try_catch
           (read (mkCall (VStr addr) (Fragment [] ["uint256"] "view") functionName []) ;;;
            ret (Some (classified thirdweb isERC721 isERC1155)))
           (fun _ =>
              if takes_claim_arguments functionName then
                attempt (
                  read (mkCall (VStr addr)
                          (Fragment ["address"; "uint256"; "uint256"; "address"; "uint256"]
                                    [] "payable")
                          functionName []) ;;;
                  ret (Some (classified thirdweb isERC721 isERC1155)))
              else ret None))
        (pattern_drop1155 addr isERC721 isERC1155 rest)
  end.

(** Pattern 6, first check: ERC165 probe for ISignatureMintERC1155 *)
Definition pattern_signatureMintInterface (addr : string) (isERC721 isERC1155 : value)
  : Det (option NFTContractInfo) :=
  attempt (
    supportsSignatureMint <-
      read (mkCall (VStr addr) (Fragment ["bytes4"] ["bool"] "view")
              "supportsInterface" [VStr "0x4e2312e0"]) ;;
    if truthy supportsSignatureMint
    then ret (Some (classified thirdweb isERC721 isERC1155))
    else ret None).

Definition pattern_mintWithSignature (addr : string) (isERC721 isERC1155 : value)
  : Det (option NFTContractInfo) :=
  attempt (
    read (mkCall (VStr addr)
            (Fragment ["tuple(address,address,uint256,address,uint256,string,uint256,uint256,address,uint128,uint128,bytes32)"; "bytes"]
                      [] "payable")
            "mintWithSignature" []) ;;;
    ret (Some (classified thirdweb isERC721 isERC1155))).

Definition extensionFunctions : list string :=
  ["getAllExtensions"; "addExtension"; "removeExtension"; "replaceExtension";
   "getMetadataForFunction"].

(** Extension-management accessors under two output-shape assumptions. *)
Fixpoint pattern_extensionFunctions (addr : string) (isERC721 isERC1155 : value)
    (names : list string) : Det (option NFTContractInfo) :=
  match names with
  | [] => ret None
  | functionName :: rest =>
      or_next
        (try_catch
           (read (mkCall (VStr addr) (Fragment [] ["address[]"] "view") functionName []) ;;;
            ret (Some (classified thirdweb isERC721 isERC1155)))
           (fun _ =>
              attempt (
                read (mkCall (VStr addr) (Fragment ["string"] ["address"] "view")
                        functionName []) ;;;
                ret (Some (classified thirdweb isERC721 isERC1155)))))
        (pattern_extensionFunctions addr isERC721 isERC1155 rest)
  end.

Definition extensionMetadataFunctions : list string :=
  ["_initializeOwner"; "_setupRole"; "_setupContractURI"; "_setupDefaultRoyalty";
   "_setupPrimarySaleRecipient"].

Definition pattern_extensionMetadata (addr : string) (isERC721 isERC1155 : value)
  : Det (option NFTContractInfo) :=
  counting_loop addr (Fragment ["bytes"] [] "nonpayable") isERC721 isERC1155
    extensionMetadataFunctions 0.

(** Pattern 8: uri(0) and then totalSupply(0), both required. *)
Definition pattern_uri_totalSupply (addr : string) (isERC721 isERC1155 : value)
  : Det (option NFTContractInfo) :=
  attempt (
    read (mkCall (VStr addr) (Fragment ["uint256"] ["string"] "view") "uri" [VBig 0]) ;;;
    attempt (
      read (mkCall (VStr addr) (Fragment ["uint256"] ["uint256"] "view")
              "totalSupply" [VBig 0]) ;;;
      ret (Some (classified thirdweb isERC721 isERC1155)))).

Definition thirdweb_erc1155_steps (addr : string) (isERC721 isERC1155 : value)
  : Det (option NFTContractInfo) :=
  if truthy isERC1155 then
    first_of
      [ pattern_claimCondition addr isERC721 isERC1155;
        pattern_activeClaimConditionId addr isERC721 isERC1155;
        pattern_verify addr isERC721 isERC1155;
        pattern_indicators addr isERC721 isERC1155;
        pattern_drop1155 addr isERC721 isERC1155 drop1155Functions;
        pattern_signatureMintInterface addr isERC721 isERC1155;
        pattern_mintWithSignature addr isERC721 isERC1155;
        pattern_extensionFunctions addr isERC721 isERC1155 extensionFunctions;
        pattern_extensionMetadata addr isERC721 isERC1155;
        pattern_uri_totalSupply addr isERC721 isERC1155 ]
  else ret None.

(** The heuristics after the interface batch, in source order. *)
Definition heuristics (addr : string) (isERC721 isERC1155 extensions : value)
  : Det (option NFTContractInfo) :=
  first_of
    [ manifold_step isERC721 isERC1155 extensions;
      nfts2me_step addr isERC721 isERC1155;
      thirdweb_erc721_step addr isERC721 isERC1155;
      thirdweb_erc1155_steps addr isERC721 isERC1155 ].

(** The body of the outer [try]. *)
Definition detection_cascade (addr : string) : Det NFTContractInfo :=
  probes <- interface_batch addr ;;
  let '(isERC721, isERC1155, extensions) := probes in
  matched <- heuristics addr isERC721 isERC1155 extensions ;;
  match matched with
  | Some info => ret info
  | None => ret (classified generic isERC721 isERC1155)
  end.

(** [getClientForChain] only builds the client object: no read is issued and
    the embedding takes it to succeed for every chain id. *)
Definition detectNFTProvider (params : MintParams) : Det NFTContractInfo :=
  if is_hardcoded_address host (contractAddress params) then
    ret (basic_info thirdweb true false)
  else
    match provider params with
    | Some specifiedProvider =>
        let config := PROVIDER_CONFIGS std specifiedProvider in
        match specifiedProvider, extensionAddresses config with
        | manifold, Some (ext :: _) =>
            if string_truthy ext
            then ret (manifold_info true false (VStr ext))
            else ret (basic_info specifiedProvider false false)
        | _, _ => ret (basic_info specifiedProvider false false)
        end
    | None =>
        try_catch (detection_cascade (contractAddress params))
          (fun _ => ret (basic_info generic false false))
    end.

End Detector.

(** *** validateParameters *)

Record Validation : Type := mkValidation {
  isValid : bool;
  missingParams : list string;
  errors : list string
}.

Definition is_some {A} (o : option A) : bool :=
  match o with Some _ => true | None => false end.

(** [!!params[param]] *)
Definition param_present (params : MintParams) (param : string) : bool :=
  if (param =? "contractAddress")%string then string_truthy (contractAddress params)
  else if (param =? "chainId")%string then number_truthy (chainId params)
  else if (param =? "provider")%string then is_some (provider params)
  else if (param =? "recipient")%string then opt_truthy (recipient params)
  else if (param =? "amount")%string then
    match amount params with Some n => number_truthy n | None => false end
  else if (param =? "tokenId")%string then opt_truthy (tokenId params)
  else if (param =? "instanceId")%string then opt_truthy (instanceId params)
  else if (param =? "merkleProof")%string then is_some (merkleProof params)
  else false.

Definition MERKLE_PROOF_ERROR : string :=
  "This NFT requires a merkle proof for minting - not supported yet".

Definition MANIFOLD_ID_ERROR : string :=
  "Manifold NFTs require either instanceId or tokenId. Check the claim page URL for (e.g., /instance/123456) use getClaimForToken to find a specific".

(** [root && root !== "0x00..00"] *)
Definition needs_merkle_proof (root : value) : bool :=
  truthy root && negb (is_string root ZERO_BYTES32).

Section Validator.
Variable host : Host.
Variable std : Standards.

Definition manifold_errors (params : MintParams) (contractInfo : NFTContractInfo)
  : list string :=
  List.app
    (if negb (opt_truthy (instanceId params)) && negb (opt_truthy (tokenId params))
     then [MANIFOLD_ID_ERROR] else [])
    (List.app
       (match instanceId params with
        | Some i =>
            if string_truthy i then
              match parseInt host i with
              | NaN => ["Invalid instanceId format: " ++ i ++ ". Must be a positive integer."]
              | Int n =>
                  if n <? 0
                  then ["Invalid instanceId format: " ++ i ++ ". Must be a positive integer."]
                  else []
              end
            else []
        | None => []
        end)
       (match claim contractInfo with
        | Some c => if needs_merkle_proof (merkleRoot c) then [MERKLE_PROOF_ERROR] else []
        | None => []
        end)).

(** [now] is [Math.floor(Date.now() / 1000)], from the clock reading in ms. *)
Definition thirdweb_errors (now_ms : Z) (contractInfo : NFTContractInfo) : list string :=
  match claimCondition contractInfo with
  | Some cc =>
      List.app
        (if needs_merkle_proof (cc_merkleRoot cc) then [MERKLE_PROOF_ERROR] else [])
        (match startTimestamp cc with
         | Int start =>
             if negb (start =? 0) && (now_ms / 1000 <? start)
             then ["Claim has not started yet"] else []
         | NaN => []
         end)
  | None => []
  end.

Definition validateParameters (now_ms : Z) (params : MintParams)
    (contractInfo : NFTContractInfo) : Validation :=
  let config := PROVIDER_CONFIGS std (info_provider contractInfo) in
  let missingRequired :=
    filter (fun param => negb (param_present params param)) (requiredParams config) in
  let missingParams :=
    List.app missingRequired
      (if provider_eqb (info_provider contractInfo) manifold
          && negb (opt_truthy (instanceId params))
          && negb (opt_truthy (tokenId params))
       then ["instanceId or tokenId"] else []) in
  let errors :=
    List.app
      (if provider_eqb (info_provider contractInfo) manifold
       then manifold_errors params contractInfo else [])
      (if provider_eqb (info_provider contractInfo) thirdweb
       then thirdweb_errors now_ms contractInfo else []) in
  {| isValid := (Nat.eqb (List.length missingParams) 0)
                && (Nat.eqb (List.length errors) 0);
     missingParams := missingParams;
     errors := errors |}.

End Validator.

End ProviderDetector.
Import ProviderDetector.

(** ** The price optimizer: callManifoldWithFallback and fetchPriceData *)

Module PriceOptimizer.

(** The two argument objects fetchPriceData mutates in place. *)
Record Heap : Type := mkHeap {
  h_params : MintParams;
  h_info : NFTContractInfo
}.

Definition Price : Type -> Type := M Heap.

Definition set_instanceId (p : MintParams) (i : option string) : MintParams :=
  {| contractAddress := contractAddress p;
     chainId := chainId p;
     provider := provider p;
     recipient := recipient p;
     amount := amount p;
     tokenId := tokenId p;
     instanceId := i;
     merkleProof := merkleProof p |}.

Definition set_claim (i : NFTContractInfo) (c : Claim) : NFTContractInfo :=
  {| info_provider := info_provider i;
     isERC1155 := isERC1155 i;
     isERC721 := isERC721 i;
     extensionAddress := extensionAddress i;
     hasManifoldExtension := hasManifoldExtension i;
     claim := Some c;
     claimCondition := claimCondition i |}.

Definition set_claimCondition (i : NFTContractInfo) (cc : ClaimCondition)
  : NFTContractInfo :=
  {| info_provider := info_provider i;
     isERC1155 := isERC1155 i;
     isERC721 := isERC721 i;
     extensionAddress := extensionAddress i;
     hasManifoldExtension := hasManifoldExtension i;
     claim := claim i;
     claimCondition := Some cc |}.

(** [params] and [contractInfo] as they are now *)
Definition the_params : Price MintParams :=
  h <- get_heap ;; ret (h_params h).

Definition the_info : Price NFTContractInfo :=
  h <- get_heap ;; ret (h_info h).

(** [params.instanceId = i] *)
Definition assign_instanceId (i : string) : Price unit :=
  h <- get_heap ;;
  set_heap (mkHeap (set_instanceId (h_params h) (Some i)) (h_info h)).

(** [contractInfo.claim = c] *)
Definition assign_claim (c : Claim) : Price unit :=
  h <- get_heap ;;
  set_heap (mkHeap (h_params h) (set_claim (h_info h) c)).

(** [contractInfo.claimCondition = cc] *)
Definition assign_claimCondition (cc : ClaimCondition) : Price unit :=
  h <- get_heap ;;
  set_heap (mkHeap (h_params h) (set_claimCondition (h_info h) cc)).

Definition DEFAULT_MANIFOLD_FEE : Z := 500000000000000.
Definition NFTS2ME_CREATOR_FEE : Z := 100000000000000.
Definition NFTS2ME_PROTOCOL_FEE : Z := 100000000000000.

(** [{ mintPrice: p, totalCost: t }] *)
Definition priced (p t : value) : PriceData :=
  {| mintPrice := Some p; erc20Details := None; totalCost := t; price_claim := None |}.

(** [{ totalCost: t }] *)
Definition only_total (t : value) : PriceData :=
  {| mintPrice := None; erc20Details := None; totalCost := t; price_claim := None |}.

(** [{ mintPrice: mintFee || BigInt(0), totalCost: mintFee || BigInt(0) }] *)
Definition fee_only (mintFee : value) : PriceData :=
  priced (or_else mintFee (VBig 0)) (or_else mintFee (VBig 0)).

Definition REQUIRED_CLAIM_PROPS : list string :=
  ["cost"; "erc20"; "startDate"; "endDate"; "walletMax"].

Section Optimizer.
Variable host : Host.
Variable std : Standards.
Variable client : PublicClient.

Definition fetch (c : call) : Price value := readContract client c.

(** Try the ABI of the detected standard, then the other one; the second
    failure is rethrown. *)
Definition callManifoldWithFallback (address : value) (functionName : string)
    (args : list value) (contractInfo : NFTContractInfo) : Price value :=
  let primaryABI := if isERC721 contractInfo
                    then MANIFOLD_ERC721_EXTENSION_ABI
                    else MANIFOLD_ERC1155_EXTENSION_ABI in
  let fallbackABI := if isERC721 contractInfo
                     then MANIFOLD_ERC1155_EXTENSION_ABI
                     else MANIFOLD_ERC721_EXTENSION_ABI in
  try_catch (fetch (mkCall address primaryABI functionName args))
    (fun _ =>
       try_catch (fetch (mkCall address fallbackABI functionName args))
         (fun fallbackError => throw fallbackError)).

(** [BigInt(params.amount || 1)] *)
Definition amount_of (params : MintParams) : Z :=
  count_or_one (amount params).

Definition erc20_symbol_call (token : value) : call :=
  mkCall token (Fragment [] ["string"] "view") "symbol" [].

Definition erc20_decimals_call (token : value) : call :=
  mkCall token (Fragment [] ["uint8"] "view") "decimals" [].

Definition erc20_allowance_call (token spender : value) (owner : string) : call :=
  mkCall token (Fragment ["address"; "address"] ["uint256"] "view")
    "allowance" [VStr owner; spender].

Definition erc20_balanceOf_call (token : value) (owner : string) : call :=
  mkCall token (Fragment ["address"] ["uint256"] "view") "balanceOf" [VStr owner].

(** [isNaN(d) || d < 0 || d > 255] *)
Definition decimals_out_of_range (d : number) : bool :=
  match d with
  | NaN => true
  | Int z => (z <? 0) || (255 <? z)
  end.

(** [recipient ? read.catch(() => BigInt(0)) : Promise.resolve(undefined)] *)
Definition for_recipient (params : MintParams) (read : string -> Price value)
  : Price value :=
  match nonempty (recipient params) with
  | Some r => catch_as (read r) (VBig 0)
  | None => ret VUndef
  end.

(** The ERC20 leg, written twice in the source (Manifold claim and thirdweb
    claim condition) with only the spender of the allowance differing.
    Symbol, decimals, allowance and balance are one Promise.all batch, the
    last two only for a known recipient and each with its own [.catch]. *)
Definition erc20_batch (token spender : value)
  : Price (result value * result value * value * value) :=
  params <- the_params ;;
  symbolP <- settle (fetch (erc20_symbol_call token)) ;;
  decimalsP <- settle (fetch (erc20_decimals_call token)) ;;
  allowance <- for_recipient params (fun r =>
                 fetch (erc20_allowance_call token spender r)) ;;
  balance <- for_recipient params (fun r => fetch (erc20_balanceOf_call token r)) ;;
  ret (symbolP, decimalsP, allowance, balance).

(** The validation of the decimals: out of range is a hard error. *)
Definition validate_decimals (token decimals : value) : Price number :=
  validatedDecimals <- or_TypeError (ToNumber host decimals) ;;
  if decimals_out_of_range validatedDecimals then
    interpolate host token ;;;
    shown <- interpolate host decimals ;;
    throw (Error ("Invalid ERC20 decimals: " ++ shown))
  else ret validatedDecimals.

Definition fetch_erc20_details (token spender : value) : Price Erc20Details :=
  batch <- erc20_batch token spender ;;
  let '(symbolP, decimalsP, allowance, balance) := batch in
  symbol <- await symbolP ;;
  decimals <- await decimalsP ;;
  validatedDecimals <- validate_decimals token decimals ;;
  ret {| erc20_address := token;
         symbol := symbol;
         decimals := validatedDecimals;
         allowance := allowance;
         balance := balance |}.

(** *** Manifold *)

Definition mintFee_call_block (contractInfo : NFTContractInfo) : Price value :=
  callManifoldWithFallback (extensionAddress contractInfo) "MINT_FEE" [] contractInfo.

(** The claim lookup: by instance id when there is one, else by token id,
    else none.  [BigInt] of the id runs before the read is issued. *)
Definition claim_lookup (contractInfo : NFTContractInfo)
  : Price (option (result value)) :=
  params <- the_params ;;
  match nonempty (instanceId params), nonempty (tokenId params) with
  | Some i, _ =>
      n <- lift (BigInt_of_string host i) ;;
      r <- settle (callManifoldWithFallback (extensionAddress contractInfo) "getClaim"
                     [VStr (contractAddress params); VBig n] contractInfo) ;;
      ret (Some r)
  | None, Some t =>
      n <- lift (BigInt_of_string host t) ;;
      r <- settle (callManifoldWithFallback (extensionAddress contractInfo)
                     "getClaimForToken"
                     [VStr (contractAddress params); VBig n] contractInfo) ;;
      ret (Some r)
  | None, None => ret None
  end.

(** [promise.catch(err => null)] on a settled promise *)
Definition or_null (r : result value) : value :=
  match r with
  | Ok v => v
  | Throw _ => VNull
  end.

(** The getClaimForToken response format [[instanceId, claim]]: with a token
    id in the request, a two-element array is taken apart; its second element
    is the claim, and its first element is written to [params.instanceId]
    when the request has none. *)
Definition unwrap_claim (claimData : value) : Price value :=
  params <- the_params ;;
  match claimData with
  | VArr [extractedInstanceId; inner] =>
      if opt_truthy (tokenId params) then
        (if negb (opt_truthy (instanceId params)) then
           i <- or_TypeError (toString host extractedInstanceId) ;;
           assign_instanceId i
         else ret tt) ;;;
        ret inner
      else ret claimData
  | _ => ret claimData
  end.

(** The structural checks on the claim; [false] degrades to fee-only. *)
Definition claim_is_usable (theClaim : value) : bool :=
  if negb (typeof_object theClaim) || is_undefined (getprop theClaim "cost") then false
  else if negb (Nat.eqb (List.length
                           (filter (fun prop => is_undefined (getprop theClaim prop))
                                   REQUIRED_CLAIM_PROPS)) 0)
  then false
  else typeof_bigint (getprop theClaim "cost") || typeof_number (getprop theClaim "cost").

(** The object stored in [contractInfo.claim] *)
Definition claim_record (theClaim : value) : Claim :=
  {| cost := getprop theClaim "cost";
     merkleRoot := getprop theClaim "merkleRoot";
     erc20 := getprop theClaim "erc20";
     startDate := getprop theClaim "startDate";
     endDate := getprop theClaim "endDate";
     walletMax := getprop theClaim "walletMax" |}.

(** From the fee and the claim to the quote: structural checks (fee-only
    when they fail), the claim stored in [contractInfo.claim], then the ERC20
    leg or the native total. *)
Definition manifold_quote (mintFee theClaim : value) : Price PriceData :=
  params <- the_params ;;
  if truthy theClaim
     && (opt_truthy (instanceId params) || opt_truthy (tokenId params))
     && negb (claim_is_usable theClaim)
  then ret (fee_only mintFee)
  else if truthy theClaim then
    assign_claim (claim_record theClaim) ;;;
    stored <- the_info ;;
    if truthy (getprop theClaim "erc20")
       && negb (is_string (getprop theClaim "erc20") ZERO_ADDRESS)
    then
      details <- fetch_erc20_details (getprop theClaim "erc20")
                   (or_else (extensionAddress stored) (VStr (contractAddress params))) ;;
      ret {| mintPrice := Some (or_else mintFee (VBig 0));
             erc20Details := Some details;
             totalCost := or_else mintFee (VBig 0);
             price_claim := claim stored |}
    else
      total <- lift (add host (or_else mintFee (VBig 0))
                       (or_else (getprop theClaim "cost") (VBig 0))) ;;
      ret {| mintPrice := Some (or_else mintFee (VBig 0));
             erc20Details := None;
             totalCost := total;
             price_claim := claim stored |}
  else
    ret {| mintPrice := Some (or_else mintFee (VBig 0));
           erc20Details := None;
           totalCost := or_else mintFee (VBig 0);
           price_claim := None |}.

(** The two reads of the Manifold protocol: the fee and the claim.  They are
    the two members of one Promise.all, each with its own [.catch]; the
    embedding runs the fee read (with its retry) first and the lookup second,
    where the engine issues the first fee read, the first lookup read and
    then the retries.  The answers are the same on a chain whose answers do
    not depend on the log ([history_independent]), and whenever no retry is
    made.  The result is the fee (or null) and the claim after unwrapping
    (or null). *)
Definition manifold_gather (contractInfo : NFTContractInfo) : Price (value * value) :=
  mintFeeP <- settle (mintFee_call_block contractInfo) ;;
  claimP <- claim_lookup contractInfo ;;
  let mintFee := or_null mintFeeP in
  let claimData := match claimP with
                   | Some r => or_null r
                   | None => VNull
                   end in
  theClaim <- unwrap_claim claimData ;;
  ret (mintFee, theClaim).

(** The body of the Manifold [try]. *)
Definition manifold_protocol (contractInfo : NFTContractInfo) : Price PriceData :=
  gathered <- manifold_gather contractInfo ;;
  manifold_quote (fst gathered) (snd gathered).

(** The [catch] of the Manifold branch: fee-only retry, then the default
    fee of 0.0005 ETH. *)
Definition manifold_fallback (contractInfo : NFTContractInfo) : Price PriceData :=
  try_catch
    (mintFee <- mintFee_call_block contractInfo ;;
     ret (priced mintFee mintFee))
    (fun _ => ret (only_total (VBig DEFAULT_MANIFOLD_FEE))).

Definition manifold_branch (contractInfo : NFTContractInfo) : Price PriceData :=
  try_catch (manifold_protocol contractInfo)
    (fun _ => manifold_fallback contractInfo).

(** *** NFTs2Me *)

Definition mintPrice_call (params : MintParams) : call :=
  mkCall (VStr (contractAddress params)) (Fragment [] ["uint256"] "view") "mintPrice" [].

Definition mintFee_call (params : MintParams) : call :=
  mkCall (VStr (contractAddress params)) (Fragment ["uint256"] ["uint256"] "view")
    "mintFee" [VBig (amount_of params)].

Definition protocolFee_call (params : MintParams) : call :=
  mkCall (VStr (contractAddress params)) (Fragment [] ["uint256"] "view") "protocolFee" [].

(** Pattern 1: mintPrice() is the price per NFT. *)
Definition nfts2me_mintPrice (params : MintParams) : Price (option PriceData) :=
  attempt (
    price <- fetch (mintPrice_call params) ;;
    if is_undefined price then ret None
    else
      total <- lift (mul_big price (amount_of params)) ;;
      ret (Some (priced price total))).

(** Pattern 2: mintFee(amount) and protocolFee(), one Promise.all batch. *)
Definition nfts2me_fees (params : MintParams) : Price (option PriceData) :=
  attempt (
    mintFeeP <- settle (fetch (mintFee_call params)) ;;
    protocolFeeP <- settle (fetch (protocolFee_call params)) ;;
    mintFee <- await mintFeeP ;;
    protocolFee <- await protocolFeeP ;;
    if negb (is_undefined mintFee) && negb (is_undefined protocolFee) then
      platform <- lift (mul_big protocolFee (amount_of params)) ;;
      total <- lift (add host mintFee platform) ;;
      ret (Some (priced mintFee total))
    else ret None).

(** Pattern 3: the default fees. *)
Definition nfts2me_defaults (params : MintParams) : PriceData :=
  priced (VBig (NFTS2ME_CREATOR_FEE * amount_of params))
         (VBig ((NFTS2ME_CREATOR_FEE + NFTS2ME_PROTOCOL_FEE) * amount_of params)).

Definition nfts2me_branch : Price PriceData :=
  params <- the_params ;;
  found <- or_next (nfts2me_mintPrice params) (nfts2me_fees params) ;;
  match found with
  | Some q => ret q
  | None => ret (nfts2me_defaults params)
  end.

(** *** thirdweb, ERC1155 extension *)

Definition extension_price_call (params : MintParams) (functionName : string) : call :=
  mkCall (VStr (contractAddress params)) (Fragment [] ["uint256"] "view") functionName [].

(** Patterns 1 and 2: a no-argument accessor whose answer is a non-zero
    bigint. *)
Definition extension_price (params : MintParams) (functionName : string)
  : Price (option PriceData) :=
  attempt (
    price <- fetch (extension_price_call params functionName) ;;
    match price with
    | VBig p =>
        if truthy price then
          ret (Some (priced (VBig (p * amount_of params)) (VBig (p * amount_of params))))
        else ret None
    | _ => ret None
    end).

Definition extension_claimCondition_call (params : MintParams) : call :=
  mkCall (VStr (contractAddress params)) (Fragment ["uint256"] CLAIM_CONDITION_OUTPUTS "view")
    "claimCondition" [VBig 0].

(** Pattern 3: field 4 of the claim condition of token 0. *)
Definition extension_claimCondition (params : MintParams) : Price (option PriceData) :=
  attempt (
    cc <- fetch (extension_claimCondition_call params) ;;
    match cc with
    | VArr items =>
        if (5 <=? List.length items)%nat then
          match nth 4 items VUndef with
          | VBig p =>
              if 0 <? p then
                ret (Some (priced (VBig (p * amount_of params))
                                  (VBig (p * amount_of params))))
              else ret None
          | _ => ret None
          end
        else ret None
    | _ => ret None
    end).

(** Pattern 4: the hardcoded price of the known extension. *)
Definition extension_hardcoded (params : MintParams) : Price (option PriceData) :=
  if is_hardcoded_address host (contractAddress params) then
    ret (Some (priced (VBig (ONE_XDAI * amount_of params))
                      (VBig (ONE_XDAI * amount_of params))))
  else ret None.

Definition thirdweb_extension_branch : Price PriceData :=
  params <- the_params ;;
  found <- first_of [ extension_price params "price";
                      extension_price params "mintPrice";
                      extension_claimCondition params;
                      extension_hardcoded params ] ;;
  match found with
  | Some q => ret q
  | None => ret (priced (VBig 0) (VBig 0))
  end.

(** *** thirdweb, ERC721 drop *)

Definition drop_claimCondition_call (params : MintParams) : call :=
  mkCall (VStr (contractAddress params)) THIRDWEB_OPENEDITONERC721_ABI "claimCondition" [].

Definition getClaimConditionById_call (params : MintParams) (activeConditionId : value)
  : call :=
  mkCall (VStr (contractAddress params)) THIRDWEB_OPENEDITONERC721_ABI
    "getClaimConditionById" [activeConditionId].

(** The object stored in [contractInfo.claimCondition] *)
Definition condition_record (activeConditionId startTimestamp : number) (condition : value)
  : ClaimCondition :=
  {| id := activeConditionId;
     pricePerToken := getprop condition "pricePerToken";
     currency := getprop condition "currency";
     maxClaimableSupply := getprop condition "maxClaimableSupply";
     cc_merkleRoot := getprop condition "merkleRoot";
     startTimestamp := startTimestamp;
     quantityLimitPerWallet := getprop condition "quantityLimitPerWallet" |}.

(** The quote of a stored claim condition: the ERC20 leg for a currency
    other than the native sentinel, else price times amount. *)
Definition drop_quote (params : MintParams) (condition : value) : Price PriceData :=
  erc20Payment <- lift (pays_in_erc20 host std (getprop condition "currency")) ;;
  if (erc20Payment : bool) then
    details <- fetch_erc20_details (getprop condition "currency")
                 (VStr (contractAddress params)) ;;
    ret {| mintPrice := Some (getprop condition "pricePerToken");
           erc20Details := Some details;
           totalCost := VBig 0;
           price_claim := None |}
  else
    total <- lift (mul_big (getprop condition "pricePerToken") (amount_of params)) ;;
    ret (priced (getprop condition "pricePerToken") total).

(** The body of the drop [try]. *)
Definition drop_protocol : Price PriceData :=
  params <- the_params ;;
  claimConditionResult <- fetch (drop_claimCondition_call params) ;;
  match claimConditionResult with
  | VArr [currentStartId; count] =>
      if is_big_zero count then ret (priced (VBig 0) (VBig 0))
      else
        last <- lift (add host currentStartId count) ;;
        activeConditionId <- lift (sub_big last 1) ;;
        condition <- fetch (getClaimConditionById_call params activeConditionId) ;;
        if negb (truthy condition) || negb (typeof_object condition) then
          throw (Error "Invalid claim condition response")
        else
          idNumber <- or_TypeError (ToNumber host activeConditionId) ;;
          start <- or_TypeError (ToNumber host (getprop condition "startTimestamp")) ;;
          assign_claimCondition (condition_record idNumber start condition) ;;;
          drop_quote params condition
  | _ => throw (Error "Invalid claim condition response from contract")
  end.

Definition thirdweb_drop_branch : Price PriceData :=
  try_catch drop_protocol (fun _ => ret (only_total (VBig 0))).

(** *** Generic price discovery *)

Fixpoint discover_price (config : ProviderConfig) (params : MintParams)
    (names : list string) : Price (option PriceData) :=
  match names with
  | [] => ret None
  | functionName :: rest =>
      or_next
        (attempt (
           let args := match requiresAmountParam (priceDiscovery config) with
                       | Some true => [VBig (amount_of params)]
                       | _ => []
                       end in
           match abis (priceDiscovery config) with
           | fragment :: _ =>
               price <- fetch (mkCall (VStr (contractAddress params)) fragment
                                 functionName args) ;;
               if is_undefined price then ret None
               else
                 total <- lift (calculateValue (mintConfig config) price params) ;;
                 ret (Some (priced price total))
           | [] => throw TypeError
           end))
        (discover_price config params rest)
  end.

Definition generic_branch (config : ProviderConfig) : Price PriceData :=
  params <- the_params ;;
  found <- discover_price config params (functionNames (priceDiscovery config)) ;;
  match found with
  | Some q => ret q
  | None => ret (priced (VBig 0) (VBig 0))
  end.

(** *** fetchPriceData

    [params] and [contractInfo] are the two objects of the heap. *)
Definition fetchPriceData : Price PriceData :=
  contractInfo <- the_info ;;
  let config := getProviderConfig host std (info_provider contractInfo)
                  (Some contractInfo) None in
  match info_provider contractInfo with
  | manifold =>
      if truthy (extensionAddress contractInfo)
      then manifold_branch contractInfo
      else generic_branch config
  | nfts2me => nfts2me_branch
  | thirdweb =>
      if isERC1155 contractInfo
      then thirdweb_extension_branch
      else thirdweb_drop_branch
  | _ => generic_branch config
  end.

End Optimizer.

(** A call of [fetchPriceData(client, params, contractInfo)] after the reads
    of [history]: the result, the reads issued, and the two argument objects
    as the call leaves them. *)
Definition run_fetchPriceData (host : Host) (std : Standards) (client : PublicClient)
    (history : list call) (params : MintParams) (contractInfo : NFTContractInfo)
  : result PriceData * state Heap :=
  fetchPriceData host std client (mkState history (mkHeap params contractInfo)).

End PriceOptimizer.
Import PriceOptimizer.

(** ** provider-configs.ts: the arguments of the mint transaction

    [mintConfig.buildArgs] is the one member of a configuration that neither
    the detector nor the price resolver calls.  It is kept beside the
    record: [buildArgs provider contractInfo params] is the [buildArgs] of
    the configuration [getProviderConfig provider contractInfo params]
    returns, and its argument is the request the submission layer passes. *)

Module MintArguments.

(** [maxUint256] of viem *)
Definition maxUint256 : Z := 2 ^ 256 - 1.

(** A field of type [string | undefined] as a value *)
Definition opt_value (o : option string) : value :=
  match o with
  | Some s => VStr s
  | None => VUndef
  end.

(** [s || d] for an optional string *)
Definition string_or (o : option string) (d : string) : string :=
  match nonempty o with
  | Some s => s
  | None => d
  end.

(** [params.merkleProof || []] : an array, even an empty one, is truthy. *)
Definition proof_or_empty (params : MintParams) : value :=
  VArr (map VStr (match merkleProof params with
                  | Some proof => proof
                  | None => []
                  end)).

(** The [_allowlistProof] tuple: only the proof and the wallet limit vary. *)
Definition allowlistProof (proof quantityLimitPerWallet : value) : value :=
  VObj [("proof", proof);
        ("quantityLimitPerWallet", quantityLimitPerWallet);
        ("pricePerToken", VBig maxUint256);
        ("currency", VStr ZERO_ADDRESS)].

Section BuildArgs.
Variable host : Host.
Variable std : Standards.

Definition manifold_buildArgs (params : MintParams) : result (list value) :=
  match BigInt_of_string host (string_or (instanceId params) "0") with
  | Ok instance =>
      Ok [VStr (contractAddress params);
          VBig instance;
          VNum (StringToNumber host (string_or (tokenId params) "0"));
          proof_or_empty params;
          opt_value (recipient params)]
  | Throw e => Throw e
  end.

(** opensea, generic and nfts2me: [[BigInt(params.amount || 1)]] *)
Definition quantity_buildArgs (params : MintParams) : result (list value) :=
  Ok [VBig (count_or_one (amount params))].

Definition zora_buildArgs (params : MintParams) : result (list value) :=
  Ok [opt_value (recipient params); VBig (count_or_one (amount params))].

(** The static thirdweb entry: native currency, price 0. *)
Definition thirdweb_buildArgs (params : MintParams) : result (list value) :=
  Ok [VStr (string_or (recipient params) (contractAddress params));
      VBig (count_or_one (amount params));
      VStr (THIRDWEB_NATIVE_TOKEN std);
      VBig 0;
      allowlistProof (proof_or_empty params) (VBig maxUint256);
      VStr "0x"].

(** The ERC1155 extension at the hardcoded address. *)
Definition hardcoded_buildArgs (params : MintParams) : result (list value) :=
  Ok [opt_value (recipient params);
      VBig 0;
      VBig (count_or_one (amount params));
      VStr (THIRDWEB_NATIVE_TOKEN std);
      VBig ONE_XDAI;
      allowlistProof (VArr []) (VBig 0);
      VStr "0x"].

(** [contractInfo.claimCondition?.pricePerToken || BigInt(0)] *)
Definition condition_price (contractInfo : NFTContractInfo) : value :=
  match claimCondition contractInfo with
  | Some cc => or_else (pricePerToken cc) (VBig 0)
  | None => VBig 0
  end.

(** [contractInfo.claimCondition?.currency || THIRDWEB_NATIVE_TOKEN] *)
Definition condition_currency (contractInfo : NFTContractInfo) : value :=
  match claimCondition contractInfo with
  | Some cc => or_else (currency cc) (VStr (THIRDWEB_NATIVE_TOKEN std))
  | None => VStr (THIRDWEB_NATIVE_TOKEN std)
  end.

(** The other ERC1155 extensions. *)
Definition extension_buildArgs (contractInfo : NFTContractInfo) (params : MintParams)
  : result (list value) :=
  let pricePerToken := if is_hardcoded_address host (contractAddress params)
                       then VBig ONE_XDAI
                       else condition_price contractInfo in
  let currency := condition_currency contractInfo in
  match BigInt_of_string host (string_or (tokenId params) "1") with
  | Ok token =>
      Ok [opt_value (recipient params);
          VBig token;
          VBig (count_or_one (amount params));
          currency;
          pricePerToken;
          allowlistProof (proof_or_empty params) (VBig maxUint256);
          VStr "0x"]
  | Throw e => Throw e
  end.

(** The ERC721 drop with a stored claim condition. *)
Definition drop_buildArgs (contractInfo : NFTContractInfo) (params : MintParams)
  : result (list value) :=
  let pricePerToken := condition_price contractInfo in
  let currency := condition_currency contractInfo in
  Ok [VStr (string_or (recipient params) (contractAddress params));
      VBig (count_or_one (amount params));
      currency;
      pricePerToken;
      allowlistProof (proof_or_empty params) (VBig maxUint256);
      VStr "0x"].

(** [PROVIDER_CONFIGS[provider].mintConfig.buildArgs] *)
Definition base_buildArgs (provider : NFTProvider) : MintParams -> result (list value) :=
  match provider with
  | manifold => manifold_buildArgs
  | opensea => quantity_buildArgs
  | zora => zora_buildArgs
  | generic => quantity_buildArgs
  | nfts2me => quantity_buildArgs
  | thirdweb => thirdweb_buildArgs
  end.

(** [getProviderConfig(provider, contractInfo, params).mintConfig.buildArgs] *)
Definition buildArgs (provider : NFTProvider)
    (contractInfo : option NFTContractInfo) (params : option MintParams)
  : MintParams -> result (list value) :=
  match provider with
  | manifold => base_buildArgs manifold
  | thirdweb =>
      match contractInfo with
      | None => base_buildArgs thirdweb
      | Some info =>
          if isERC1155 info then
            if match params with
               | Some p => is_hardcoded_address host (contractAddress p)
               | None => false
               end
            then hardcoded_buildArgs
            else extension_buildArgs info
          else
            match claimCondition info with
            | Some _ => drop_buildArgs info
            | None => base_buildArgs thirdweb
            end
      end
  | _ => base_buildArgs provider
  end.

End BuildArgs.

End MintArguments.
Import MintArguments.

(** ** Worked inputs

    A host, a constant table and canned clients for the closed examples. *)

Module Examples.

Definition lower_ascii (c : ascii) : ascii :=
  let n := nat_of_ascii c in
  if ((65 <=? n) && (n <=? 90))%nat then ascii_of_nat (n + 32) else c.

Fixpoint lower_string (s : string) : string :=
  match s with
  | EmptyString => EmptyString
  | String c rest => String (lower_ascii c) (lower_string rest)
  end.

Definition digit_of_ascii (c : ascii) : option Z :=
  let n := nat_of_ascii c in
  if ((48 <=? n) && (n <=? 57))%nat then Some (Z.of_nat (n - 48)) else None.

Fixpoint digits_from (acc : Z) (s : string) : option Z :=
  match s with
  | EmptyString => Some acc
  | String c rest =>
      match digit_of_ascii c with
      | Some d => digits_from (10 * acc + d) rest
      | None => None
      end
  end.

(** Plain decimal numerals only. *)
Definition decimal (s : string) : option Z :=
  match s with
  | EmptyString => None
  | _ => digits_from 0 s
  end.

(** A host that converts the empty string, plain decimal numerals (as
    numbers, up to 2^53) and ASCII letters, the inputs on which every
    JavaScript engine agrees with it: [BigInt] and [Number] of the empty
    string are 0, [parseInt] of it is NaN. *)
Definition decimal_host : Host :=
  {| toLowerCase := lower_string;
     StringToBigInt := fun s => match s with EmptyString => Some 0 | _ => decimal s end;
     StringToNumber := fun s =>
       match s with
       | EmptyString => Int 0
       | _ => match decimal s with Some z => Int z | None => NaN end
       end;
     NumberToString := fun n => match n with Int z => string_of_Z z | NaN => "NaN" end;
     parseInt := fun s => match decimal s with Some z => Int z | None => NaN end |}.

Definition standards : Standards :=
  {| KNOWN_CONTRACTS_manifoldExtension := "0x26bbea7803dcac346d5f5f135b57cf2c752a02be";
     THIRDWEB_NATIVE_TOKEN := "0xEeeeeEeeeEeEeeEeEeEeeEEEeeeeEeeeeeeeEEeE";
     INTERFACE_IDS_ERC721 := "0x80ac58cd";
     INTERFACE_IDS_ERC1155 := "0xd9b67a26" |}.

(** A chain on which every read is rejected. *)
Definition offline : PublicClient :=
  fun _ _ => None.

(** A chain that answers the n-th read with the n-th entry of a script. *)
Definition scripted (answers : list (option value)) : PublicClient :=
  fun history _ => nth (List.length history) answers None.

Definition request (addr : string) : MintParams :=
  {| contractAddress := addr;
     chainId := Int 8453;
     provider := None;
     recipient := None;
     amount := None;
     tokenId := None;
     instanceId := None;
     merkleProof := None |}.

Definition with_amount (n : Z) (p : MintParams) : MintParams :=
  {| contractAddress := contractAddress p;
     chainId := chainId p;
     provider := provider p;
     recipient := recipient p;
     amount := Some (Int n);
     tokenId := tokenId p;
     instanceId := instanceId p;
     merkleProof := merkleProof p |}.

Definition with_tokenId (t : string) (p : MintParams) : MintParams :=
  {| contractAddress := contractAddress p;
     chainId := chainId p;
     provider := provider p;
     recipient := recipient p;
     amount := amount p;
     tokenId := Some t;
     instanceId := instanceId p;
     merkleProof := merkleProof p |}.

Definition with_provider (q : NFTProvider) (p : MintParams) : MintParams :=
  {| contractAddress := contractAddress p;
     chainId := chainId p;
     provider := Some q;
     recipient := recipient p;
     amount := amount p;
     tokenId := tokenId p;
     instanceId := instanceId p;
     merkleProof := merkleProof p |}.

Definition SOME_CONTRACT : string := "0x1111111111111111111111111111111111111111".
Definition SOME_TOKEN : string := "0x2222222222222222222222222222222222222222".
Definition SOME_EXTENSION : string := "0x3333333333333333333333333333333333333333".

(** The address as the application page spells it *)
Definition PAGE_CONTRACT : string := "0xcd0Bafa3BBa1b32869343fB69D2778daF4412181".

Definition ERC20_CONDITION : value :=
  VObj [("startTimestamp", VBig 1700000000);
        ("pricePerToken", VBig 1000);
        ("currency", VStr SOME_TOKEN)].

Definition ERC20_CLAIM : value :=
  VObj [("cost", VBig 5); ("erc20", VStr SOME_TOKEN);
        ("startDate", VNum (Int 0)); ("endDate", VNum (Int 0));
        ("walletMax", VNum (Int 1))].

Definition with_instanceId (i : string) (p : MintParams) : MintParams :=
  set_instanceId p (Some i).

Definition with_recipient (r : string) (p : MintParams) : MintParams :=
  {| contractAddress := contractAddress p;
     chainId := chainId p;
     provider := provider p;
     recipient := Some r;
     amount := amount p;
     tokenId := tokenId p;
     instanceId := instanceId p;
     merkleProof := merkleProof p |}.

Definition SOME_RECIPIENT : string := "0x4444444444444444444444444444444444444444".



(** A chain whose answer to a read depends on the read alone. *)
Definition answering (answer : call -> option value) : PublicClient :=
  fun _ c => answer c.


(** A contract that supports ERC1155, has no extensions and answers
    [uri(0)] and [totalSupply(0)], and rejects every other read. *)
Definition ONLY_AN_ERC1155_URI (c : call) : option value :=
  if (functionName c =? "supportsInterface")%string then
    match abi_of c, args c with
    | ERC165_ABI, [VStr interfaceId] =>
        if (interfaceId =? "0xd9b67a26")%string then Some (VBool true) else None
    | _, _ => None
    end
  else if (functionName c =? "getExtensions")%string then Some (VArr [])
  else if (functionName c =? "uri")%string then Some (VStr "ipfs://")
  else if (functionName c =? "totalSupply")%string then
    match args c with
    | [VBig 0] => Some (VBig 1)
    | _ => None
    end
  else None.

(** A claim condition priced 1000 in the native currency. *)
Definition NATIVE_CONDITION : value :=
  VObj [("startTimestamp", VBig 1700000000);
        ("pricePerToken", VBig 1000);
        ("currency", VStr "0xEeeeeEeeeEeEeeEeEeEeeEEEeeeeEeeeeeeeEEeE")].

(** A Manifold extension that answers under the ERC721 ABI only: a fee of
    100 and a claim priced in a token that reports the symbol TKN and 300
    decimals, and rejects every other read. *)
Definition ERC20_CLAIM_UNDER_ERC721_ABI (c : call) : option value :=
  if (functionName c =? "symbol")%string then Some (VStr "TKN")
  else if (functionName c =? "decimals")%string then Some (VNum (Int 300))
  else
    match abi_of c with
    | MANIFOLD_ERC721_EXTENSION_ABI =>
        if (functionName c =? "MINT_FEE")%string then Some (VBig 100)
        else if (functionName c =? "getClaim")%string then Some ERC20_CLAIM
        else None
    | _ => None
    end.
End Examples.
Import Examples.

(** ** Vocabulary of the statements *)

(** A computation that never raises: from every state it yields a value. *)
Definition returns {H A} (m : M H A) : Prop :=
  forall s, exists a s', m s = (Ok a, s').

(** A computation that leaves the mutable objects alone. *)
Definition keeps_heap {H A} (m : M H A) : Prop :=
  forall s, heap (snd (m s)) = heap s.

(** A computation that leaves [params] alone. *)
Definition keeps_params {A} (m : Price A) : Prop :=
  forall s, h_params (heap (snd (m s))) = h_params (heap s).

(** What a probe with a [.catch] settles to: its answer, or the default when
    the read is rejected. *)
Definition answer_or (r : option value) (d : value) : value :=
  match r with
  | Some v => v
  | None => d
  end.




(** The outcome of a read as a settled promise *)
Definition outcome (answer : option value) : result value :=
  match answer with
  | Some v => Ok v
  | None => Throw CallFailed
  end.

(** The reads a computation issues are appended to the log, and there are
    at most [n] of them. *)
Definition reads_at_most {H A} (n : nat) (m : M H A) : Prop :=
  forall s, exists issued,
    trace (snd (m s)) = (trace s ++ issued)%list /\ (List.length issued <= n)%nat.

(** A step of a cascade that returned from the function. *)
Definition matched {A} (r : result (option A)) : bool :=
  match r with
  | Ok (Some _) => true
  | _ => false
  end.

(** The same for a step of a cascade, with one bound for a run that matches
    and one for a run that does not (no match, or a raise). *)
Definition reads_within {H A} (hit miss : nat) (m : M H (option A)) : Prop :=
  forall s, exists issued,
    trace (snd (m s)) = (trace s ++ issued)%list
    /\ (List.length issued <= if matched (fst (m s)) then hit else miss)%nat.

(** The most reads a pricing run can need, by branch. *)
Definition price_read_budget (contractInfo : NFTContractInfo) : nat :=
  match info_provider contractInfo with
  | manifold => if truthy (extensionAddress contractInfo) then 10 else 1
  | nfts2me => 3
  | thirdweb => if isERC1155 contractInfo then 3 else 6
  | opensea => 3
  | zora => 2
  | generic => 4
  end.

(** A property of every value a computation can return. *)
Definition yields {H A} (P : A -> Prop) (m : M H A) : Prop :=
  forall s a s', m s = (Ok a, s') -> P a.

(** What every classification found by a heuristic looks like: one of the
    three detectable providers, the flags of the two interface probes, the
    Manifold marker exactly on a Manifold result, and no pricing data yet. *)
Definition found_by_heuristic (is721 is1155 : value) (info : NFTContractInfo)
  : Prop :=
  (info_provider info = manifold \/ info_provider info = nfts2me
   \/ info_provider info = thirdweb)
  /\ isERC721 info = truthy is721
  /\ isERC1155 info = truthy is1155
  /\ (hasManifoldExtension info = Some true <-> info_provider info = manifold)
  /\ (info_provider info <> manifold -> extensionAddress info = VUndef)
  /\ claim info = None
  /\ claimCondition info = None.

(** What every quote looks like.  A quote with ERC20 detail has decimals in
    0..255, a mint price, and a native total that is either 0 or the mint
    price itself (the token cost is never added to it); a quote without a
    mint price is the bare total of a catch block: 0 or the default Manifold
    fee. *)
Definition well_formed_quote (q : PriceData) : Prop :=
  (forall d, erc20Details q = Some d ->
     (exists z, decimals d = Int z /\ 0 <= z <= 255)
     /\ mintPrice q <> None
     /\ (totalCost q = VBig 0 \/ mintPrice q = Some (totalCost q)))
  /\ (mintPrice q = None ->
      erc20Details q = None /\ price_claim q = None
      /\ (totalCost q = VBig 0 \/ totalCost q = VBig DEFAULT_MANIFOLD_FEE)).

(** The fields of the two argument objects that are inputs only. *)
Definition request_core (p : MintParams) :=
  (contractAddress p, chainId p, provider p, recipient p, amount p, tokenId p,
   merkleProof p).

Definition classification (i : NFTContractInfo) :=
  (info_provider i, isERC1155 i, isERC721 i, extensionAddress i,
   hasManifoldExtension i).

(** A computation that leaves a view of the argument objects alone. *)
Definition preserves {A X} (f : Heap -> X) (m : Price A) : Prop :=
  forall s, f (heap (snd (m s))) = f (heap s).



(** The read the generic discovery issues for a function name. *)
Definition discovery_call (config : ProviderConfig) (params : MintParams)
    (functionName : string) : call :=
  mkCall (VStr (contractAddress params))
    (hd PRICE_DISCOVERY_ABI (abis (priceDiscovery config)))
    functionName
    (match requiresAmountParam (priceDiscovery config) with
     | Some true => [VBig (amount_of params)]
     | _ => []
     end).

(** An answer the discovery loop passes over: a rejected read, [undefined],
    or a price the value rule of the configuration cannot handle. *)
Definition no_price (config : ProviderConfig) (params : MintParams)
    (answer : option value) : bool :=
  match answer with
  | None => true
  | Some price =>
      is_undefined price
      || match calculateValue (mintConfig config) price params with
         | Ok _ => false
         | Throw _ => true
         end
  end.

(** Every read of a list is passed over, each one asked after the ones
    before it. *)
Fixpoint all_skipped (config : ProviderConfig) (params : MintParams)
    (client : PublicClient) (history : list call) (calls : list call) : bool :=
  match calls with
  | [] => true
  | c :: rest =>
      no_price config params (client history c)
      && all_skipped config params client (history ++ [c])%list rest
  end.

(** The read that identifies an NFTs2Me contract. *)
Definition n2mVersion_call (addr : string) : call :=
  mkCall (VStr addr) (Fragment [] ["uint256"] "pure") "n2mVersion" [].

(** The three probes of the first batch, in the order they are issued. *)
Definition interface_probes (std : Standards) (addr : string) : list call :=
  [supportsInterface_call addr (INTERFACE_IDS_ERC721 std);
   supportsInterface_call addr (INTERFACE_IDS_ERC1155 std);
   getExtensions_call addr].

(** What the probes of the first batch settle to after [history]. *)
Definition probe721 (std : Standards) (client : PublicClient) (history : list call)
    (addr : string) : value :=
  answer_or (client history (supportsInterface_call addr (INTERFACE_IDS_ERC721 std)))
            (VBool false).

Definition probe1155 (std : Standards) (client : PublicClient) (history : list call)
    (addr : string) : value :=
  answer_or (client (history ++ [supportsInterface_call addr (INTERFACE_IDS_ERC721 std)])%list
               (supportsInterface_call addr (INTERFACE_IDS_ERC1155 std)))
            (VBool false).

Definition probe_extensions (std : Standards) (client : PublicClient)
    (history : list call) (addr : string) : value :=
  answer_or (client (history ++ [supportsInterface_call addr (INTERFACE_IDS_ERC721 std);
                                 supportsInterface_call addr (INTERFACE_IDS_ERC1155 std)])%list
               (getExtensions_call addr))
            VNull.

(** The currency of the stored claim condition, as the value rules of the
    derived thirdweb configurations read it. *)
Definition stored_currency (contractInfo : option NFTContractInfo) : value :=
  match contractInfo with
  | Some info =>
      match claimCondition info with
      | Some cc => currency cc
      | None => VUndef
      end
  | None => VUndef
  end.

(** Whether the classification is an ERC1155 one: the thirdweb claim of an
    ERC1155 extension has a token id before the quantity. *)
Definition claims_by_token (contractInfo : option NFTContractInfo) : bool :=
  match contractInfo with
  | Some info => isERC1155 info
  | None => false
  end.

(** Whether the derived thirdweb configuration prices by the stored claim
    condition. *)
Definition prices_by_condition (host : Host) (contractInfo : option NFTContractInfo)
    (params : option MintParams) : bool :=
  match contractInfo with
  | Some info =>
      if isERC1155 info then
        negb (match params with
              | Some p => is_hardcoded_address host (contractAddress p)
              | None => false
              end)
      else is_some (claimCondition info)
  | None => false
  end.

(** A step of the detection cascade that only ever finds heuristic
    classifications. *)
Definition finds_only (is721 is1155 : value) (m : Det (option NFTContractInfo)) : Prop :=
  yields (fun r => forall info, r = Some info -> found_by_heuristic is721 is1155 info) m.

(** A pricing pattern that only ever finds well-formed quotes. *)
Definition finds_well_formed (m : Price (option PriceData)) : Prop :=
  yields (fun r => forall q, r = Some q -> well_formed_quote q) m.

(** Views of the argument objects that do not look at one of the three
    fields fetchPriceData assigns. *)
Definition ignores_instanceId {X} (f : Heap -> X) : Prop :=
  forall h i, f (mkHeap (set_instanceId (h_params h) i) (h_info h)) = f h.

Definition ignores_claim {X} (f : Heap -> X) : Prop :=
  forall h c, f (mkHeap (h_params h) (set_claim (h_info h) c)) = f h.

Definition ignores_claimCondition {X} (f : Heap -> X) : Prop :=
  forall h cc, f (mkHeap (h_params h) (set_claimCondition (h_info h) cc)) = f h.

(** A chain whose answers do not depend on the reads issued before. *)
Definition history_independent (client : PublicClient) : Prop :=
  forall h h' c, client h c = client h' c.



(** A chain that rejects every read issued after the reads of a log. *)
Definition silent_from (client : PublicClient) (history : list call) : Prop :=
  forall further c, client (history ++ further)%list c = None.

(** A step of the detection cascade that finds nothing, and does not raise,
    once the chain has fallen silent. *)
Definition quiet (client : PublicClient) {A} (m : M unit (option A)) : Prop :=
  forall s, silent_from client (trace s) ->
    exists s', m s = (Ok None, s') /\ silent_from client (trace s').

(** ** Reasoning about engine computations *)

Section MonadFacts.
Context {H : Type}.

Lemma returns_ret {A} (a : A) : returns (@ret H A a).
Proof. intros s. exists a, s. reflexivity. Qed.

Lemma returns_bind {A B} (m : M H A) (k : A -> M H B) :
  returns m -> (forall a, returns (k a)) -> returns (bind m k).
Proof.
  intros Hm Hk s. unfold bind.
  destruct (Hm s) as (a & s' & E). rewrite E. apply Hk.
Qed.

Lemma returns_try_catch {A} (m : M H A) (handler : exn -> M H A) :
  (forall e, returns (handler e)) -> returns (try_catch m handler).
Proof.
  intros Hh s. unfold try_catch.
  destruct (m s) as [[a | e] s'].
  - exists a, s'. reflexivity.
  - apply Hh.
Qed.

Lemma returns_catch_as {A} (m : M H A) (d : A) : returns (catch_as m d).
Proof. apply returns_try_catch. intros _. apply returns_ret. Qed.

Lemma returns_settle {A} (m : M H A) : returns (settle m).
Proof.
  intros s. unfold settle. destruct (m s) as [r s']. exists r, s'. reflexivity.
Qed.

Lemma returns_get_heap : returns (@get_heap H).
Proof. intros s. exists (heap s), s. reflexivity. Qed.

Lemma returns_attempt {A} (m : M H (option A)) : returns (attempt m).
Proof. apply returns_try_catch. intros _. apply returns_ret. Qed.

Lemma returns_or_next {A} (m k : M H (option A)) :
  returns m -> returns k -> returns (or_next m k).
Proof.
  intros Hm Hk. apply returns_bind; [exact Hm |].
  intros [a |]; [apply returns_ret | exact Hk].
Qed.

Lemma returns_first_of {A} (steps : list (M H (option A))) :
  Forall returns steps -> returns (first_of steps).
Proof.
  induction 1 as [| m rest Hm _ IH]; simpl.
  - apply returns_ret.
  - apply returns_or_next; assumption.
Qed.

Lemma keeps_heap_ret {A} (a : A) : keeps_heap (@ret H A a).
Proof. intros s. reflexivity. Qed.

Lemma keeps_heap_throw {A} (e : exn) : keeps_heap (@throw H A e).
Proof. intros s. reflexivity. Qed.

Lemma keeps_heap_bind {A B} (m : M H A) (k : A -> M H B) :
  keeps_heap m -> (forall a, keeps_heap (k a)) -> keeps_heap (bind m k).
Proof.
  intros Hm Hk s. unfold bind. specialize (Hm s).
  destruct (m s) as [[a | e] s']; simpl in *.
  - rewrite Hk. exact Hm.
  - exact Hm.
Qed.

Lemma keeps_heap_try_catch {A} (m : M H A) (handler : exn -> M H A) :
  keeps_heap m -> (forall e, keeps_heap (handler e)) -> keeps_heap (try_catch m handler).
Proof.
  intros Hm Hh s. unfold try_catch. specialize (Hm s).
  destruct (m s) as [[a | e] s']; simpl in *.
  - exact Hm.
  - rewrite Hh. exact Hm.
Qed.

Lemma keeps_heap_settle {A} (m : M H A) : keeps_heap m -> keeps_heap (settle m).
Proof.
  intros Hm s. unfold settle. specialize (Hm s).
  destruct (m s) as [r s']. exact Hm.
Qed.

Lemma keeps_heap_await {A} (r : result A) : keeps_heap (@await H A r).
Proof. destruct r; intros s; reflexivity. Qed.

Lemma keeps_heap_or_TypeError {A} (o : option A) : keeps_heap (@or_TypeError H A o).
Proof. destruct o; intros s; reflexivity. Qed.

Lemma keeps_heap_readContract client (c : call) : keeps_heap (@readContract client H c).
Proof. intros s. reflexivity. Qed.

Lemma keeps_heap_get_heap : keeps_heap (@get_heap H).
Proof. intros s. reflexivity. Qed.

End MonadFacts.

Ltac keeps_heap_step :=
  first
    [ apply keeps_heap_ret
    | apply keeps_heap_throw
    | apply keeps_heap_readContract
    | apply keeps_heap_get_heap
    | apply keeps_heap_await
    | apply keeps_heap_or_TypeError
    | apply keeps_heap_settle
    | apply keeps_heap_try_catch
    | apply keeps_heap_bind
    | match goal with
      | |- keeps_heap (match ?x with _ => _ end) => destruct x
      | |- forall _, _ => intro
      end ].

Ltac keeps_heap_auto := repeat keeps_heap_step.

(** ** The price resolver never raises *)

Section ResolverReturns.
Variable host : Host.
Variable std : Standards.
Variable client : PublicClient.












End ResolverReturns.

(** ** Terminal fallbacks of the price resolver *)

Section Fallbacks.
Variable host : Host.
Variable std : Standards.






End Fallbacks.

(** ** C1: the resolver always answers with a quote *)


Section ManifoldFallback.
Variable host : Host.
Variable std : Standards.




End ManifoldFallback.



(** ** The detector *)

Section DetectorFacts.
Variable host : Host.
Variable std : Standards.
Variable client : PublicClient.

Lemma detectNFTProvider_returns params :
  returns (detectNFTProvider host std client params).
Proof.
  unfold detectNFTProvider.
  destruct (is_hardcoded_address host (contractAddress params)); [apply returns_ret |].
  destruct (provider params) as [p |].
  - destruct p; simpl; try apply returns_ret.
    destruct (string_truthy (KNOWN_CONTRACTS_manifoldExtension std)); apply returns_ret.
  - apply returns_try_catch. intros _. apply returns_ret.
Qed.

Lemma probe_settles (c : call) (d : value) history :
  catch_as (read client c) d (mkState history tt)
  = (Ok (answer_or (client history c) d), mkState (history ++ [c])%list tt).
Proof.
  unfold catch_as, try_catch, read, readContract, ret. simpl.
  destruct (client history c); reflexivity.
Qed.

Lemma interface_batch_runs addr history :
  let c721 := supportsInterface_call addr (INTERFACE_IDS_ERC721 std) in
  let c1155 := supportsInterface_call addr (INTERFACE_IDS_ERC1155 std) in
  let cext := getExtensions_call addr in
  interface_batch std client addr (mkState history tt)
  = (Ok (answer_or (client history c721) (VBool false),
         answer_or (client (history ++ [c721])%list c1155) (VBool false),
         answer_or (client (history ++ [c721; c1155])%list cext) VNull),
     mkState (history ++ [c721; c1155; cext])%list tt).
Proof.
  intros c721 c1155 cext.
  unfold interface_batch, bind. fold c721 c1155 cext.
  rewrite probe_settles. rewrite probe_settles. rewrite probe_settles.
  unfold ret. rewrite <- !app_assoc. reflexivity.
Qed.

(** *** No probe failure is an error *)

Lemma returns_if {H A} (b : bool) (m k : M H A) :
  returns m -> returns k -> returns (if b then m else k).
Proof. destruct b; auto. Qed.

Lemma counting_loop_returns addr fragment isERC721 isERC1155 names found :
  returns (counting_loop client addr fragment isERC721 isERC1155 names found).
Proof.
  revert found. induction names as [| functionName rest IH]; intros found;
    cbn [counting_loop].
  - apply returns_ret.
  - apply returns_bind.
    + apply returns_try_catch. intros _. apply returns_ret.
    + intros [found' |]; [| apply IH].
      destruct (2 <=? found')%nat; [apply returns_ret | apply IH].
Qed.

Lemma pattern_drop1155_returns addr isERC721 isERC1155 names :
  returns (pattern_drop1155 client addr isERC721 isERC1155 names).
Proof.
  induction names as [| functionName rest IH]; cbn [pattern_drop1155].
  - apply returns_ret.
  - apply returns_or_next; [| exact IH].
    apply returns_try_catch. intros _.
    destruct (takes_claim_arguments functionName);
      [apply returns_attempt | apply returns_ret].
Qed.

Lemma pattern_extensionFunctions_returns addr isERC721 isERC1155 names :
  returns (pattern_extensionFunctions client addr isERC721 isERC1155 names).
Proof.
  induction names as [| functionName rest IH]; cbn [pattern_extensionFunctions].
  - apply returns_ret.
  - apply returns_or_next; [| exact IH].
    apply returns_try_catch. intros _. apply returns_attempt.
Qed.

Lemma thirdweb_erc1155_steps_returns addr isERC721 isERC1155 :
  returns (thirdweb_erc1155_steps host client addr isERC721 isERC1155).
Proof.
  unfold thirdweb_erc1155_steps. apply returns_if; [| apply returns_ret].
  apply returns_first_of.
  repeat first [apply Forall_nil | apply Forall_cons].
  - apply returns_attempt.
  - apply returns_attempt.
  - apply returns_attempt.
  - apply counting_loop_returns.
  - apply pattern_drop1155_returns.
  - apply returns_attempt.
  - apply returns_attempt.
  - apply pattern_extensionFunctions_returns.
  - apply counting_loop_returns.
  - apply returns_attempt.
Qed.

(** The Manifold step on what the extensions probe can settle to: something
    falsy (null after a rejection) or an array. *)
Lemma manifold_step_returns isERC721 isERC1155 extensions :
  truthy extensions = false \/ isArray extensions = true ->
  returns (manifold_step host std isERC721 isERC1155 extensions).
Proof.
  intros Htyped s. unfold manifold_step.
  destruct (truthy extensions) eqn:Et; [| eexists _, _; reflexivity].
  destruct Htyped as [| Harray]; [discriminate |].
  destruct extensions as [| | | | | | items |]; try discriminate.
  unfold bind, has_entries, find_known_extension, or_TypeError, gt_zero, getprop, ret.
  cbn.
  destruct (0 <? Z_of_length items); [| eexists _, _; reflexivity].
  destruct (truthy match List.find (is_known_extension std) items with
                   | Some ext => ext
                   | None => VUndef
                   end); eexists _, _; reflexivity.
Qed.

Lemma heuristics_returns addr isERC721 isERC1155 extensions :
  truthy extensions = false \/ isArray extensions = true ->
  returns (heuristics host std client addr isERC721 isERC1155 extensions).
Proof.
  intros Htyped. unfold heuristics. apply returns_first_of.
  repeat first [apply Forall_nil | apply Forall_cons].
  - apply manifold_step_returns. exact Htyped.
  - apply returns_attempt.
  - unfold thirdweb_erc721_step. apply returns_if; [apply returns_attempt | apply returns_ret].
  - apply thirdweb_erc1155_steps_returns.
Qed.

(** *** A rejected probe is a capability the contract does not have *)

Lemma silent_from_snoc history c :
  silent_from client history -> silent_from client (history ++ [c])%list.
Proof.
  intros Hsilent further c'. rewrite <- app_assoc. apply Hsilent.
Qed.

Lemma silent_now history c : silent_from client history -> client history c = None.
Proof.
  intros Hsilent. specialize (Hsilent [] c). rewrite app_nil_r in Hsilent. exact Hsilent.
Qed.

Lemma quiet_ret_None {A} : quiet client (@ret unit (option A) None).
Proof. intros s Hsilent. exists s. split; [reflexivity | exact Hsilent]. Qed.

(** A [try] whose first action is a read: the handler decides. *)
Lemma quiet_try_read {B} (c : call) (k : value -> Det (option B))
    (handler : exn -> Det (option B)) :
  (forall e, quiet client (handler e)) ->
  quiet client (try_catch (bind (read client c) k) handler).
Proof.
  intros Hh s Hsilent.
  unfold try_catch, bind, read, readContract.
  rewrite (silent_now _ c Hsilent).
  apply Hh. cbn [trace]. apply silent_from_snoc. exact Hsilent.
Qed.

Lemma quiet_attempt_read {B} (c : call) (k : value -> Det (option B)) :
  quiet client (attempt (bind (read client c) k)).
Proof.
  unfold attempt. apply quiet_try_read. intros _. apply quiet_ret_None.
Qed.

Lemma quiet_or_next {A} (m k : Det (option A)) :
  quiet client m -> quiet client k -> quiet client (or_next m k).
Proof.
  intros Hm Hk s Hsilent. unfold or_next, bind.
  destruct (Hm s Hsilent) as (s1 & E1 & Hsilent1). rewrite E1.
  apply Hk. exact Hsilent1.
Qed.

Lemma quiet_first_of {A} (steps : list (Det (option A))) :
  Forall (quiet client) steps -> quiet client (first_of steps).
Proof.
  induction 1 as [| m rest Hm _ IH]; cbn [first_of].
  - apply quiet_ret_None.
  - apply quiet_or_next; assumption.
Qed.

Lemma counting_loop_quiet addr fragment isERC721 isERC1155 names found :
  quiet client (counting_loop client addr fragment isERC721 isERC1155 names found).
Proof.
  revert found. induction names as [| functionName rest IH]; intros found;
    cbn [counting_loop].
  - apply quiet_ret_None.
  - intros s Hsilent. unfold bind at 1.
    unfold try_catch, bind at 1, read, readContract.
    rewrite (silent_now _ _ Hsilent). unfold ret at 1. cbn beta iota.
    apply IH. cbn [trace]. apply silent_from_snoc. exact Hsilent.
Qed.

Lemma pattern_drop1155_quiet addr isERC721 isERC1155 names :
  quiet client (pattern_drop1155 client addr isERC721 isERC1155 names).
Proof.
  induction names as [| functionName rest IH]; cbn [pattern_drop1155].
  - apply quiet_ret_None.
  - apply quiet_or_next; [| exact IH].
    apply quiet_try_read. intros _.
    destruct (takes_claim_arguments functionName);
      [apply quiet_attempt_read | apply quiet_ret_None].
Qed.

Lemma pattern_extensionFunctions_quiet addr isERC721 isERC1155 names :
  quiet client (pattern_extensionFunctions client addr isERC721 isERC1155 names).
Proof.
  induction names as [| functionName rest IH]; cbn [pattern_extensionFunctions].
  - apply quiet_ret_None.
  - apply quiet_or_next; [| exact IH].
    apply quiet_try_read. intros _.
    apply quiet_attempt_read.
Qed.

Lemma thirdweb_erc1155_steps_quiet addr isERC721 isERC1155 :
  quiet client (thirdweb_erc1155_steps host client addr isERC721 isERC1155).
Proof.
  unfold thirdweb_erc1155_steps.
  destruct (truthy isERC1155); [| apply quiet_ret_None].
  apply quiet_first_of.
  repeat first [apply Forall_nil | apply Forall_cons].
  - apply quiet_attempt_read.
  - apply quiet_attempt_read.
  - apply quiet_attempt_read.
  - apply counting_loop_quiet.
  - apply pattern_drop1155_quiet.
  - apply quiet_attempt_read.
  - apply quiet_attempt_read.
  - apply pattern_extensionFunctions_quiet.
  - apply counting_loop_quiet.
  - apply quiet_attempt_read.
Qed.

Lemma manifold_step_quiet isERC721 isERC1155 extensions :
  truthy extensions = false \/ extensions = VArr [] ->
  quiet client (manifold_step host std isERC721 isERC1155 extensions).
Proof.
  intros [Hfalsy | ->] s Hsilent; exists s; (split; [| exact Hsilent]).
  - unfold manifold_step. rewrite Hfalsy. reflexivity.
  - reflexivity.
Qed.

Lemma heuristics_quiet addr isERC721 isERC1155 extensions :
  truthy extensions = false \/ extensions = VArr [] ->
  quiet client (heuristics host std client addr isERC721 isERC1155 extensions).
Proof.
  intros Hnone. unfold heuristics. apply quiet_first_of.
  repeat first [apply Forall_nil | apply Forall_cons].
  - apply manifold_step_quiet. exact Hnone.
  - apply quiet_attempt_read.
  - unfold thirdweb_erc721_step.
    destruct (truthy isERC721); [apply quiet_attempt_read | apply quiet_ret_None].
  - apply thirdweb_erc1155_steps_quiet.
Qed.

End DetectorFacts.

(** C2: the detector never fails, and no rejected read is an error.  For
    every request it returns a classification, whatever the chain answers.
    On a request that names no provider and is not a curated override, a
    rejected interface probe counts as [false] and a rejected extensions
    probe as [null].  When the extensions probe settles to something falsy
    or to an array (what [getExtensions] gives), the heuristics that follow
    return without raising, whichever of their reads are rejected, and when
    none of them matches the result is the generic provider whose ERC721 and
    ERC1155 flags are those of the two interface probes.  That is the result
    in particular when the contract has no extension and every read after
    the batch is rejected: a rejected read never counts as a match. *)
Theorem detectNFTProvider_never_fails :
  forall host std client params history,
    (exists info s',
       detectNFTProvider host std client params (mkState history tt) = (Ok info, s'))
    /\ (is_hardcoded_address host (contractAddress params) = false ->
        provider params = None ->
        let addr := contractAddress params in
        let c721 := supportsInterface_call addr (INTERFACE_IDS_ERC721 std) in
        let c1155 := supportsInterface_call addr (INTERFACE_IDS_ERC1155 std) in
        let cext := getExtensions_call addr in
        let isERC721 := answer_or (client history c721) (VBool false) in
        let isERC1155 := answer_or (client (history ++ [c721])%list c1155) (VBool false) in
        let extensions := answer_or (client (history ++ [c721; c1155])%list cext) VNull in
        let probed := mkState (history ++ [c721; c1155; cext])%list tt in
        (truthy extensions = false \/ isArray extensions = true ->
         exists matched s',
           heuristics host std client addr isERC721 isERC1155 extensions probed
           = (Ok matched, s')
           /\ detectNFTProvider host std client params (mkState history tt)
              = (Ok match matched with
                    | Some info => info
                    | None => basic_info generic (truthy isERC1155) (truthy isERC721)
                    end, s'))
        /\ (truthy extensions = false \/ extensions = VArr [] ->
            silent_from client (trace probed) ->
            exists s',
              detectNFTProvider host std client params (mkState history tt)
              = (Ok (basic_info generic (truthy isERC1155) (truthy isERC721)), s'))).
Proof.
  intros host std client params history.
  split; [apply detectNFTProvider_returns |].
  intros Hhard Hprov addr c721 c1155 cext isERC721 isERC1155 extensions probed.
  assert (Hbatch := interface_batch_runs std client addr history).
  cbv zeta in Hbatch. fold c721 c1155 cext isERC721 isERC1155 extensions probed in Hbatch.
  split.
  - intros Htyped.
    destruct (heuristics_returns host std client addr isERC721 isERC1155 extensions
                Htyped probed) as (matched & s' & Eh).
    exists matched, s'. split; [exact Eh |].
    unfold detectNFTProvider. rewrite Hhard, Hprov.
    unfold try_catch, detection_cascade, bind. fold addr. rewrite Hbatch, Eh.
    destruct matched; reflexivity.
  - intros Hnone Hsilent.
    destruct (heuristics_quiet host std client addr isERC721 isERC1155 extensions
                Hnone probed Hsilent) as (s' & Eh & _).
    exists s'.
    unfold detectNFTProvider. rewrite Hhard, Hprov.
    unfold try_catch, detection_cascade, bind. fold addr. rewrite Hbatch, Eh.
    reflexivity.
Qed.

(** The theorem on two chains: one that answers both interface probes and
    nothing else (every heuristic is tried, none matches, both flags are
    kept), and one that answers the ERC1155 probe with [true], the
    extensions probe with an empty array and [uri(0)] and [totalSupply(0)]
    at the very end of the cascade (the last heuristic matches). *)
Lemma detectNFTProvider_never_fails_witness :
  fst (detectNFTProvider decimal_host standards
         (scripted [Some (VBool true); Some (VBool true)])
         (request SOME_CONTRACT) (mkState [] tt))
  = Ok (basic_info generic true true)
  /\ fst (detectNFTProvider decimal_host standards
            (answering ONLY_AN_ERC1155_URI)
            (request SOME_CONTRACT) (mkState [] tt))
     = Ok (basic_info thirdweb true false).
Proof.
  split.
  { destruct (detectNFTProvider_never_fails decimal_host standards
                (scripted [Some (VBool true); Some (VBool true)])
                (request SOME_CONTRACT) [])
      as (_ & Hrest).
    destruct (Hrest eq_refl eq_refl) as (_ & Hsilent).
    destruct (Hsilent (or_introl eq_refl)) as (s' & Erun).
    - intros further c. unfold scripted. apply nth_overflow.
      rewrite length_app. cbn. lia.
    - rewrite Erun. reflexivity. }
  { destruct (detectNFTProvider_never_fails decimal_host standards
                (answering ONLY_AN_ERC1155_URI) (request SOME_CONTRACT) [])
      as (_ & Hrest).
    destruct (Hrest eq_refl eq_refl) as (Htyped & _).
    destruct (Htyped (or_intror eq_refl)) as (matched & s' & Eh & Erun).
    rewrite Erun. vm_compute in Eh. injection Eh as <- _. reflexivity. }
Defined.

(** C3: a request at the curated override address is classified (thirdweb,
    ERC1155) without any read: the log of reads is left as it was. *)
Theorem curated_override_needs_no_remote_call :
  forall host std client params history,
    is_hardcoded_address host (contractAddress params) = true ->
    detectNFTProvider host std client params (mkState history tt)
    = (Ok (basic_info thirdweb true false), mkState history tt).
Proof.
  intros host std client params history Hhard.
  unfold detectNFTProvider. rewrite Hhard. reflexivity.
Qed.

(** The address of the application page, in its mixed-case spelling. *)
Lemma curated_override_needs_no_remote_call_witness :
  is_hardcoded_address decimal_host (contractAddress (request PAGE_CONTRACT)) = true
  /\ detectNFTProvider decimal_host standards offline (request PAGE_CONTRACT)
       (mkState [] tt)
     = (Ok (basic_info thirdweb true false), mkState [] tt).
Proof.
  split; [reflexivity |].
  apply (curated_override_needs_no_remote_call decimal_host standards offline
           (request PAGE_CONTRACT) []).
  reflexivity.
Defined.

(** C10 (as stated, refuted): a request that names the nfts2me provider at the
    curated override address is classified with isERC1155 = true. *)
Lemma specified_provider_at_override_address :
  provider (with_provider nfts2me (request PAGE_CONTRACT)) = Some nfts2me
  /\ nfts2me <> manifold
  /\ exists info,
       fst (detectNFTProvider decimal_host standards offline
              (with_provider nfts2me (request PAGE_CONTRACT)) (mkState [] tt))
       = Ok info
       /\ isERC1155 info = true.
Proof.
  split; [reflexivity |]. split; [discriminate |].
  eexists. split; [vm_compute; reflexivity | reflexivity].
Qed.

(** C10 (amended): for a request that names a provider other than Manifold
    the detector issues no read; away from the curated override address it
    returns that provider with both standard flags false, and at the override
    address the curated classification takes precedence. *)
Theorem specified_provider_short_circuits :
  forall host std client params history p,
    provider params = Some p ->
    p <> manifold ->
    detectNFTProvider host std client params (mkState history tt)
    = (Ok (if is_hardcoded_address host (contractAddress params)
           then basic_info thirdweb true false
           else basic_info p false false),
       mkState history tt).
Proof.
  intros host std client params history p Hprov Hp.
  unfold detectNFTProvider. rewrite Hprov.
  destruct (is_hardcoded_address host (contractAddress params)); [reflexivity |].
  destruct p; try reflexivity. congruence.
Qed.

(** A request that names nfts2me at an ordinary address. *)
Lemma specified_provider_short_circuits_witness :
  detectNFTProvider decimal_host standards offline
    (with_provider nfts2me (request SOME_CONTRACT)) (mkState [] tt)
  = (Ok (basic_info nfts2me false false), mkState [] tt).
Proof.
  apply (specified_provider_short_circuits decimal_host standards offline
           (with_provider nfts2me (request SOME_CONTRACT)) [] nfts2me).
  - reflexivity.
  - discriminate.
Defined.

(** ** The validator *)

(** C8: a Manifold request with neither an instance id nor a token id is
    invalid, and says so as data: the combined requirement is listed among
    the missing parameters and its explanation among the errors. *)
Theorem manifold_request_without_ids_is_invalid :
  forall host std now_ms params contractInfo,
    info_provider contractInfo = manifold ->
    opt_truthy (instanceId params) = false ->
    opt_truthy (tokenId params) = false ->
    isValid (validateParameters host std now_ms params contractInfo) = false
    /\ In "instanceId or tokenId"
          (missingParams (validateParameters host std now_ms params contractInfo))
    /\ In MANIFOLD_ID_ERROR
          (errors (validateParameters host std now_ms params contractInfo)).
Proof.
  intros host std now_ms params contractInfo Hp Hi Ht.
  unfold validateParameters. rewrite Hp. cbn [provider_eqb isValid missingParams errors].
  rewrite Hi, Ht. cbn [negb andb].
  split; [| split].
  - rewrite length_app. cbn [List.length].
    rewrite Nat.add_comm. reflexivity.
  - apply in_or_app. right. left. reflexivity.
  - apply in_or_app. left. unfold manifold_errors. rewrite Hi, Ht.
    cbn [negb andb]. left. reflexivity.
Qed.

(** A bare request against a Manifold classification. *)
Lemma manifold_request_without_ids_is_invalid_witness :
  isValid (validateParameters decimal_host standards 0 (request SOME_CONTRACT)
             (manifold_info true false (VStr SOME_EXTENSION))) = false
  /\ missingParams (validateParameters decimal_host standards 0 (request SOME_CONTRACT)
                      (manifold_info true false (VStr SOME_EXTENSION)))
     = ["instanceId or tokenId"].
Proof.
  split.
  - apply (manifold_request_without_ids_is_invalid decimal_host standards 0
             (request SOME_CONTRACT) (manifold_info true false (VStr SOME_EXTENSION)));
      reflexivity.
  - reflexivity.
Defined.

(** ** Self-deploy pricing *)

Section RunFacts.
Variable host : Host.
Variable std : Standards.
Variable client : PublicClient.

Lemma fetch_answers (c : call) (v : value) s :
  client (trace s) c = Some v ->
  fetch client c s = (Ok v, mkState (trace s ++ [c])%list (heap s)).
Proof. intros E. unfold fetch, readContract. rewrite E. reflexivity. Qed.

Lemma fetch_rejected (c : call) s :
  client (trace s) c = None ->
  fetch client c s = (Throw CallFailed, mkState (trace s ++ [c])%list (heap s)).
Proof. intros E. unfold fetch, readContract. rewrite E. reflexivity. Qed.

Lemma run_nfts2me history params contractInfo :
  info_provider contractInfo = nfts2me ->
  run_fetchPriceData host std client history params contractInfo
  = nfts2me_branch host client (mkState history (mkHeap params contractInfo)).
Proof.
  intros Hp. unfold run_fetchPriceData, fetchPriceData, bind, the_info, get_heap, ret.
  simpl. rewrite Hp. reflexivity.
Qed.

Lemma run_thirdweb_drop history params contractInfo :
  info_provider contractInfo = thirdweb ->
  isERC1155 contractInfo = false ->
  run_fetchPriceData host std client history params contractInfo
  = thirdweb_drop_branch host std client (mkState history (mkHeap params contractInfo)).
Proof.
  intros Hp H1155. unfold run_fetchPriceData, fetchPriceData, bind, the_info, get_heap, ret.
  simpl. rewrite Hp, H1155. reflexivity.
Qed.

Lemma run_manifold history params contractInfo :
  info_provider contractInfo = manifold ->
  truthy (extensionAddress contractInfo) = true ->
  run_fetchPriceData host std client history params contractInfo
  = manifold_branch host client contractInfo (mkState history (mkHeap params contractInfo)).
Proof.
  intros Hp Hext. unfold run_fetchPriceData, fetchPriceData, bind, the_info, get_heap, ret.
  simpl. rewrite Hp, Hext. reflexivity.
Qed.

End RunFacts.

(** C7: the patterns of a self-deploy (nfts2me) request are tried in order and
    the first success ends the search.  (a) When the unit-price accessor
    answers a bigint [p], the quote is [p] per token and [p * amount] in total,
    and that read is the only one issued.  (b) When it is rejected and the
    creator fee [f] and protocol fee [g] both answer, the total is
    [f + g * amount] and no default is applied; the three reads are the only
    ones.  (c) When the fee pair fails as well, the default fees apply.  In
    particular a unit price of 0 with amount 3 gives total 0 after one read. *)
Theorem nfts2me_first_success_wins :
  forall host std client history params contractInfo,
    info_provider contractInfo = nfts2me ->
    (forall p,
       client history (mintPrice_call params) = Some (VBig p) ->
       run_fetchPriceData host std client history params contractInfo
       = (Ok (priced (VBig p) (VBig (p * amount_of params))),
          mkState (history ++ [mintPrice_call params])%list (mkHeap params contractInfo)))
    /\ (forall f g,
          client history (mintPrice_call params) = None ->
          client (history ++ [mintPrice_call params])%list (mintFee_call params)
          = Some (VBig f) ->
          client (history ++ [mintPrice_call params; mintFee_call params])%list
            (protocolFee_call params) = Some (VBig g) ->
          run_fetchPriceData host std client history params contractInfo
          = (Ok (priced (VBig f) (VBig (f + g * amount_of params))),
             mkState (history ++ [mintPrice_call params; mintFee_call params;
                                  protocolFee_call params])%list
                     (mkHeap params contractInfo)))
    /\ (client history (mintPrice_call params) = None ->
        client (history ++ [mintPrice_call params])%list (mintFee_call params) = None ->
        run_fetchPriceData host std client history params contractInfo
        = (Ok (nfts2me_defaults params),
           mkState (history ++ [mintPrice_call params; mintFee_call params;
                                protocolFee_call params])%list
                   (mkHeap params contractInfo)))
    /\ (amount params = Some (Int 3) ->
        client history (mintPrice_call params) = Some (VBig 0) ->
        run_fetchPriceData host std client history params contractInfo
        = (Ok (priced (VBig 0) (VBig 0)),
           mkState (history ++ [mintPrice_call params])%list (mkHeap params contractInfo))).
Proof.
  intros host std client history params contractInfo Hp.
  rewrite (run_nfts2me host std client history params contractInfo Hp).
  assert (Hfirst : forall p,
             client history (mintPrice_call params) = Some (VBig p) ->
             nfts2me_branch host client (mkState history (mkHeap params contractInfo))
             = (Ok (priced (VBig p) (VBig (p * amount_of params))),
                mkState (history ++ [mintPrice_call params])%list
                        (mkHeap params contractInfo))).
  { intros p Ha.
    unfold nfts2me_branch, bind, the_params, get_heap, ret, or_next, bind,
      nfts2me_mintPrice, attempt, try_catch, bind, fetch, readContract. simpl.
    rewrite Ha. reflexivity. }
  split; [exact Hfirst |].
  split; [| split].
  - intros f g Ha Hb Hc.
    unfold nfts2me_branch, bind, the_params, get_heap, ret, or_next, bind,
      nfts2me_mintPrice, nfts2me_fees, attempt, try_catch, bind, settle, await,
      fetch, readContract. simpl.
    rewrite Ha. simpl. rewrite Hb. simpl.
    rewrite <- app_assoc. simpl. rewrite Hc. simpl.
    rewrite <- app_assoc. reflexivity.
  - intros Ha Hb.
    unfold nfts2me_branch, bind, the_params, get_heap, ret, or_next, bind,
      nfts2me_mintPrice, nfts2me_fees, attempt, try_catch, bind, settle, await,
      fetch, readContract. simpl.
    rewrite Ha. simpl. rewrite Hb. simpl.
    rewrite <- !app_assoc. reflexivity.
  - intros Hamount Ha.
    rewrite (Hfirst 0 Ha). reflexivity.
Qed.

(** The example of the specification: unit price 0, amount 3. *)
Lemma nfts2me_first_success_wins_witness :
  run_fetchPriceData decimal_host standards (scripted [Some (VBig 0)]) []
    (with_amount 3 (request SOME_CONTRACT)) (basic_info nfts2me false false)
  = (Ok (priced (VBig 0) (VBig 0)),
     mkState [mintPrice_call (with_amount 3 (request SOME_CONTRACT))]
             (mkHeap (with_amount 3 (request SOME_CONTRACT))
                     (basic_info nfts2me false false)))
  /\ fst (run_fetchPriceData decimal_host standards
            (scripted [None; Some (VBig 10); Some (VBig 2)]) []
            (with_amount 3 (request SOME_CONTRACT)) (basic_info nfts2me false false))
     = Ok (priced (VBig 10) (VBig 16))
  /\ fst (run_fetchPriceData decimal_host standards
            (scripted [None; None; Some (VBig 2)]) []
            (with_amount 3 (request SOME_CONTRACT)) (basic_info nfts2me false false))
     = Ok (priced (VBig 300000000000000) (VBig 600000000000000))
  /\ fst (run_fetchPriceData decimal_host standards (scripted [Some (VBig 5)]) []
            (with_amount 3 (request SOME_CONTRACT)) (basic_info nfts2me false false))
     = Ok (priced (VBig 5) (VBig 15)).
Proof.
  destruct (nfts2me_first_success_wins decimal_host standards (scripted [Some (VBig 0)]) []
              (with_amount 3 (request SOME_CONTRACT)) (basic_info nfts2me false false)
              eq_refl) as (_ & _ & _ & Hzero).
  destruct (nfts2me_first_success_wins decimal_host standards
              (scripted [None; Some (VBig 10); Some (VBig 2)]) []
              (with_amount 3 (request SOME_CONTRACT)) (basic_info nfts2me false false)
              eq_refl) as (_ & Hfees & _).
  destruct (nfts2me_first_success_wins decimal_host standards
              (scripted [None; None; Some (VBig 2)]) []
              (with_amount 3 (request SOME_CONTRACT)) (basic_info nfts2me false false)
              eq_refl) as (_ & _ & Hdefault & _).
  destruct (nfts2me_first_success_wins decimal_host standards (scripted [Some (VBig 5)]) []
              (with_amount 3 (request SOME_CONTRACT)) (basic_info nfts2me false false)
              eq_refl) as (Hunit & _).
  split; [exact (Hzero eq_refl eq_refl) |].
  split; [rewrite (Hfees 10 2 eq_refl eq_refl eq_refl); reflexivity |].
  split; [rewrite (Hdefault eq_refl eq_refl); reflexivity |].
  rewrite (Hunit 5 eq_refl). reflexivity.
Defined.

(** ** Frame facts: which steps leave the argument objects alone *)

Section Frames.
Variable host : Host.
Variable std : Standards.
Variable client : PublicClient.

Lemma fetch_erc20_details_keeps_heap token spender :
  keeps_heap (fetch_erc20_details host client token spender).
Proof.
  unfold fetch_erc20_details, erc20_batch, validate_decimals, for_recipient,
    the_params, fetch, catch_as, interpolate.
  keeps_heap_auto.
Qed.

Lemma callManifoldWithFallback_keeps_heap address functionName args contractInfo :
  keeps_heap (callManifoldWithFallback client address functionName args contractInfo).
Proof. unfold callManifoldWithFallback, fetch. keeps_heap_auto. Qed.

Lemma manifold_fallback_keeps_heap contractInfo :
  keeps_heap (manifold_fallback client contractInfo).
Proof.
  unfold manifold_fallback, mintFee_call_block.
  apply keeps_heap_try_catch; [| intro; apply keeps_heap_ret].
  apply keeps_heap_bind; [apply callManifoldWithFallback_keeps_heap |].
  intro. apply keeps_heap_ret.
Qed.

Lemma drop_quote_keeps_heap params condition :
  keeps_heap (drop_quote host std client params condition).
Proof.
  unfold drop_quote, lift.
  apply keeps_heap_bind; [apply keeps_heap_await |]. intros [|].
  - apply keeps_heap_bind; [apply fetch_erc20_details_keeps_heap |].
    intro. apply keeps_heap_ret.
  - keeps_heap_auto.
Qed.

End Frames.

(** ** Drop-claim ERC721 pricing *)

Section DropFacts.
Variable host : Host.
Variable std : Standards.
Variable client : PublicClient.

(** The drop protocol up to the stored claim condition. *)
Lemma drop_protocol_reaches_quote history params contractInfo
    startId count condition start :
  client history (drop_claimCondition_call params)
  = Some (VArr [VBig startId; VBig count]) ->
  count <> 0 ->
  client (history ++ [drop_claimCondition_call params])%list
    (getClaimConditionById_call params (VBig (startId + count - 1)))
  = Some condition ->
  truthy condition = true ->
  typeof_object condition = true ->
  ToNumber host (getprop condition "startTimestamp") = Some start ->
  drop_protocol host std client (mkState history (mkHeap params contractInfo))
  = drop_quote host std client params condition
      (mkState (history ++ [drop_claimCondition_call params;
                            getClaimConditionById_call params
                              (VBig (startId + count - 1))])%list
         (mkHeap params
            (set_claimCondition contractInfo
               (condition_record (Int (startId + count - 1)) start condition)))).
Proof.
  intros Hcc Hcount Hcond Htruthy Hobject Hstart.
  unfold drop_protocol, bind, the_params, get_heap, ret, fetch, readContract,
    lift, await, or_TypeError, assign_claimCondition, set_heap. simpl.
  rewrite Hcc. simpl.
  apply Z.eqb_neq in Hcount. rewrite Hcount. simpl.
  rewrite Hcond. simpl. rewrite Htruthy, Hobject. simpl.
  rewrite Hstart. simpl. rewrite <- app_assoc. reflexivity.
Qed.

End DropFacts.

(** C6: a drop-claim ERC721 request reads the pair (startId, count).
    (i) With count 0 the quote is zero, that read is the only one and nothing
    is written.
    (ii) Otherwise the condition at index [startId + count - 1] is read and
    attached to the classification, whatever happens afterwards: after the
    run [contractInfo.claimCondition] holds the price per token, currency,
    supply, merkle root and wallet limit of the condition read, the index as
    its id and the start of the condition as its start timestamp (both are
    converted with [Number], which is exact up to 2^53); nothing else of the
    classification and nothing of the request changes.
    (iii) With the native currency the quote is the price per token and
    [price * amount] in total, without ERC20 detail, after exactly those two
    reads. *)
Theorem drop_claim_erc721_pricing :
  forall host std client history params contractInfo,
    info_provider contractInfo = thirdweb ->
    isERC1155 contractInfo = false ->
    (forall startId,
       client history (drop_claimCondition_call params) = Some (VArr [startId; VBig 0]) ->
       run_fetchPriceData host std client history params contractInfo
       = (Ok (priced (VBig 0) (VBig 0)),
          mkState (history ++ [drop_claimCondition_call params])%list
                  (mkHeap params contractInfo)))
    /\ (forall startId count condition,
          client history (drop_claimCondition_call params)
          = Some (VArr [VBig startId; VBig count]) ->
          count <> 0 ->
          client (history ++ [drop_claimCondition_call params])%list
            (getClaimConditionById_call params (VBig (startId + count - 1)))
          = Some condition ->
          truthy condition = true ->
          typeof_object condition = true ->
          ToNumber host (getprop condition "startTimestamp") <> None ->
          let after :=
            heap (snd (run_fetchPriceData host std client history params contractInfo)) in
          h_params after = params
          /\ classification (h_info after) = classification contractInfo
          /\ claim (h_info after) = claim contractInfo
          /\ (exists attached,
                claimCondition (h_info after) = Some attached
                /\ pricePerToken attached = getprop condition "pricePerToken"
                /\ currency attached = getprop condition "currency"
                /\ maxClaimableSupply attached = getprop condition "maxClaimableSupply"
                /\ cc_merkleRoot attached = getprop condition "merkleRoot"
                /\ quantityLimitPerWallet attached
                   = getprop condition "quantityLimitPerWallet"
                /\ (Z.abs (startId + count - 1) <= 2 ^ 53 ->
                    id attached = Int (startId + count - 1))
                /\ (forall start,
                      getprop condition "startTimestamp" = VBig start ->
                      Z.abs start <= 2 ^ 53 ->
                      startTimestamp attached = Int start))
          /\ (forall price,
                pays_in_erc20 host std (getprop condition "currency") = Ok false ->
                getprop condition "pricePerToken" = VBig price ->
                fst (run_fetchPriceData host std client history params contractInfo)
                = Ok (priced (VBig price) (VBig (price * amount_of params)))
                /\ trace (snd (run_fetchPriceData host std client history params
                                 contractInfo))
                   = (history ++ [drop_claimCondition_call params;
                                  getClaimConditionById_call params
                                    (VBig (startId + count - 1))])%list)).
Proof.
  intros host std client history params contractInfo Hp H1155.
  rewrite (run_thirdweb_drop host std client history params contractInfo Hp H1155).
  split.
  - intros startId Hcc.
    unfold thirdweb_drop_branch, try_catch, drop_protocol, bind, the_params,
      get_heap, ret, fetch, readContract. simpl.
    rewrite Hcc. reflexivity.
  - intros startId count condition Hcc Hcount Hcond Htruthy Hobject Hconverts.
    destruct (ToNumber host (getprop condition "startTimestamp")) as [start |] eqn:Hstart;
      [clear Hconverts | congruence].
    pose proof (drop_protocol_reaches_quote host std client history params contractInfo
                  startId count condition start Hcc Hcount Hcond Htruthy Hobject Hstart)
      as Hbody.
    assert (Hheap :
      heap (snd (thirdweb_drop_branch host std client
                   (mkState history (mkHeap params contractInfo))))
      = mkHeap params
          (set_claimCondition contractInfo
             (condition_record (Int (startId + count - 1)) start condition))).
    { unfold thirdweb_drop_branch, try_catch. rewrite Hbody.
      pose proof (drop_quote_keeps_heap host std client params condition) as Hkeep.
      match goal with
      | |- context [drop_quote host std client params condition ?s] =>
          specialize (Hkeep s);
          destruct (drop_quote host std client params condition s) as [[q | e] s']
      end; simpl in *; exact Hkeep. }
    cbv zeta. rewrite Hheap. cbn [h_params h_info].
    split; [reflexivity |]. split; [reflexivity |]. split; [reflexivity |].
    split.
    + eexists. split; [reflexivity |]. cbn.
      do 5 (split; [reflexivity |]).
      split; [intros _; reflexivity |].
      intros t Et _. rewrite Et in Hstart. cbn in Hstart. congruence.
    + intros price Hnative Hprice.
      unfold thirdweb_drop_branch, try_catch. rewrite Hbody.
      unfold drop_quote, bind, lift, await, ret. rewrite Hnative, Hprice.
      split; reflexivity.
Qed.

(** The example of the specification: (startId, count) = (5, 3), the condition
    at index 7 priced 1000 in the native currency, amount 4: the total is
    4000, the second read asks for index 7, and the condition is attached
    with its price and the id 7.  And a pair with count 0, after which
    nothing else is read. *)
Lemma drop_claim_erc721_pricing_witness :
  fst (run_fetchPriceData decimal_host standards
         (scripted [Some (VArr [VBig 5; VBig 3]); Some NATIVE_CONDITION])
         [] (with_amount 4 (request SOME_CONTRACT)) (basic_info thirdweb false true))
  = Ok (priced (VBig 1000) (VBig 4000))
  /\ map args (trace (snd (run_fetchPriceData decimal_host standards
         (scripted [Some (VArr [VBig 5; VBig 3]); Some NATIVE_CONDITION])
         [] (with_amount 4 (request SOME_CONTRACT)) (basic_info thirdweb false true))))
     = [[]; [VBig 7]]
  /\ (exists attached,
        claimCondition
          (h_info (heap (snd (run_fetchPriceData decimal_host standards
             (scripted [Some (VArr [VBig 5; VBig 3]); Some NATIVE_CONDITION])
             [] (with_amount 4 (request SOME_CONTRACT))
             (basic_info thirdweb false true)))))
        = Some attached
        /\ pricePerToken attached = VBig 1000
        /\ id attached = Int 7
        /\ startTimestamp attached = Int 1700000000)
  /\ run_fetchPriceData decimal_host standards (scripted [Some (VArr [VBig 5; VBig 0])])
       [] (with_amount 4 (request SOME_CONTRACT)) (basic_info thirdweb false true)
     = (Ok (priced (VBig 0) (VBig 0)),
        mkState [drop_claimCondition_call (with_amount 4 (request SOME_CONTRACT))]
          (mkHeap (with_amount 4 (request SOME_CONTRACT))
                  (basic_info thirdweb false true))).
Proof.
  destruct (drop_claim_erc721_pricing decimal_host standards
              (scripted [Some (VArr [VBig 5; VBig 3]); Some NATIVE_CONDITION])
              [] (with_amount 4 (request SOME_CONTRACT)) (basic_info thirdweb false true)
              eq_refl eq_refl) as (_ & Hcondition).
  destruct (Hcondition 5 3 NATIVE_CONDITION
              eq_refl ltac:(discriminate) eq_refl eq_refl eq_refl ltac:(discriminate))
    as (_ & _ & _ & Hattached & Hnative).
  destruct (Hnative 1000 eq_refl eq_refl) as (Hquote & Hreads).
  split; [exact Hquote |].
  split; [rewrite Hreads; reflexivity |].
  split.
  - destruct Hattached
      as (attached & Estored & Hprice & _ & _ & _ & _ & Hid & Hstart).
    exists attached. split; [exact Estored |].
    split; [rewrite Hprice; reflexivity |].
    split; [apply Hid; vm_compute; discriminate |].
    apply (Hstart 1700000000); [reflexivity | vm_compute; discriminate].
  - destruct (drop_claim_erc721_pricing decimal_host standards
                (scripted [Some (VArr [VBig 5; VBig 0])])
                [] (with_amount 4 (request SOME_CONTRACT)) (basic_info thirdweb false true)
                eq_refl eq_refl) as (Hzero & _).
    exact (Hzero (VBig 5) eq_refl).
Defined.

(** ** The Manifold token-id lookup *)

Lemma nonempty_falsy (o : option string) :
  opt_truthy o = false -> nonempty o = None.
Proof.
  destruct o as [s |]; simpl; [| reflexivity].
  intros E. rewrite E. reflexivity.
Qed.


Section TokenLookup.
Variable host : Host.
Variable std : Standards.
Variable client : PublicClient.




Lemma manifold_quote_keeps_params mintFee theClaim :
  keeps_params (manifold_quote host client mintFee theClaim).
Proof.
  intros s.
  unfold manifold_quote, bind at 1. unfold the_params, bind, get_heap, ret. simpl.
  destruct (truthy theClaim && _ && _); [reflexivity |].
  destruct (truthy theClaim); [| reflexivity].
  unfold assign_claim, the_info, bind, get_heap, set_heap, ret. simpl.
  destruct (truthy (getprop theClaim "erc20") && _).
  - match goal with
    | |- context [fetch_erc20_details host client ?tok ?sp ?st] =>
        pose proof (fetch_erc20_details_keeps_heap host client tok sp st) as Hk;
        destruct (fetch_erc20_details host client tok sp st) as [[d | e] s']
    end; simpl in *; rewrite Hk; reflexivity.
  - unfold lift, await.
    destruct (add host _ _); reflexivity.
Qed.


(** What the [catch] of the branch adds to a run of the protocol: nothing
    that touches the argument objects. *)
Lemma manifold_branch_heap contractInfo s :
  heap (snd (manifold_branch host client contractInfo s))
  = heap (snd (manifold_protocol host client contractInfo s)).
Proof.
  unfold manifold_branch, try_catch.
  destruct (manifold_protocol host client contractInfo s) as [[q | e] s']; simpl.
  - reflexivity.
  - apply manifold_fallback_keeps_heap.
Qed.

End TokenLookup.





(** ** ERC20 decimals *)

Section Decimals.
Variable host : Host.
Variable std : Standards.
Variable client : PublicClient.






End Decimals.



(** * Further properties of the engine *)

(** ** Read budgets *)

Section ReadBounds.
Context {H : Type}.

Lemma ram_weaken {A} (n n' : nat) (m : M H A) :
  (n <= n')%nat -> reads_at_most n m -> reads_at_most n' m.
Proof.
  intros Hle Hm s. destruct (Hm s) as (issued & E & Hl).
  exists issued. split; [exact E | lia].
Qed.

Lemma ram_ret {A} (n : nat) (a : A) : reads_at_most n (@ret H A a).
Proof. intros s. exists []. simpl. rewrite app_nil_r. split; [reflexivity | lia]. Qed.

Lemma ram_throw {A} (n : nat) (e : exn) : reads_at_most n (@throw H A e).
Proof. intros s. exists []. simpl. rewrite app_nil_r. split; [reflexivity | lia]. Qed.

Lemma ram_await {A} (n : nat) (r : result A) : reads_at_most n (@await H A r).
Proof. destruct r; [apply ram_ret | apply ram_throw]. Qed.

Lemma ram_or_TypeError {A} (n : nat) (o : option A) :
  reads_at_most n (@or_TypeError H A o).
Proof. destruct o; [apply ram_ret | apply ram_throw]. Qed.

Lemma ram_get_heap (n : nat) : reads_at_most n (@get_heap H).
Proof. intros s. exists []. simpl. rewrite app_nil_r. split; [reflexivity | lia]. Qed.

Lemma ram_set_heap (n : nat) (h : H) : reads_at_most n (set_heap h).
Proof. intros s. exists []. simpl. rewrite app_nil_r. split; [reflexivity | lia]. Qed.

Lemma ram_readContract client (n : nat) (c : call) :
  (1 <= n)%nat -> reads_at_most n (@readContract client H c).
Proof. intros Hn s. exists [c]. split; [reflexivity | simpl; lia]. Qed.

Lemma ram_bind {A B} (n1 n : nat) (m : M H A) (k : A -> M H B) :
  (n1 <= n)%nat ->
  reads_at_most n1 m ->
  (forall a, reads_at_most (n - n1) (k a)) ->
  reads_at_most n (bind m k).
Proof.
  intros Hle Hm Hk s. unfold bind.
  destruct (Hm s) as (i1 & E1 & L1).
  destruct (m s) as [[a | e] s1]; simpl in *.
  - destruct (Hk a s1) as (i2 & E2 & L2).
    exists (i1 ++ i2)%list. rewrite E2, E1, app_assoc, length_app.
    split; [reflexivity | lia].
  - exists i1. split; [exact E1 | lia].
Qed.

Lemma ram_try_catch {A} (n1 n : nat) (m : M H A) (handler : exn -> M H A) :
  (n1 <= n)%nat ->
  reads_at_most n1 m ->
  (forall e, reads_at_most (n - n1) (handler e)) ->
  reads_at_most n (try_catch m handler).
Proof.
  intros Hle Hm Hh s. unfold try_catch.
  destruct (Hm s) as (i1 & E1 & L1).
  destruct (m s) as [[a | e] s1]; simpl in *.
  - exists i1. split; [exact E1 | lia].
  - destruct (Hh e s1) as (i2 & E2 & L2).
    exists (i1 ++ i2)%list. rewrite E2, E1, app_assoc, length_app.
    split; [reflexivity | lia].
Qed.

Lemma ram_settle {A} (n : nat) (m : M H A) :
  reads_at_most n m -> reads_at_most n (settle m).
Proof.
  intros Hm s. unfold settle. specialize (Hm s).
  destruct (m s) as [r s']. exact Hm.
Qed.

Lemma rw_of_ram {A} (n : nat) (m : M H (option A)) :
  reads_at_most n m -> reads_within n n m.
Proof.
  intros Hm s. destruct (Hm s) as (issued & E & L). exists issued.
  split; [exact E |]. destruct (matched (fst (m s))); exact L.
Qed.

Lemma ram_of_rw {A} (hit miss n : nat) (m : M H (option A)) :
  (hit <= n)%nat -> (miss <= n)%nat -> reads_within hit miss m -> reads_at_most n m.
Proof.
  intros H1 H2 Hm s. destruct (Hm s) as (issued & E & L). exists issued.
  split; [exact E |]. destruct (matched (fst (m s))); lia.
Qed.

Lemma rw_or_next {A} (hit1 miss1 hit2 miss2 hit miss : nat) (m k : M H (option A)) :
  reads_within hit1 miss1 m ->
  reads_within hit2 miss2 k ->
  (hit1 <= hit)%nat -> (miss1 + hit2 <= hit)%nat -> (miss1 + miss2 <= miss)%nat ->
  reads_within hit miss (or_next m k).
Proof.
  intros Hm Hk L1 L2 L3 s. unfold or_next, bind.
  destruct (Hm s) as (i1 & E1 & B1).
  destruct (m s) as [[[a |] | e] s1]; simpl in *.
  - exists i1. split; [exact E1 | lia].
  - destruct (Hk s1) as (i2 & E2 & B2).
    exists (i1 ++ i2)%list. rewrite E2, E1, app_assoc, length_app.
    split; [reflexivity |].
    destruct (matched (fst (k s1))); lia.
  - exists i1. split; [exact E1 | lia].
Qed.

Lemma rw_bind {A B} (n1 hit miss : nat) (m : M H A) (k : A -> M H (option B)) :
  (n1 <= hit)%nat -> (n1 <= miss)%nat ->
  reads_at_most n1 m ->
  (forall a, reads_within (hit - n1) (miss - n1) (k a)) ->
  reads_within hit miss (bind m k).
Proof.
  intros L1 L2 Hm Hk s. unfold bind.
  destruct (Hm s) as (i1 & E1 & B1).
  destruct (m s) as [[a | e] s1]; simpl in *.
  - destruct (Hk a s1) as (i2 & E2 & B2).
    exists (i1 ++ i2)%list. rewrite E2, E1, app_assoc, length_app.
    split; [reflexivity |].
    destruct (matched (fst (k a s1))); lia.
  - exists i1. split; [exact E1 | lia].
Qed.

Lemma rw_attempt {A} (hit miss : nat) (m : M H (option A)) :
  reads_within hit miss m -> reads_within hit miss (attempt m).
Proof.
  intros Hm s. unfold attempt, try_catch.
  destruct (Hm s) as (i1 & E1 & B1).
  destruct (m s) as [[[a |] | e] s1]; simpl in *; exists i1; split; assumption.
Qed.

Lemma rw_ret_None {A} (hit miss : nat) : reads_within hit miss (@ret H (option A) None).
Proof. intros s. exists []. simpl. rewrite app_nil_r. split; [reflexivity | lia]. Qed.

End ReadBounds.

Create HintDb reads.

(** Bounds are found by trying the smallest share for the first part of a
    sequence. *)
Ltac ram_step :=
  intros;
  lazymatch goal with
  | |- reads_at_most _ (ret _) => apply ram_ret
  | |- reads_at_most _ (throw _) => apply ram_throw
  | |- reads_at_most _ (await _) => apply ram_await
  | |- reads_at_most _ (lift _) => apply ram_await
  | |- reads_at_most _ (or_TypeError _) => apply ram_or_TypeError
  | |- reads_at_most _ (interpolate _ _) => apply ram_or_TypeError
  | |- reads_at_most _ get_heap => apply ram_get_heap
  | |- reads_at_most _ (set_heap _) => apply ram_set_heap
  | |- reads_at_most _ (readContract _ _) => apply ram_readContract; lia
  | |- reads_at_most _ (settle _) => apply ram_settle; ram_step
  | |- reads_at_most _ (catch_as _ _) => unfold catch_as; ram_step
  | |- reads_at_most _ (attempt _) => unfold attempt; ram_step
  | |- reads_at_most _ (bind _ _) =>
      first [ apply (ram_bind 0); [lia | solve [ram_step] | ram_step]
            | apply (ram_bind 1); [lia | solve [ram_step] | ram_step]
            | apply (ram_bind 2); [lia | solve [ram_step] | ram_step]
            | apply (ram_bind 3); [lia | solve [ram_step] | ram_step]
            | apply (ram_bind 4); [lia | solve [ram_step] | ram_step] ]
  | |- reads_at_most _ (try_catch _ _) =>
      first [ apply (ram_try_catch 0); [lia | solve [ram_step] | ram_step]
            | apply (ram_try_catch 1); [lia | solve [ram_step] | ram_step]
            | apply (ram_try_catch 2); [lia | solve [ram_step] | ram_step]
            | apply (ram_try_catch 3); [lia | solve [ram_step] | ram_step]
            | apply (ram_try_catch 4); [lia | solve [ram_step] | ram_step] ]
  | |- reads_at_most _ (match ?x with _ => _ end) => destruct x; ram_step
  | |- reads_at_most _ _ => solve [eauto with reads]
  end.


Section DetectorBudget.
Variable host : Host.
Variable std : Standards.
Variable client : PublicClient.

Lemma read_bound n (c : call) : (1 <= n)%nat -> reads_at_most n (read client c).
Proof. intros Hn. unfold read. apply ram_readContract. exact Hn. Qed.

Lemma interface_batch_bound addr : reads_at_most 3 (interface_batch std client addr).
Proof. unfold interface_batch, read. ram_step. Qed.

Lemma manifold_step_bound isERC721 isERC1155 extensions :
  reads_at_most 0 (manifold_step host std isERC721 isERC1155 extensions).
Proof. unfold manifold_step, has_entries, find_known_extension. ram_step. Qed.

Lemma nfts2me_step_bound addr isERC721 isERC1155 :
  reads_at_most 1 (nfts2me_step host client addr isERC721 isERC1155).
Proof. unfold nfts2me_step, read. ram_step. Qed.

(** The confirmatory probe never raises and never reverses the match. *)
Lemma confirmatory_probe_bound addr (info : NFTContractInfo) :
  reads_within 1 0
    (try_catch (read client (sharedMetadata_call addr) ;;; ret tt) (fun _ => ret tt) ;;;
     ret (Some info)).
Proof.
  intros s. unfold bind, try_catch, read, readContract, ret.
  exists [sharedMetadata_call addr].
  destruct (client (trace s) (sharedMetadata_call addr)); simpl;
    (split; [reflexivity | lia]).
Qed.

(** The ERC721 step: two reads when it classifies, one when it does not. *)
Lemma thirdweb_erc721_step_bound addr isERC721 isERC1155 :
  reads_within 2 1 (thirdweb_erc721_step host client addr isERC721 isERC1155).
Proof.
  unfold thirdweb_erc721_step. destruct (truthy isERC721); [| apply rw_ret_None].
  apply rw_attempt.
  apply (rw_bind 1); [lia | lia | apply read_bound; lia |].
  intros r. cbn [Nat.sub].
  destruct r as [| | | | | | items |]; try apply rw_ret_None.
  destruct items as [| startId [| count [| extra rest]]]; try apply rw_ret_None.
  apply (rw_bind 0); [lia | lia | apply ram_or_TypeError |]. intros _.
  apply (rw_bind 0); [lia | lia | apply ram_or_TypeError |]. intros _.
  apply confirmatory_probe_bound.
Qed.

Lemma counting_loop_bound addr fragment isERC721 isERC1155 names found :
  reads_at_most (List.length names)
    (counting_loop client addr fragment isERC721 isERC1155 names found).
Proof.
  revert found. induction names as [| functionName rest IH]; intros found;
    cbn [counting_loop List.length].
  - apply ram_ret.
  - apply (ram_bind 1); [lia | unfold read; ram_step |].
    replace (S (List.length rest) - 1)%nat with (List.length rest) by lia.
    intros [found' |].
    + destruct (2 <=? found')%nat; [apply ram_ret | apply IH].
    + apply IH.
Qed.

Lemma pattern_drop1155_bound addr isERC721 isERC1155 names :
  reads_at_most (List.length names + List.length (filter takes_claim_arguments names))
    (pattern_drop1155 client addr isERC721 isERC1155 names).
Proof.
  induction names as [| functionName rest IH];
    cbn [pattern_drop1155 List.length filter].
  - apply ram_ret.
  - unfold or_next.
    destruct (takes_claim_arguments functionName); cbn [List.length].
    + apply (ram_bind 2); [lia | unfold read; ram_step |].
      intros [info |]; [apply ram_ret |].
      eapply ram_weaken; [| exact IH]. lia.
    + apply (ram_bind 1); [lia | unfold read; ram_step |].
      intros [info |]; [apply ram_ret |].
      eapply ram_weaken; [| exact IH]. lia.
Qed.

Lemma pattern_extensionFunctions_bound addr isERC721 isERC1155 names :
  reads_at_most (2 * List.length names)
    (pattern_extensionFunctions client addr isERC721 isERC1155 names).
Proof.
  induction names as [| functionName rest IH];
    cbn [pattern_extensionFunctions List.length].
  - apply ram_ret.
  - unfold or_next. apply (ram_bind 2); [lia | unfold read; ram_step |].
    intros [info |].
    + apply ram_ret.
    + eapply ram_weaken; [| exact IH]. lia.
Qed.

Lemma ram_or_next {A} (n1 n : nat) (m k : Det (option A)) :
  (n1 <= n)%nat ->
  reads_at_most n1 m -> reads_at_most (n - n1) k -> reads_at_most n (or_next m k).
Proof.
  intros Hle Hm Hk. unfold or_next. apply (ram_bind n1); [exact Hle | exact Hm |].
  intros [a |]; [apply ram_ret | exact Hk].
Qed.

Lemma thirdweb_erc1155_steps_bound addr isERC721 isERC1155 :
  reads_at_most 36 (thirdweb_erc1155_steps host client addr isERC721 isERC1155).
Proof.
  unfold thirdweb_erc1155_steps. destruct (truthy isERC1155); [| apply ram_ret].
  cbn [first_of].
  apply (ram_or_next 1); [lia | unfold pattern_claimCondition, read; ram_step |].
  apply (ram_or_next 1);
    [lia | unfold pattern_activeClaimConditionId, read; ram_step |].
  apply (ram_or_next 1); [lia | unfold pattern_verify, read; ram_step |].
  apply (ram_or_next 8);
    [lia | exact (counting_loop_bound _ _ _ _ thirdwebIndicators 0) |].
  apply (ram_or_next 6);
    [lia | exact (pattern_drop1155_bound _ _ _ drop1155Functions) |].
  apply (ram_or_next 1);
    [lia | unfold pattern_signatureMintInterface, read; ram_step |].
  apply (ram_or_next 1); [lia | unfold pattern_mintWithSignature, read; ram_step |].
  apply (ram_or_next 10);
    [lia | exact (pattern_extensionFunctions_bound _ _ _ extensionFunctions) |].
  apply (ram_or_next 5);
    [lia | exact (counting_loop_bound _ _ _ _ extensionMetadataFunctions 0) |].
  apply (ram_or_next 2); [lia | unfold pattern_uri_totalSupply, read; ram_step |].
  apply ram_ret.
Qed.

Lemma heuristics_bound addr isERC721 isERC1155 extensions :
  reads_at_most 38 (heuristics host std client addr isERC721 isERC1155 extensions).
Proof.
  unfold heuristics. cbn [first_of].
  apply (ram_or_next 0); [lia | apply manifold_step_bound |].
  apply (ram_or_next 1); [lia | apply nfts2me_step_bound |].
  apply (ram_of_rw 37 37); [lia | lia |].
  apply (rw_or_next 2 1 36 36);
    [apply thirdweb_erc721_step_bound | | lia | lia | lia].
  apply (rw_or_next 36 36 0 0);
    [apply rw_of_ram; apply thirdweb_erc1155_steps_bound
    | apply rw_ret_None | lia | lia | lia].
Qed.

Lemma detectNFTProvider_bound params :
  reads_at_most 41 (detectNFTProvider host std client params).
Proof.
  unfold detectNFTProvider.
  destruct (is_hardcoded_address host (contractAddress params)); [apply ram_ret |].
  destruct (provider params) as [p |].
  - destruct p; cbn; try apply ram_ret.
    destruct (string_truthy (KNOWN_CONTRACTS_manifoldExtension std)); apply ram_ret.
  - apply (ram_try_catch 41); [lia | | intros; apply ram_ret].
    unfold detection_cascade.
    apply (ram_bind 3); [lia | apply interface_batch_bound |].
    intros [[isERC721 isERC1155] extensions].
    apply (ram_bind 38); [lia | apply heuristics_bound |].
    intros [info |]; apply ram_ret.
Qed.

End DetectorBudget.

(** X1: whatever the chain answers, a detection appends at most 41 reads to
    the log and removes none; a request that names a provider or sits at the
    curated override address appends none.  The bound is met by a contract
    that claims both standards and answers nothing else but uri(0). *)
Theorem detector_read_budget :
  (forall host std client params history,
     exists issued,
       trace (snd (detectNFTProvider host std client params (mkState history tt)))
       = (history ++ issued)%list
       /\ (List.length issued <= 41)%nat
       /\ (is_hardcoded_address host (contractAddress params) = true
           \/ provider params <> None -> issued = []))
  /\ List.length
       (trace (snd (detectNFTProvider decimal_host standards
                      (scripted ([Some (VBool true); Some (VBool true)]
                                 ++ repeat None 37 ++ [Some (VStr "ipfs://")])%list)
                      (request SOME_CONTRACT) (mkState [] tt)))) = 41%nat.
Proof.
  split; [| vm_compute; reflexivity].
  intros host std client params history.
  destruct (detectNFTProvider_bound host std client params (mkState history tt))
    as (issued & E & L).
  cbn [trace] in E.
  exists issued. split; [exact E |]. split; [exact L |].
  intros Hshort. apply (app_inv_head history). rewrite app_nil_r.
  rewrite <- E.
  unfold detectNFTProvider.
  destruct (is_hardcoded_address host (contractAddress params)); [reflexivity |].
  destruct Hshort as [Hf | Hp]; [discriminate |].
  destruct (provider params) as [p |]; [| congruence].
  destruct p; cbn; try reflexivity.
  destruct (string_truthy (KNOWN_CONTRACTS_manifoldExtension std)); reflexivity.
Qed.

(** A request at the curated address issues no read. *)
Lemma detector_read_budget_witness :
  trace (snd (detectNFTProvider Examples.decimal_host Examples.standards Examples.offline
                (Examples.request Examples.PAGE_CONTRACT) (mkState [] tt))) = [].
Proof.
  destruct detector_read_budget as (Hall & _).
  destruct (Hall Examples.decimal_host Examples.standards Examples.offline
              (Examples.request Examples.PAGE_CONTRACT) [])
    as (issued & E & _ & Hnone).
  rewrite E. rewrite (Hnone (or_introl eq_refl)). reflexivity.
Defined.

Section ResolverBudget.
Variable host : Host.
Variable std : Standards.
Variable client : PublicClient.

Lemma fetch_bound n (c : call) : (1 <= n)%nat -> reads_at_most n (fetch client c).
Proof. intros Hn. unfold fetch. apply ram_readContract. exact Hn. Qed.

Lemma the_params_bound n : reads_at_most n the_params.
Proof. unfold the_params. ram_step. Qed.

Lemma the_info_bound n : reads_at_most n the_info.
Proof. unfold the_info. ram_step. Qed.

Lemma callManifoldWithFallback_bound address functionName args contractInfo :
  reads_at_most 2 (callManifoldWithFallback client address functionName args contractInfo).
Proof. unfold callManifoldWithFallback, fetch. ram_step. Qed.

Lemma for_recipient_bound params (c : string -> call) :
  reads_at_most 1 (for_recipient params (fun r => fetch client (c r))).
Proof. unfold for_recipient, fetch. ram_step. Qed.

Lemma fetch_erc20_details_bound token spender :
  reads_at_most 4 (fetch_erc20_details host client token spender).
Proof.
  unfold fetch_erc20_details.
  apply (ram_bind 4); [lia | |].
  - unfold erc20_batch.
    apply (ram_bind 0); [lia | apply the_params_bound |]. intros params.
    apply (ram_bind 1); [lia | apply ram_settle, fetch_bound; lia |]. intros symbolP.
    apply (ram_bind 1); [lia | apply ram_settle, fetch_bound; lia |]. intros decimalsP.
    apply (ram_bind 1); [lia | apply for_recipient_bound |]. intros allowance.
    apply (ram_bind 1); [lia | apply for_recipient_bound |]. intros balance.
    apply ram_ret.
  - intros [[[symbolP decimalsP] allowance] balance].
    unfold validate_decimals. ram_step.
Qed.

Lemma claim_lookup_bound contractInfo :
  reads_at_most 2 (claim_lookup host client contractInfo).
Proof.
  unfold claim_lookup.
  apply (ram_bind 0); [lia | apply the_params_bound |]. intros params.
  destruct (nonempty (instanceId params)); [| destruct (nonempty (tokenId params))].
  - apply (ram_bind 0); [lia | apply ram_await |]. intros n.
    apply (ram_bind 2);
      [lia | apply ram_settle, callManifoldWithFallback_bound | intros; apply ram_ret].
  - apply (ram_bind 0); [lia | apply ram_await |]. intros n.
    apply (ram_bind 2);
      [lia | apply ram_settle, callManifoldWithFallback_bound | intros; apply ram_ret].
  - apply ram_ret.
Qed.

Lemma unwrap_claim_bound claimData : reads_at_most 0 (unwrap_claim host claimData).
Proof. unfold unwrap_claim, the_params, assign_instanceId. ram_step. Qed.

Lemma manifold_gather_bound contractInfo :
  reads_at_most 4 (manifold_gather host client contractInfo).
Proof.
  unfold manifold_gather.
  apply (ram_bind 2);
    [lia | apply ram_settle; unfold mintFee_call_block;
           apply callManifoldWithFallback_bound |].
  intros mintFeeP.
  apply (ram_bind 2); [lia | apply claim_lookup_bound |]. intros claimP.
  apply (ram_bind 0); [lia | apply unwrap_claim_bound | intros; apply ram_ret].
Qed.

Lemma manifold_quote_bound mintFee theClaim :
  reads_at_most 4 (manifold_quote host client mintFee theClaim).
Proof.
  unfold manifold_quote.
  apply (ram_bind 0); [lia | apply the_params_bound |]. intros params.
  destruct (truthy theClaim && _ && _); [apply ram_ret |].
  destruct (truthy theClaim); [| apply ram_ret].
  apply (ram_bind 0); [lia | unfold assign_claim; ram_step |]. intros _.
  apply (ram_bind 0); [lia | apply the_info_bound |]. intros stored.
  destruct (truthy (getprop theClaim "erc20") && _).
  - apply (ram_bind 4); [lia | apply fetch_erc20_details_bound | intros; apply ram_ret].
  - ram_step.
Qed.

Lemma manifold_branch_bound contractInfo :
  reads_at_most 10 (manifold_branch host client contractInfo).
Proof.
  unfold manifold_branch.
  apply (ram_try_catch 8); [lia | |].
  - unfold manifold_protocol.
    apply (ram_bind 4); [lia | apply manifold_gather_bound |].
    intros gathered. apply manifold_quote_bound.
  - intros e. unfold manifold_fallback.
    apply (ram_try_catch 2); [lia | | intros; apply ram_ret].
    apply (ram_bind 2);
      [lia | unfold mintFee_call_block; apply callManifoldWithFallback_bound
      | intros; apply ram_ret].
Qed.

Lemma nfts2me_branch_bound : reads_at_most 3 (nfts2me_branch host client).
Proof.
  unfold nfts2me_branch, or_next, nfts2me_mintPrice, nfts2me_fees.
  apply (ram_bind 0); [lia | apply the_params_bound |]. intros params.
  apply (ram_bind 3); [lia | | intros [q |]; apply ram_ret].
  apply (ram_bind 1); [lia | unfold fetch; ram_step |].
  intros [q |]; [apply ram_ret |].
  unfold fetch. ram_step.
Qed.

Lemma price_or_next {A} (n1 n : nat) (m k : Price (option A)) :
  (n1 <= n)%nat ->
  reads_at_most n1 m -> reads_at_most (n - n1) k -> reads_at_most n (or_next m k).
Proof.
  intros Hle Hm Hk. unfold or_next. apply (ram_bind n1); [exact Hle | exact Hm |].
  intros [a |]; [apply ram_ret | exact Hk].
Qed.

Lemma thirdweb_extension_branch_bound :
  reads_at_most 3 (thirdweb_extension_branch host client).
Proof.
  unfold thirdweb_extension_branch.
  apply (ram_bind 0); [lia | apply the_params_bound |]. intros params.
  apply (ram_bind 3); [lia | | intros [q |]; apply ram_ret].
  cbn [first_of].
  apply (price_or_next 1); [lia | unfold extension_price, fetch; ram_step |].
  apply (price_or_next 1); [lia | unfold extension_price, fetch; ram_step |].
  apply (price_or_next 1); [lia | unfold extension_claimCondition, fetch; ram_step |].
  apply (price_or_next 0); [lia | unfold extension_hardcoded; ram_step |].
  apply ram_ret.
Qed.

Lemma thirdweb_drop_branch_bound :
  reads_at_most 6 (thirdweb_drop_branch host std client).
Proof.
  unfold thirdweb_drop_branch.
  apply (ram_try_catch 6); [lia | | intros; apply ram_ret].
  unfold drop_protocol.
  apply (ram_bind 0); [lia | apply the_params_bound |]. intros params.
  apply (ram_bind 1); [lia | apply fetch_bound; lia |]. intros r.
  destruct r as [| | | | | | items |]; try apply ram_throw.
  destruct items as [| currentStartId [| count [| extra rest]]]; try apply ram_throw.
  destruct (is_big_zero count); [apply ram_ret |].
  apply (ram_bind 0); [lia | apply ram_await |]. intros last.
  apply (ram_bind 0); [lia | apply ram_await |]. intros activeConditionId.
  apply (ram_bind 1); [lia | apply fetch_bound; lia |]. intros condition.
  destruct (negb (truthy condition) || negb (typeof_object condition));
    [apply ram_throw |].
  apply (ram_bind 0); [lia | apply ram_or_TypeError |]. intros idNumber.
  apply (ram_bind 0); [lia | apply ram_or_TypeError |]. intros start.
  apply (ram_bind 0); [lia | unfold assign_claimCondition; ram_step |]. intros _.
  unfold drop_quote.
  apply (ram_bind 0); [lia | apply ram_await |]. intros [|].
  - apply (ram_bind 4); [lia | apply fetch_erc20_details_bound | intros; apply ram_ret].
  - ram_step.
Qed.

Lemma discover_price_bound config params names :
  reads_at_most (List.length names) (discover_price client config params names).
Proof.
  induction names as [| functionName rest IH]; cbn [discover_price List.length].
  - apply ram_ret.
  - apply (price_or_next 1); [lia | unfold fetch; ram_step |].
    eapply ram_weaken; [| exact IH]. lia.
Qed.

Lemma generic_branch_bound config :
  reads_at_most (List.length (functionNames (priceDiscovery config)))
    (generic_branch client config).
Proof.
  unfold generic_branch.
  apply (ram_bind 0); [lia | apply the_params_bound |]. intros params.
  apply (ram_bind (List.length (functionNames (priceDiscovery config))));
    [lia | apply discover_price_bound | intros [q |]; apply ram_ret].
Qed.

Lemma fetchPriceData_bound history params contractInfo :
  exists issued,
    trace (snd (run_fetchPriceData host std client history params contractInfo))
    = (history ++ issued)%list
    /\ (List.length issued <= price_read_budget contractInfo)%nat.
Proof.
  unfold run_fetchPriceData, fetchPriceData, price_read_budget.
  unfold bind, the_info, get_heap, ret. simpl.
  destruct (info_provider contractInfo).
  - destruct (truthy (extensionAddress contractInfo)).
    + exact (manifold_branch_bound contractInfo
               (mkState history (mkHeap params contractInfo))).
    + exact (generic_branch_bound
               (getProviderConfig host std manifold (Some contractInfo) None)
               (mkState history (mkHeap params contractInfo))).
  - exact (generic_branch_bound
             (getProviderConfig host std opensea (Some contractInfo) None)
             (mkState history (mkHeap params contractInfo))).
  - exact (generic_branch_bound
             (getProviderConfig host std zora (Some contractInfo) None)
             (mkState history (mkHeap params contractInfo))).
  - exact (generic_branch_bound
             (getProviderConfig host std generic (Some contractInfo) None)
             (mkState history (mkHeap params contractInfo))).
  - exact (nfts2me_branch_bound (mkState history (mkHeap params contractInfo))).
  - destruct (isERC1155 contractInfo).
    + exact (thirdweb_extension_branch_bound
               (mkState history (mkHeap params contractInfo))).
    + exact (thirdweb_drop_branch_bound (mkState history (mkHeap params contractInfo))).
Qed.

End ResolverBudget.

(** X2: a pricing run only appends reads to the log, at most 10 of them for a
    Manifold claim (fee, claim, ERC20 batch, fee again, the first two under
    two ABIs each), 6 for a thirdweb drop, 3 for nfts2me and for a thirdweb
    extension, and one per candidate accessor otherwise.  The Manifold bound
    is met on a chain whose answers depend on the read alone: an ERC1155
    classification whose extension answers the fee and the claim under the
    ERC721 ABI only, for a claim in a token that reports 300 decimals. *)
Theorem price_read_budget_holds :
  (forall host std client history params contractInfo,
     exists issued,
       trace (snd (run_fetchPriceData host std client history params contractInfo))
       = (history ++ issued)%list
       /\ (List.length issued <= price_read_budget contractInfo)%nat
       /\ (price_read_budget contractInfo <= 10)%nat)
  /\ history_independent (answering ERC20_CLAIM_UNDER_ERC721_ABI)
  /\ List.length
       (trace (snd (run_fetchPriceData decimal_host standards
                      (answering ERC20_CLAIM_UNDER_ERC721_ABI)
                      []
                      (with_recipient SOME_RECIPIENT
                         (with_instanceId "5" (request SOME_CONTRACT)))
                      (manifold_info true false (VStr SOME_EXTENSION))))) = 10%nat.
Proof.
  split; [| split; [intros h h' c; reflexivity | vm_compute; reflexivity]].
  intros host std client history params contractInfo.
  destruct (fetchPriceData_bound host std client history params contractInfo)
    as (issued & E & L).
  exists issued. split; [exact E |]. split; [exact L |].
  unfold price_read_budget.
  destruct (info_provider contractInfo);
    try destruct (truthy (extensionAddress contractInfo));
    try destruct (isERC1155 contractInfo); lia.
Qed.

(** ** What the detector can return *)

Section Yields.
Context {H : Type}.

Lemma yields_ret {A} (P : A -> Prop) (a : A) : P a -> yields P (@ret H A a).
Proof. intros Hp s a' s' E. inversion E. subst. exact Hp. Qed.

Lemma yields_throw {A} (P : A -> Prop) (e : exn) : yields P (@throw H A e).
Proof. intros s a s' E. discriminate. Qed.

Lemma yields_bind {A B} (P : B -> Prop) (m : M H A) (k : A -> M H B) :
  (forall a, yields P (k a)) -> yields P (bind m k).
Proof.
  intros Hk s b s' E. unfold bind in E.
  destruct (m s) as [[a | e] s1]; [| discriminate].
  exact (Hk a s1 b s' E).
Qed.

Lemma yields_try_catch {A} (P : A -> Prop) (m : M H A) (handler : exn -> M H A) :
  yields P m -> (forall e, yields P (handler e)) -> yields P (try_catch m handler).
Proof.
  intros Hm Hh s a s' E. unfold try_catch in E.
  destruct (m s) as [[a1 | e] s1] eqn:Em.
  - inversion E. subst. exact (Hm s a s' Em).
  - exact (Hh e s1 a s' E).
Qed.

Lemma yields_or_next {A} (P : option A -> Prop) (m k : M H (option A)) :
  yields P m -> yields P k -> yields P (or_next m k).
Proof.
  intros Hm Hk s r s' E. unfold or_next, bind in E.
  destruct (m s) as [[[a |] | e] s1] eqn:Em; try discriminate.
  - inversion E. subst. exact (Hm s (Some a) s' Em).
  - exact (Hk s1 r s' E).
Qed.

Lemma yields_first_of {A} (P : option A -> Prop) (steps : list (M H (option A))) :
  P None -> Forall (yields P) steps -> yields P (first_of steps).
Proof.
  intros Hnone. induction 1 as [| m rest Hm _ IH]; cbn [first_of].
  - apply yields_ret. exact Hnone.
  - apply yields_or_next; assumption.
Qed.

End Yields.

Ltac yields_step :=
  first
    [ apply yields_throw
    | apply yields_try_catch
    | apply yields_bind
    | match goal with
      | |- yields _ (match ?x with _ => _ end) => destruct x
      | |- forall _, _ => intro
      end ].

Section DetectorResults.
Variable host : Host.
Variable std : Standards.
Variable client : PublicClient.

Lemma classified_found (p : NFTProvider) isERC721 isERC1155 :
  p = nfts2me \/ p = thirdweb ->
  found_by_heuristic isERC721 isERC1155 (classified p isERC721 isERC1155).
Proof.
  intros Hp. unfold found_by_heuristic, classified, basic_info. cbn.
  repeat split; try reflexivity; try discriminate.
  - destruct Hp; subst; auto.
  - intros Hm. destruct Hp; subst; discriminate.
Qed.

Lemma finds_none isERC721 isERC1155 :
  yields (fun r => forall info, r = Some info ->
                   found_by_heuristic isERC721 isERC1155 info)
         (@ret unit (option NFTContractInfo) None).
Proof. apply yields_ret. intros info E. discriminate. Qed.

Lemma finds_classified (p : NFTProvider) isERC721 isERC1155 :
  p = nfts2me \/ p = thirdweb ->
  yields (fun r => forall info, r = Some info ->
                   found_by_heuristic isERC721 isERC1155 info)
         (@ret unit _ (Some (classified p isERC721 isERC1155))).
Proof.
  intros Hp. apply yields_ret. intros info E. inversion E. subst.
  apply classified_found. exact Hp.
Qed.

Ltac finds :=
  unfold finds_only, attempt;
  repeat first
    [ apply finds_none
    | apply finds_classified; auto
    | yields_step ].

Lemma manifold_step_finds isERC721 isERC1155 extensions :
  finds_only isERC721 isERC1155 (manifold_step host std isERC721 isERC1155 extensions).
Proof.
  unfold manifold_step. finds.
  apply yields_ret. intros info E. inversion E. subst.
  unfold found_by_heuristic, manifold_info. cbn.
  repeat split; try reflexivity; auto; try congruence.
Qed.

Lemma counting_loop_finds addr fragment isERC721 isERC1155 names found :
  finds_only isERC721 isERC1155
    (counting_loop client addr fragment isERC721 isERC1155 names found).
Proof.
  revert found. induction names as [| functionName rest IH]; intros found;
    cbn [counting_loop].
  - apply finds_none.
  - unfold finds_only. apply yields_bind. intros [found' |].
    + destruct (2 <=? found')%nat; [apply finds_classified; auto | apply IH].
    + apply IH.
Qed.

Lemma pattern_drop1155_finds addr isERC721 isERC1155 names :
  finds_only isERC721 isERC1155 (pattern_drop1155 client addr isERC721 isERC1155 names).
Proof.
  induction names as [| functionName rest IH]; cbn [pattern_drop1155].
  - apply finds_none.
  - apply yields_or_next; [| exact IH]. finds.
Qed.

Lemma pattern_extensionFunctions_finds addr isERC721 isERC1155 names :
  finds_only isERC721 isERC1155
    (pattern_extensionFunctions client addr isERC721 isERC1155 names).
Proof.
  induction names as [| functionName rest IH]; cbn [pattern_extensionFunctions].
  - apply finds_none.
  - apply yields_or_next; [| exact IH]. finds.
Qed.

Lemma thirdweb_erc1155_steps_finds addr isERC721 isERC1155 :
  finds_only isERC721 isERC1155
    (thirdweb_erc1155_steps host client addr isERC721 isERC1155).
Proof.
  unfold thirdweb_erc1155_steps. destruct (truthy isERC1155); [| apply finds_none].
  apply yields_first_of; [intros info E; discriminate |].
  repeat first [apply Forall_nil | apply Forall_cons].
  - unfold pattern_claimCondition. finds.
  - unfold pattern_activeClaimConditionId. finds.
  - unfold pattern_verify. finds.
  - apply counting_loop_finds.
  - apply pattern_drop1155_finds.
  - unfold pattern_signatureMintInterface. finds.
  - unfold pattern_mintWithSignature. finds.
  - apply pattern_extensionFunctions_finds.
  - apply counting_loop_finds.
  - unfold pattern_uri_totalSupply. finds.
Qed.

Lemma heuristics_finds addr isERC721 isERC1155 extensions :
  finds_only isERC721 isERC1155
    (heuristics host std client addr isERC721 isERC1155 extensions).
Proof.
  unfold heuristics.
  apply yields_first_of; [intros info E; discriminate |].
  repeat first [apply Forall_nil | apply Forall_cons].
  - apply manifold_step_finds.
  - unfold nfts2me_step. finds.
  - unfold thirdweb_erc721_step. finds.
  - apply thirdweb_erc1155_steps_finds.
Qed.

End DetectorResults.

(** X3: whatever path the detector takes, its result carries no pricing data
    (no claim, no claim condition), and an extension address or the Manifold
    marker only appears on a Manifold classification.  On the auto-detection
    path (address not in the override table, no provider specified) the
    provider is never opensea or zora, the Manifold marker is set exactly on
    a Manifold result, and the flags are those of the two interface probes
    (a rejected probe counting as false) unless the result is the all-false
    generic classification of the outer catch. *)
Theorem detectNFTProvider_result_shape
    (host : Host) (std : Standards) (client : PublicClient)
    (params : MintParams) (history : list call) (s' : state unit)
    (info : NFTContractInfo) :
  detectNFTProvider host std client params (mkState history tt) = (Ok info, s') ->
  (claim info = None /\ claimCondition info = None
   /\ (hasManifoldExtension info = Some true -> info_provider info = manifold)
   /\ (info_provider info <> manifold -> extensionAddress info = VUndef))
  /\ (is_hardcoded_address host (contractAddress params) = false ->
      provider params = None ->
      let c721 := supportsInterface_call (contractAddress params)
                    (INTERFACE_IDS_ERC721 std) in
      let c1155 := supportsInterface_call (contractAddress params)
                     (INTERFACE_IDS_ERC1155 std) in
      info_provider info <> opensea /\ info_provider info <> zora
      /\ (info_provider info = manifold -> hasManifoldExtension info = Some true)
      /\ ((isERC721 info = truthy (answer_or (client history c721) (VBool false))
           /\ isERC1155 info
              = truthy (answer_or (client (history ++ [c721])%list c1155) (VBool false)))
          \/ info = basic_info generic false false)).
Proof.
  intros Hrun.
  pose proof (interface_batch_runs std client (contractAddress params) history)
    as Hbatch.
  cbv zeta in Hbatch.
  set (p721 := answer_or (client history
         (supportsInterface_call (contractAddress params) (INTERFACE_IDS_ERC721 std)))
         (VBool false)) in *.
  set (p1155 := answer_or (client (history ++
         [supportsInterface_call (contractAddress params) (INTERFACE_IDS_ERC721 std)])%list
         (supportsInterface_call (contractAddress params) (INTERFACE_IDS_ERC1155 std)))
         (VBool false)) in *.
  assert (Hcascade :
    is_hardcoded_address host (contractAddress params) = false ->
    provider params = None ->
    found_by_heuristic p721 p1155 info
    \/ info = classified generic p721 p1155
    \/ info = basic_info generic false false).
  { intros Hhard Hnone.
    unfold detectNFTProvider in Hrun. rewrite Hhard, Hnone in Hrun.
    unfold try_catch, detection_cascade, bind in Hrun. rewrite Hbatch in Hrun.
    match type of Hrun with
    | context [heuristics ?h ?st ?c ?a ?p1 ?p2 ?ex ?s1] =>
        destruct (heuristics h st c a p1 p2 ex s1) as [[[found |] | e] s2] eqn:Eh
    end;
      cbn in Hrun; inversion Hrun; subst; auto.
    left.
    exact (heuristics_finds host std client _ _ _ _ _ (Some info) _ Eh info eq_refl). }
  split.
  - unfold detectNFTProvider in Hrun.
    destruct (is_hardcoded_address host (contractAddress params)) eqn:Hhard.
    { inversion Hrun. subst. cbn. repeat split; congruence. }
    destruct (provider params) as [specifiedProvider |] eqn:Hp.
    { destruct specifiedProvider; cbn in Hrun;
        repeat match type of Hrun with
               | context [if ?b then _ else _] => destruct b
               end;
        inversion Hrun; subst; cbn; repeat split; congruence. }
    destruct (Hcascade eq_refl eq_refl)
      as [(_ & _ & _ & Hmark & Hext & Hc & Hcc) | [-> | ->]].
    + repeat split; try assumption. apply Hmark.
    + cbn. repeat split; congruence.
    + cbn. repeat split; congruence.
  - intros Hhard Hnone. cbv zeta.
    pose proof (Hcascade Hhard Hnone) as Hshape.
    repeat split.
    + destruct Hshape as [([E | [E | E]] & _) | [-> | ->]];
        try (rewrite E); cbn; discriminate.
    + destruct Hshape as [([E | [E | E]] & _) | [-> | ->]];
        try (rewrite E); cbn; discriminate.
    + destruct Hshape as [(_ & _ & _ & Hmark & _) | [-> | ->]];
        [apply Hmark | cbn; discriminate | cbn; discriminate].
    + destruct Hshape as [(_ & H721 & H1155 & _) | [-> | ->]]; auto.
Qed.

(** The shape at an address where only the ERC721 probe answers. *)
Lemma detectNFTProvider_result_shape_witness :
  exists info s',
    detectNFTProvider Examples.decimal_host Examples.standards
      (Examples.scripted [Some (VBool true)])
      (Examples.request Examples.SOME_CONTRACT) (mkState [] tt) = (Ok info, s')
    /\ claim info = None
    /\ info_provider info <> opensea
    /\ info_provider info <> zora.
Proof.
  destruct (detectNFTProvider Examples.decimal_host Examples.standards
              (Examples.scripted [Some (VBool true)])
              (Examples.request Examples.SOME_CONTRACT) (mkState [] tt))
    as [[info | e] s'] eqn:Erun; [| vm_compute in Erun; discriminate].
  exists info, s'. split; [reflexivity |].
  destruct (detectNFTProvider_result_shape _ _ _ _ _ _ _ Erun)
    as ((Hclaim & _) & Hauto).
  destruct (Hauto eq_refl eq_refl) as (Hopensea & Hzora & _).
  repeat split; assumption.
Defined.

(** ** The validator, provider by provider *)

Section ValidatorFacts.
Variable host : Host.
Variable std : Standards.

Lemma requiredParams_everywhere (p : NFTProvider) :
  requiredParams (PROVIDER_CONFIGS std p) = ["contractAddress"; "chainId"].
Proof. destruct p; reflexivity. Qed.

Lemma missing_required (params : MintParams) (p : NFTProvider) :
  filter (fun param => negb (param_present params param))
         (requiredParams (PROVIDER_CONFIGS std p))
  = List.app (if string_truthy (contractAddress params) then [] else ["contractAddress"])
             (if number_truthy (chainId params) then [] else ["chainId"]).
Proof.
  rewrite requiredParams_everywhere. cbn.
  destruct (string_truthy (contractAddress params)), (number_truthy (chainId params));
    reflexivity.
Qed.

Lemma no_entries {A} (l : list A) : Nat.eqb (List.length l) 0 = true <-> l = [].
Proof. destruct l; cbn; split; congruence. Qed.

Lemma isValid_iff now_ms params contractInfo :
  isValid (validateParameters host std now_ms params contractInfo) = true
  <-> missingParams (validateParameters host std now_ms params contractInfo) = []
      /\ errors (validateParameters host std now_ms params contractInfo) = [].
Proof.
  unfold validateParameters. cbn [isValid missingParams errors].
  rewrite andb_true_iff, !no_entries. reflexivity.
Qed.

Lemma started_iff (now_ms start : Z) :
  (now_ms / 1000 <? start) = true <-> now_ms < 1000 * start.
Proof.
  rewrite Z.ltb_lt.
  pose proof (Z.mul_div_le now_ms 1000 ltac:(lia)).
  pose proof (Z.mul_succ_div_gt now_ms 1000 ltac:(lia)).
  split; intros; lia.
Qed.

End ValidatorFacts.

(** X4: for a provider other than manifold and thirdweb the validator
    reports no error at all, and the request is valid exactly when it has a
    non-empty contract address and a chain id other than 0 and NaN; the
    pricing data of the classification, the clock and every other request
    field are not looked at. *)
Theorem validateParameters_plain_providers
    (host : Host) (std : Standards) (now_ms : Z) (params : MintParams)
    (contractInfo : NFTContractInfo) :
  info_provider contractInfo <> manifold ->
  info_provider contractInfo <> thirdweb ->
  errors (validateParameters host std now_ms params contractInfo) = []
  /\ missingParams (validateParameters host std now_ms params contractInfo)
     = List.app (if string_truthy (contractAddress params) then [] else ["contractAddress"])
                (if number_truthy (chainId params) then [] else ["chainId"])
  /\ (isValid (validateParameters host std now_ms params contractInfo) = true
      <-> contractAddress params <> "" /\ chainId params <> NaN
          /\ chainId params <> Int 0).
Proof.
  intros Hm Ht.
  assert (Herr : errors (validateParameters host std now_ms params contractInfo) = []).
  { unfold validateParameters. cbn [errors].
    destruct (info_provider contractInfo); try congruence; reflexivity. }
  assert (Hmiss : missingParams (validateParameters host std now_ms params contractInfo)
     = List.app (if string_truthy (contractAddress params) then [] else ["contractAddress"])
                (if number_truthy (chainId params) then [] else ["chainId"])).
  { unfold validateParameters. cbn [missingParams]. rewrite missing_required.
    destruct (info_provider contractInfo); try congruence;
      cbn [provider_eqb andb]; rewrite app_nil_r; reflexivity. }
  split; [exact Herr |]. split; [exact Hmiss |].
  rewrite isValid_iff, Herr, Hmiss.
  unfold string_truthy, number_truthy.
  destruct (String.eqb_spec (contractAddress params) "") as [Ea | Ea];
    destruct (chainId params) as [| z]; cbn;
    try destruct (Z.eqb_spec z 0) as [Ez | Ez]; cbn;
    split; intros; try (repeat split; congruence);
    try (exfalso; intuition congruence).
Qed.

(** A bare request against the generic classification. *)
Lemma validateParameters_plain_providers_witness :
  isValid (validateParameters Examples.decimal_host Examples.standards 0
             (Examples.request Examples.SOME_CONTRACT)
             (basic_info generic false false)) = true.
Proof.
  apply (validateParameters_plain_providers Examples.decimal_host Examples.standards 0
           (Examples.request Examples.SOME_CONTRACT) (basic_info generic false false));
    [discriminate | discriminate |].
  repeat split; discriminate.
Defined.

(** X5: a Manifold request is valid exactly when it has a contract address
    and a chain id, at least one of instance id and token id is non-empty, a
    non-empty instance id parses (parseInt) to a number that is not NaN and
    not negative, and the stored claim, if any, has no merkle root other
    than the all-zero one. *)
Theorem validateParameters_manifold_valid_iff
    (host : Host) (std : Standards) (now_ms : Z) (params : MintParams)
    (contractInfo : NFTContractInfo) :
  info_provider contractInfo = manifold ->
  (isValid (validateParameters host std now_ms params contractInfo) = true
   <-> string_truthy (contractAddress params) = true
       /\ number_truthy (chainId params) = true
       /\ (opt_truthy (instanceId params) = true \/ opt_truthy (tokenId params) = true)
       /\ (forall i, instanceId params = Some i -> i <> "" ->
             exists n, parseInt host i = Int n /\ 0 <= n)
       /\ (forall c, claim contractInfo = Some c ->
             needs_merkle_proof (merkleRoot c) = false)).
Proof.
  intros Hp. rewrite isValid_iff.
  unfold validateParameters. cbn [missingParams errors].
  rewrite missing_required, Hp. cbn [provider_eqb andb].
  rewrite app_nil_r. unfold manifold_errors.
  split.
  - intros [Hmiss Herr].
    apply app_eq_nil in Hmiss. destruct Hmiss as [Hreq Hids].
    apply app_eq_nil in Hreq. destruct Hreq as [Haddr Hchain].
    apply app_eq_nil in Herr. destruct Herr as [_ Herr].
    apply app_eq_nil in Herr. destruct Herr as [Hformat Hroot].
    split; [destruct (string_truthy (contractAddress params)); congruence |].
    split; [destruct (number_truthy (chainId params)); congruence |].
    split; [destruct (opt_truthy (instanceId params)),
                     (opt_truthy (tokenId params)); cbn in Hids; auto; discriminate |].
    split.
    + intros i Ei Hne. rewrite Ei in Hformat.
      unfold string_truthy in Hformat.
      destruct (String.eqb_spec i "") as [| _]; [contradiction |].
      cbn [negb] in Hformat.
      destruct (parseInt host i) as [| n]; [discriminate |].
      destruct (Z.ltb_spec n 0); [discriminate |]. exists n. split; [reflexivity | lia].
    + intros c Ec. rewrite Ec in Hroot.
      destruct (needs_merkle_proof (merkleRoot c)); [discriminate | reflexivity].
  - intros (Haddr & Hchain & Hids & Hformat & Hroot).
    rewrite Haddr, Hchain. cbn [List.app].
    assert (Hnone : negb (opt_truthy (instanceId params))
                    && negb (opt_truthy (tokenId params)) = false).
    { destruct Hids as [-> | ->]; cbn; [reflexivity | apply andb_false_r]. }
    rewrite Hnone. cbn [List.app]. split; [reflexivity |].
    assert (Hf : match instanceId params with
                 | Some i =>
                     if string_truthy i then
                       match parseInt host i with
                       | NaN => ["Invalid instanceId format: " ++ i
                                 ++ ". Must be a positive integer."]
                       | Int n =>
                           if n <? 0
                           then ["Invalid instanceId format: " ++ i
                                 ++ ". Must be a positive integer."]
                           else []
                       end
                     else []
                 | None => []
                 end = []).
    { destruct (instanceId params) as [i |]; [| reflexivity].
      unfold string_truthy. destruct (String.eqb_spec i "") as [| Hne]; [reflexivity |].
      cbn [negb]. destruct (Hformat i eq_refl Hne) as (n & -> & Hn).
      destruct (Z.ltb_spec n 0); [lia | reflexivity]. }
    rewrite Hf. cbn [List.app].
    destruct (claim contractInfo) as [c |]; [| reflexivity].
    rewrite (Hroot c eq_refl). reflexivity.
Qed.

(** A request with a token id against a Manifold classification. *)
Lemma validateParameters_manifold_valid_iff_witness :
  isValid (validateParameters Examples.decimal_host Examples.standards 0
             (Examples.with_tokenId "7" (Examples.request Examples.SOME_CONTRACT))
             (manifold_info true false (VStr Examples.SOME_EXTENSION))) = true.
Proof.
  apply (validateParameters_manifold_valid_iff Examples.decimal_host Examples.standards 0
           (Examples.with_tokenId "7" (Examples.request Examples.SOME_CONTRACT))
           (manifold_info true false (VStr Examples.SOME_EXTENSION)));
    [reflexivity |].
  split; [reflexivity |]. split; [reflexivity |].
  split; [right; reflexivity |].
  split; [intros i Ei; discriminate | intros c Ec; discriminate].
Defined.

(** X6: a thirdweb request is valid exactly when it has a contract address
    and a chain id and the stored claim condition, if any, has no merkle root
    other than the all-zero one and a start that is 0, NaN, or not after the
    clock: with the clock in milliseconds, a start of [t] seconds is accepted
    from [1000 * t] ms on.  Instance and token ids play no part. *)
Theorem validateParameters_thirdweb_valid_iff
    (host : Host) (std : Standards) (now_ms : Z) (params : MintParams)
    (contractInfo : NFTContractInfo) :
  info_provider contractInfo = thirdweb ->
  (isValid (validateParameters host std now_ms params contractInfo) = true
   <-> string_truthy (contractAddress params) = true
       /\ number_truthy (chainId params) = true
       /\ (forall cc, claimCondition contractInfo = Some cc ->
             needs_merkle_proof (cc_merkleRoot cc) = false
             /\ (forall start, startTimestamp cc = Int start ->
                   start = 0 \/ 1000 * start <= now_ms))).
Proof.
  intros Hp. rewrite isValid_iff.
  unfold validateParameters. cbn [missingParams errors].
  rewrite missing_required, Hp. cbn [provider_eqb andb List.app].
  rewrite app_nil_r. unfold thirdweb_errors.
  split.
  - intros [Hmiss Herr].
    apply app_eq_nil in Hmiss. destruct Hmiss as [Haddr Hchain].
    split; [destruct (string_truthy (contractAddress params)); congruence |].
    split; [destruct (number_truthy (chainId params)); congruence |].
    intros cc Ecc. rewrite Ecc in Herr.
    apply app_eq_nil in Herr. destruct Herr as [Hroot Hstart].
    split; [destruct (needs_merkle_proof (cc_merkleRoot cc)); congruence |].
    intros start Es. rewrite Es in Hstart.
    destruct (Z.eqb_spec start 0) as [| Hne]; [left; assumption | right].
    cbn [negb andb] in Hstart.
    destruct (now_ms / 1000 <? start) eqn:Elt; [discriminate |].
    destruct (Z.le_gt_cases (1000 * start) now_ms) as [| Hlt]; [assumption |].
    apply started_iff in Hlt. congruence.
  - intros (Haddr & Hchain & Hcc).
    rewrite Haddr, Hchain. split; [reflexivity |].
    destruct (claimCondition contractInfo) as [cc |]; [| reflexivity].
    destruct (Hcc cc eq_refl) as [Hroot Hstart]. rewrite Hroot. cbn [List.app].
    destruct (startTimestamp cc) as [| start]; [reflexivity |].
    destruct (Hstart start eq_refl) as [-> | Hle]; [reflexivity |].
    destruct (now_ms / 1000 <? start) eqn:Elt; [| rewrite andb_false_r; reflexivity].
    apply started_iff in Elt. lia.
Qed.

(** A drop whose claim condition starts at second 1700000000, asked at that
    very second. *)
Lemma validateParameters_thirdweb_valid_iff_witness :
  isValid (validateParameters Examples.decimal_host Examples.standards 1700000000000
             (Examples.request Examples.SOME_CONTRACT)
             (set_claimCondition (basic_info thirdweb false true)
                ({| id := Int 0; pricePerToken := VBig 0;
                         currency := VStr ZERO_ADDRESS;
                         maxClaimableSupply := VBig 0;
                         cc_merkleRoot := VStr ZERO_BYTES32;
                         startTimestamp := Int 1700000000;
                         quantityLimitPerWallet := VBig 0 |}))) = true.
Proof.
  apply validateParameters_thirdweb_valid_iff; [reflexivity |].
  split; [reflexivity |]. split; [reflexivity |].
  intros cc Ecc. inversion Ecc. subst. cbn.
  split; [reflexivity |].
  intros start Es. inversion Es. subst. right. lia.
Defined.

(** ** What a quote can look like *)

Section QuoteShape.
Variable host : Host.
Variable std : Standards.
Variable client : PublicClient.

Lemma yields_bind_from {H A B} (Q : A -> Prop) (P : B -> Prop)
    (m : M H A) (k : A -> M H B) :
  yields Q m -> (forall a, Q a -> yields P (k a)) -> yields P (bind m k).
Proof.
  intros Hm Hk s b s' E. unfold bind in E.
  destruct (m s) as [[a | e] s1] eqn:Em; [| discriminate].
  exact (Hk a (Hm s a s1 Em) s1 b s' E).
Qed.

Lemma well_formed_priced (p t : value) : well_formed_quote (priced p t).
Proof. split; cbn; intros; discriminate. Qed.

Lemma well_formed_only_total (t : value) :
  t = VBig 0 \/ t = VBig DEFAULT_MANIFOLD_FEE -> well_formed_quote (only_total t).
Proof. intros Ht. split; cbn; intros; [discriminate | auto]. Qed.

Lemma well_formed_without_detail (p t : value) (c : option Claim) :
  well_formed_quote {| mintPrice := Some p; erc20Details := None;
                       totalCost := t; price_claim := c |}.
Proof. split; cbn; intros; discriminate. Qed.

Lemma validate_decimals_in_range token d :
  yields (fun n => exists z, n = Int z /\ 0 <= z <= 255)
         (validate_decimals host token d).
Proof.
  unfold validate_decimals. apply yields_bind. intros validated.
  destruct (decimals_out_of_range validated) eqn:Erange.
  - repeat yields_step.
  - apply yields_ret. destruct validated as [| z]; [discriminate |].
    cbn in Erange. apply orb_false_iff in Erange. destruct Erange as [Hlo Hhi].
    apply Z.ltb_ge in Hlo. apply Z.ltb_ge in Hhi. exists z. split; [reflexivity | lia].
Qed.

Lemma fetch_erc20_details_in_range token spender :
  yields (fun d => exists z, decimals d = Int z /\ 0 <= z <= 255)
         (fetch_erc20_details host client token spender).
Proof.
  unfold fetch_erc20_details.
  apply yields_bind. intros [[[symbolP decimalsP] allowance] balance].
  apply yields_bind. intros symbol. apply yields_bind. intros d.
  apply (yields_bind_from _ _ _ _ (validate_decimals_in_range token d)).
  intros validated Hrange. apply yields_ret. exact Hrange.
Qed.

Lemma manifold_quote_well_formed mintFee theClaim :
  yields well_formed_quote (manifold_quote host client mintFee theClaim).
Proof.
  unfold manifold_quote. apply yields_bind. intros params.
  destruct (truthy theClaim && _ && _).
  { apply yields_ret. apply well_formed_priced. }
  destruct (truthy theClaim); [| apply yields_ret; apply well_formed_without_detail].
  apply yields_bind. intros _. apply yields_bind. intros stored.
  destruct (truthy (getprop theClaim "erc20") && _).
  - apply (yields_bind_from _ _ _ _ (fetch_erc20_details_in_range _ _)).
    intros details Hrange. apply yields_ret.
    split; cbn; [| discriminate].
    intros d Ed. inversion Ed. subst.
    split; [exact Hrange |]. split; [discriminate | right; reflexivity].
  - apply yields_bind. intros total. apply yields_ret. apply well_formed_without_detail.
Qed.

Lemma manifold_branch_well_formed contractInfo :
  yields well_formed_quote (manifold_branch host client contractInfo).
Proof.
  unfold manifold_branch, manifold_protocol, manifold_fallback.
  apply yields_try_catch.
  - apply yields_bind. intros gathered. apply manifold_quote_well_formed.
  - intros _. apply yields_try_catch.
    + apply yields_bind. intros mintFee. apply yields_ret. apply well_formed_priced.
    + intros _. apply yields_ret. apply well_formed_only_total. right. reflexivity.
Qed.

Lemma finds_well_formed_none :
  yields (fun r => forall q, r = Some q -> well_formed_quote q)
         (@ret Heap (option PriceData) None).
Proof. apply yields_ret. intros q E. discriminate. Qed.

Lemma finds_well_formed_priced (p t : value) :
  yields (fun r => forall q, r = Some q -> well_formed_quote q)
         (@ret Heap _ (Some (priced p t))).
Proof.
  apply yields_ret. intros q E. inversion E. subst. apply well_formed_priced.
Qed.

Ltac finds_quote :=
  unfold finds_well_formed, attempt;
  repeat first
    [ apply finds_well_formed_none
    | apply finds_well_formed_priced
    | yields_step ].

Lemma found_or_default (m : Price (option PriceData)) (d : PriceData) :
  finds_well_formed m -> well_formed_quote d ->
  yields well_formed_quote
    (found <- m ;; match found with Some q => ret q | None => ret d end).
Proof.
  intros Hm Hd. apply (yields_bind_from _ _ _ _ Hm).
  intros [q |] Hq; apply yields_ret; [apply Hq; reflexivity | exact Hd].
Qed.

Lemma nfts2me_branch_well_formed :
  yields well_formed_quote (nfts2me_branch host client).
Proof.
  unfold nfts2me_branch. apply yields_bind. intros params.
  apply found_or_default; [| apply well_formed_priced].
  apply yields_or_next; unfold nfts2me_mintPrice, nfts2me_fees; finds_quote.
Qed.

Lemma thirdweb_extension_branch_well_formed :
  yields well_formed_quote (thirdweb_extension_branch host client).
Proof.
  unfold thirdweb_extension_branch. apply yields_bind. intros params.
  apply found_or_default; [| apply well_formed_priced].
  apply yields_first_of; [intros q E; discriminate |].
  repeat first [apply Forall_nil | apply Forall_cons];
    unfold extension_price, extension_claimCondition, extension_hardcoded;
    finds_quote.
Qed.

Lemma drop_quote_well_formed params condition :
  yields well_formed_quote (drop_quote host std client params condition).
Proof.
  unfold drop_quote. apply yields_bind. intros [|].
  - apply (yields_bind_from _ _ _ _ (fetch_erc20_details_in_range _ _)).
    intros details Hrange. apply yields_ret.
    split; cbn; [| discriminate].
    intros d Ed. inversion Ed. subst.
    split; [exact Hrange |]. split; [discriminate | left; reflexivity].
  - apply yields_bind. intros total. apply yields_ret. apply well_formed_priced.
Qed.

Lemma thirdweb_drop_branch_well_formed :
  yields well_formed_quote (thirdweb_drop_branch host std client).
Proof.
  unfold thirdweb_drop_branch. apply yields_try_catch.
  - unfold drop_protocol.
    repeat first
      [ apply drop_quote_well_formed
      | apply yields_ret; apply well_formed_priced
      | yields_step ].
  - intros _. apply yields_ret. apply well_formed_only_total. left. reflexivity.
Qed.

Lemma discover_price_well_formed config params names :
  finds_well_formed (discover_price client config params names).
Proof.
  induction names as [| functionName rest IH]; cbn [discover_price].
  - apply finds_well_formed_none.
  - apply yields_or_next; [| exact IH]. finds_quote.
Qed.

Lemma generic_branch_well_formed config :
  yields well_formed_quote (generic_branch client config).
Proof.
  unfold generic_branch. apply yields_bind. intros params.
  apply found_or_default; [| apply well_formed_priced].
  apply discover_price_well_formed.
Qed.

Lemma fetchPriceData_well_formed :
  yields well_formed_quote (fetchPriceData host std client).
Proof.
  unfold fetchPriceData. apply yields_bind. intros contractInfo.
  destruct (info_provider contractInfo);
    repeat match goal with
           | |- yields _ (if ?b then _ else _) => destruct b
           end;
    first [ apply manifold_branch_well_formed
          | apply nfts2me_branch_well_formed
          | apply thirdweb_extension_branch_well_formed
          | apply thirdweb_drop_branch_well_formed
          | apply generic_branch_well_formed ].
Qed.

End QuoteShape.

(** X7: every quote fetchPriceData returns, for any classification and any
    chain, is well formed: ERC20 detail only ever comes with decimals in
    0..255, with a mint price, and with a native total that is 0 or the mint
    price (never price plus token cost); and a quote without a mint price is
    the bare total of a catch block, 0 or the default Manifold fee. *)
Theorem fetchPriceData_quote_well_formed
    (host : Host) (std : Standards) (client : PublicClient) (history : list call)
    (params : MintParams) (contractInfo : NFTContractInfo)
    (q : PriceData) (s' : state Heap) :
  run_fetchPriceData host std client history params contractInfo = (Ok q, s') ->
  well_formed_quote q.
Proof.
  intros Hrun.
  exact (fetchPriceData_well_formed host std client _ q s' Hrun).
Qed.

(** A Manifold claim paid in a token of 18 decimals. *)
Lemma fetchPriceData_quote_well_formed_witness :
  exists q s' d,
    run_fetchPriceData Examples.decimal_host Examples.standards
      (Examples.scripted [Some (VBig 100); Some Examples.ERC20_CLAIM;
                          Some (VStr "TKN"); Some (VNum (Int 18))])
      [] (Examples.with_instanceId "5" (Examples.request Examples.SOME_CONTRACT))
      (manifold_info true false (VStr Examples.SOME_EXTENSION)) = (Ok q, s')
    /\ erc20Details q = Some d
    /\ (exists z, decimals d = Int z /\ 0 <= z <= 255)
    /\ totalCost q = VBig 100.
Proof.
  destruct (run_fetchPriceData Examples.decimal_host Examples.standards
      (Examples.scripted [Some (VBig 100); Some Examples.ERC20_CLAIM;
                          Some (VStr "TKN"); Some (VNum (Int 18))])
      [] (Examples.with_instanceId "5" (Examples.request Examples.SOME_CONTRACT))
      (manifold_info true false (VStr Examples.SOME_EXTENSION)))
    as [[q | e] s'] eqn:Erun; [| vm_compute in Erun; discriminate].
  pose proof (fetchPriceData_quote_well_formed _ _ _ _ _ _ _ _ Erun) as [Hdetail _].
  exists q, s'.
  vm_compute in Erun. injection Erun as Eq Es. subst q s'.
  eexists. split; [reflexivity |].
  split; [reflexivity |].
  split; [| reflexivity].
  exact (proj1 (Hdetail _ eq_refl)).
Defined.

(** ** What fetchPriceData writes to its arguments *)

Section Preserves.
Context {X : Type}.
Variable f : Heap -> X.

Lemma preserves_of_keeps_heap {A} (m : Price A) : keeps_heap m -> preserves f m.
Proof. intros Hm s. rewrite Hm. reflexivity. Qed.

Lemma preserves_bind {A B} (m : Price A) (k : A -> Price B) :
  preserves f m -> (forall a, preserves f (k a)) -> preserves f (bind m k).
Proof.
  intros Hm Hk s. unfold bind. specialize (Hm s).
  destruct (m s) as [[a | e] s']; simpl in *.
  - rewrite Hk. exact Hm.
  - exact Hm.
Qed.

Lemma preserves_try_catch {A} (m : Price A) (handler : exn -> Price A) :
  preserves f m -> (forall e, preserves f (handler e)) ->
  preserves f (try_catch m handler).
Proof.
  intros Hm Hh s. unfold try_catch. specialize (Hm s).
  destruct (m s) as [[a | e] s']; simpl in *.
  - exact Hm.
  - rewrite Hh. exact Hm.
Qed.

End Preserves.

Section BranchFrames.
Variable host : Host.
Variable std : Standards.
Variable client : PublicClient.

Lemma the_params_keeps_heap : keeps_heap the_params.
Proof. intros s. reflexivity. Qed.

Lemma the_info_keeps_heap : keeps_heap the_info.
Proof. intros s. reflexivity. Qed.

Lemma nfts2me_branch_keeps_heap : keeps_heap (nfts2me_branch host client).
Proof.
  unfold nfts2me_branch, or_next, nfts2me_mintPrice, nfts2me_fees, attempt,
    the_params, fetch, lift.
  keeps_heap_auto.
Qed.

Lemma thirdweb_extension_branch_keeps_heap :
  keeps_heap (thirdweb_extension_branch host client).
Proof.
  unfold thirdweb_extension_branch, first_of, or_next, extension_price,
    extension_claimCondition, extension_hardcoded, attempt, the_params, fetch, lift.
  keeps_heap_auto.
Qed.

Lemma discover_price_keeps_heap config params names :
  keeps_heap (discover_price client config params names).
Proof.
  induction names as [| functionName rest IH]; cbn [discover_price].
  - apply keeps_heap_ret.
  - unfold or_next. apply keeps_heap_bind.
    + unfold attempt, fetch, lift. keeps_heap_auto.
    + intros [q |]; [apply keeps_heap_ret | exact IH].
Qed.

Lemma generic_branch_keeps_heap config : keeps_heap (generic_branch client config).
Proof.
  unfold generic_branch.
  apply keeps_heap_bind; [apply the_params_keeps_heap |]. intros params.
  apply keeps_heap_bind; [apply discover_price_keeps_heap |].
  intros [q |]; apply keeps_heap_ret.
Qed.

Lemma claim_lookup_keeps_heap contractInfo :
  keeps_heap (claim_lookup host client contractInfo).
Proof.
  unfold claim_lookup, lift.
  apply keeps_heap_bind; [apply the_params_keeps_heap |]. intros params.
  destruct (nonempty (instanceId params)); [| destruct (nonempty (tokenId params))];
    repeat first [ apply callManifoldWithFallback_keeps_heap | keeps_heap_step ].
Qed.

Section View.
Context {X : Type}.
Variable f : Heap -> X.

Lemma unwrap_claim_preserves claimData :
  ignores_instanceId f -> preserves f (unwrap_claim host claimData).
Proof.
  intros Hi. unfold unwrap_claim.
  apply preserves_bind; [apply preserves_of_keeps_heap, the_params_keeps_heap |].
  intros params.
  destruct claimData as [| | | | | | items |];
    try (apply preserves_of_keeps_heap, keeps_heap_ret).
  destruct items as [| first [| inner [| more rest]]];
    try (apply preserves_of_keeps_heap, keeps_heap_ret).
  destruct (opt_truthy (tokenId params));
    [| apply preserves_of_keeps_heap, keeps_heap_ret].
  apply preserves_bind; [| intro; apply preserves_of_keeps_heap, keeps_heap_ret].
  destruct (negb (opt_truthy (instanceId params)));
    [| apply preserves_of_keeps_heap, keeps_heap_ret].
  apply preserves_bind;
    [apply preserves_of_keeps_heap, keeps_heap_or_TypeError |].
  intros i s. unfold assign_instanceId, bind, get_heap, set_heap. cbn.
  apply Hi.
Qed.

Lemma manifold_gather_preserves contractInfo :
  ignores_instanceId f -> preserves f (manifold_gather host client contractInfo).
Proof.
  intros Hi. unfold manifold_gather, mintFee_call_block.
  apply preserves_bind.
  { apply preserves_of_keeps_heap, keeps_heap_settle,
      callManifoldWithFallback_keeps_heap. }
  intros mintFeeP.
  apply preserves_bind; [apply preserves_of_keeps_heap, claim_lookup_keeps_heap |].
  intros claimP.
  apply preserves_bind; [apply unwrap_claim_preserves, Hi |].
  intro. apply preserves_of_keeps_heap, keeps_heap_ret.
Qed.

Lemma manifold_quote_preserves mintFee theClaim :
  ignores_claim f -> preserves f (manifold_quote host client mintFee theClaim).
Proof.
  intros Hc. unfold manifold_quote.
  apply preserves_bind; [apply preserves_of_keeps_heap, the_params_keeps_heap |].
  intros params.
  destruct (truthy theClaim && _ && _);
    [apply preserves_of_keeps_heap, keeps_heap_ret |].
  destruct (truthy theClaim); [| apply preserves_of_keeps_heap, keeps_heap_ret].
  apply preserves_bind.
  { intros s. unfold assign_claim, bind, get_heap, set_heap. cbn. apply Hc. }
  intros _.
  apply preserves_of_keeps_heap.
  apply keeps_heap_bind; [apply the_info_keeps_heap |]. intros stored.
  destruct (truthy (getprop theClaim "erc20") && _).
  - apply keeps_heap_bind; [apply fetch_erc20_details_keeps_heap |].
    intro. apply keeps_heap_ret.
  - unfold lift. keeps_heap_auto.
Qed.

Lemma manifold_branch_preserves contractInfo :
  ignores_instanceId f -> ignores_claim f ->
  preserves f (manifold_branch host client contractInfo).
Proof.
  intros Hi Hc. unfold manifold_branch.
  apply preserves_try_catch.
  - unfold manifold_protocol.
    apply preserves_bind; [apply manifold_gather_preserves, Hi |].
    intros gathered. apply manifold_quote_preserves, Hc.
  - intros _. apply preserves_of_keeps_heap, manifold_fallback_keeps_heap.
Qed.

Lemma thirdweb_drop_branch_preserves :
  ignores_claimCondition f -> preserves f (thirdweb_drop_branch host std client).
Proof.
  intros Hcc. unfold thirdweb_drop_branch.
  apply preserves_try_catch; [| intros _; apply preserves_of_keeps_heap, keeps_heap_ret].
  unfold drop_protocol.
  apply preserves_bind; [apply preserves_of_keeps_heap, the_params_keeps_heap |].
  intros params.
  apply preserves_bind; [apply preserves_of_keeps_heap, keeps_heap_readContract |].
  intros claimConditionResult.
  destruct claimConditionResult as [| | | | | | items |];
    try (apply preserves_of_keeps_heap, keeps_heap_throw).
  destruct items as [| currentStartId [| count [| more rest]]];
    try (apply preserves_of_keeps_heap, keeps_heap_throw).
  destruct (is_big_zero count); [apply preserves_of_keeps_heap, keeps_heap_ret |].
  apply preserves_bind; [apply preserves_of_keeps_heap, keeps_heap_await |].
  intros last.
  apply preserves_bind; [apply preserves_of_keeps_heap, keeps_heap_await |].
  intros activeConditionId.
  apply preserves_bind; [apply preserves_of_keeps_heap, keeps_heap_readContract |].
  intros condition.
  destruct (negb (truthy condition) || negb (typeof_object condition));
    [apply preserves_of_keeps_heap, keeps_heap_throw |].
  apply preserves_bind; [apply preserves_of_keeps_heap, keeps_heap_or_TypeError |].
  intros idNumber.
  apply preserves_bind; [apply preserves_of_keeps_heap, keeps_heap_or_TypeError |].
  intros start.
  apply preserves_bind.
  { intros s. unfold assign_claimCondition, bind, get_heap, set_heap. cbn. apply Hcc. }
  intros _. apply preserves_of_keeps_heap, drop_quote_keeps_heap.
Qed.

Lemma fetchPriceData_preserves :
  ignores_instanceId f -> ignores_claim f -> ignores_claimCondition f ->
  preserves f (fetchPriceData host std client).
Proof.
  intros Hi Hc Hcc. unfold fetchPriceData.
  apply preserves_bind; [apply preserves_of_keeps_heap, the_info_keeps_heap |].
  intros contractInfo.
  destruct (info_provider contractInfo);
    repeat match goal with
           | |- preserves _ (if ?b then _ else _) => destruct b
           end;
    first [ apply manifold_branch_preserves; assumption
          | apply thirdweb_drop_branch_preserves; assumption
          | apply preserves_of_keeps_heap;
            first [ apply nfts2me_branch_keeps_heap
                  | apply thirdweb_extension_branch_keeps_heap
                  | apply generic_branch_keeps_heap ] ].
Qed.

End View.

(** With an instance id in the request, or without a token id, the
    unwrapping step writes nothing. *)
Lemma unwrap_claim_keeps_heap_when claimData s :
  opt_truthy (instanceId (h_params (heap s))) = true
  \/ opt_truthy (tokenId (h_params (heap s))) = false ->
  heap (snd (unwrap_claim host claimData s)) = heap s.
Proof.
  intros Hcond. unfold unwrap_claim, bind at 1.
  unfold the_params, bind, get_heap, ret. cbn.
  destruct claimData as [| | | | | | items |]; try reflexivity.
  destruct items as [| first [| inner [| more rest]]]; try reflexivity.
  destruct (opt_truthy (tokenId (h_params (heap s)))) eqn:Et; [| reflexivity].
  destruct Hcond as [Hi | Hf]; [| discriminate].
  rewrite Hi. reflexivity.
Qed.

Lemma manifold_branch_keeps_params_when contractInfo s :
  opt_truthy (instanceId (h_params (heap s))) = true
  \/ opt_truthy (tokenId (h_params (heap s))) = false ->
  h_params (heap (snd (manifold_branch host client contractInfo s)))
  = h_params (heap s).
Proof.
  intros Hcond. rewrite manifold_branch_heap.
  unfold manifold_protocol, bind at 1.
  assert (Hgather : heap (snd (manifold_gather host client contractInfo s)) = heap s).
  { unfold manifold_gather, bind at 1.
    pose proof (keeps_heap_settle _
                  (callManifoldWithFallback_keeps_heap client
                     (extensionAddress contractInfo) "MINT_FEE" [] contractInfo) s)
      as Hfee.
    unfold mintFee_call_block.
    destruct (settle _ s) as [[mintFeeP | e] s1]; cbn in Hfee |- *; [| exact Hfee].
    unfold bind at 1.
    pose proof (claim_lookup_keeps_heap contractInfo s1) as Hlookup.
    destruct (claim_lookup host client contractInfo s1) as [[claimP | e] s2];
      cbn in Hlookup |- *; [| congruence].
    unfold bind.
    match goal with
    | |- context [unwrap_claim host ?d s2] =>
        pose proof (unwrap_claim_keeps_heap_when d s2) as Hunwrap;
        destruct (unwrap_claim host d s2) as [[theClaim | e] s3]
    end; cbn in Hunwrap |- *;
      (rewrite Hunwrap; [congruence |]); rewrite Hlookup, Hfee; exact Hcond. }
  destruct (manifold_gather host client contractInfo s) as [[gathered | e] s1];
    cbn [snd] in Hgather; cbv beta iota.
  - rewrite manifold_quote_keeps_params. rewrite Hgather. reflexivity.
  - cbn [snd]. rewrite Hgather. reflexivity.
Qed.

End BranchFrames.

(** X8: what a call of fetchPriceData can write to its two argument objects.
    Of [params] only [instanceId] can change, of [contractInfo] only [claim]
    and [claimCondition].  [params] and [claim] change only on the Manifold
    branch (provider manifold with an extension address), [claimCondition]
    only on the thirdweb drop branch (provider thirdweb, not ERC1155); and
    [params] is left alone whenever the request already has an instance id
    or has no token id. *)
Theorem fetchPriceData_frame
    (host : Host) (std : Standards) (client : PublicClient) (history : list call)
    (params : MintParams) (contractInfo : NFTContractInfo) :
  let after :=
    heap (snd (run_fetchPriceData host std client history params contractInfo)) in
  request_core (h_params after) = request_core params
  /\ classification (h_info after) = classification contractInfo
  /\ (info_provider contractInfo <> manifold
      \/ truthy (extensionAddress contractInfo) = false ->
      h_params after = params /\ claim (h_info after) = claim contractInfo)
  /\ (info_provider contractInfo <> thirdweb \/ isERC1155 contractInfo = true ->
      claimCondition (h_info after) = claimCondition contractInfo)
  /\ (opt_truthy (instanceId params) = true \/ opt_truthy (tokenId params) = false ->
      h_params after = params).
Proof.
  cbv zeta. unfold run_fetchPriceData.
  set (s := mkState history (mkHeap params contractInfo)).
  split; [| split; [| split; [| split]]].
  - exact (fetchPriceData_preserves host std client
             (fun h => request_core (h_params h))
             (fun h i => eq_refl) (fun h c => eq_refl) (fun h cc => eq_refl) s).
  - exact (fetchPriceData_preserves host std client
             (fun h => classification (h_info h))
             (fun h i => eq_refl) (fun h c => eq_refl) (fun h cc => eq_refl) s).
  - intros Hother.
    assert (Hview : (fun h => (h_params h, claim (h_info h)))
                      (heap (snd (fetchPriceData host std client s)))
                    = (params, claim contractInfo)).
    { unfold fetchPriceData, bind at 1. unfold the_info, bind, get_heap, ret. cbn.
      destruct (info_provider contractInfo) eqn:Ep.
      - destruct Hother as [Hp | He]; [congruence |]. rewrite He.
        rewrite generic_branch_keeps_heap. reflexivity.
      - rewrite generic_branch_keeps_heap. reflexivity.
      - rewrite generic_branch_keeps_heap. reflexivity.
      - rewrite generic_branch_keeps_heap. reflexivity.
      - rewrite nfts2me_branch_keeps_heap. reflexivity.
      - destruct (isERC1155 contractInfo).
        + rewrite thirdweb_extension_branch_keeps_heap. reflexivity.
        + exact (thirdweb_drop_branch_preserves host std client
                   (fun h => (h_params h, claim (h_info h)))
                   (fun h cc => eq_refl) s). }
    cbn beta in Hview. inversion Hview as [[Hp Hc]]. rewrite Hp, Hc. split; reflexivity.
  - intros Hother.
    unfold fetchPriceData, bind at 1. unfold the_info, bind, get_heap, ret. cbn.
    destruct (info_provider contractInfo) eqn:Ep.
    + destruct (truthy (extensionAddress contractInfo)).
      * exact (manifold_branch_preserves host client
                 (fun h => claimCondition (h_info h)) contractInfo
                 (fun h i => eq_refl) (fun h c => eq_refl) s).
      * rewrite generic_branch_keeps_heap. reflexivity.
    + rewrite generic_branch_keeps_heap. reflexivity.
    + rewrite generic_branch_keeps_heap. reflexivity.
    + rewrite generic_branch_keeps_heap. reflexivity.
    + rewrite nfts2me_branch_keeps_heap. reflexivity.
    + destruct Hother as [Hp | H1155]; [congruence |]. rewrite H1155.
      rewrite thirdweb_extension_branch_keeps_heap. reflexivity.
  - intros Hcond.
    unfold fetchPriceData, bind at 1. unfold the_info, bind, get_heap, ret. cbn.
    destruct (info_provider contractInfo) eqn:Ep.
    + destruct (truthy (extensionAddress contractInfo)).
      * exact (manifold_branch_keeps_params_when host client contractInfo s Hcond).
      * rewrite generic_branch_keeps_heap. reflexivity.
    + rewrite generic_branch_keeps_heap. reflexivity.
    + rewrite generic_branch_keeps_heap. reflexivity.
    + rewrite generic_branch_keeps_heap. reflexivity.
    + rewrite nfts2me_branch_keeps_heap. reflexivity.
    + destruct (isERC1155 contractInfo).
      * rewrite thirdweb_extension_branch_keeps_heap. reflexivity.
      * exact (thirdweb_drop_branch_preserves host std client
                 (fun h => h_params h) (fun h cc => eq_refl) s).
Qed.

(** A drop leaves the request as it was. *)
Lemma fetchPriceData_frame_witness :
  h_params (heap (snd (run_fetchPriceData Examples.decimal_host Examples.standards
                         (Examples.scripted [Some (VArr [VBig 5; VBig 3]);
                                             Some Examples.ERC20_CONDITION])
                         [] (Examples.request Examples.SOME_CONTRACT)
                         (basic_info thirdweb false true))))
  = Examples.request Examples.SOME_CONTRACT.
Proof.
  destruct (fetchPriceData_frame Examples.decimal_host Examples.standards
              (Examples.scripted [Some (VArr [VBig 5; VBig 3]);
                                  Some Examples.ERC20_CONDITION])
              [] (Examples.request Examples.SOME_CONTRACT)
              (basic_info thirdweb false true))
    as (_ & _ & Hother & _ & _).
  apply Hother. left. discriminate.
Defined.

(** ** Manifold pricing by instance id *)

Section ManifoldByInstanceId.
Variable host : Host.
Variable std : Standards.
Variable client : PublicClient.

Lemma unwrap_claim_of_non_array claimData s :
  isArray claimData = false ->
  unwrap_claim host claimData s = (Ok claimData, s).
Proof.
  intros Hna. unfold unwrap_claim, bind, the_params, get_heap, ret. cbn.
  destruct claimData; try reflexivity. discriminate.
Qed.


End ManifoldByInstanceId.

Section Erc20Success.
Variable host : Host.
Variable std : Standards.
Variable client : PublicClient.






End Erc20Success.






(** ** Manifold pricing without a usable claim *)

Section ManifoldFeeOnly.
Variable host : Host.
Variable std : Standards.
Variable client : PublicClient.

(** The protocol for a request without ids issues the fee read only. *)
Lemma manifold_gather_without_ids history params contractInfo feeOutcome s1 :
  opt_truthy (instanceId params) = false ->
  opt_truthy (tokenId params) = false ->
  mintFee_call_block client contractInfo (mkState history (mkHeap params contractInfo))
  = (feeOutcome, s1) ->
  manifold_gather host client contractInfo (mkState history (mkHeap params contractInfo))
  = (Ok (or_null feeOutcome, VNull), s1).
Proof.
  intros Hi Ht Hfee.
  assert (Hheap1 : heap s1 = mkHeap params contractInfo).
  { pose proof (callManifoldWithFallback_keeps_heap client
                  (extensionAddress contractInfo) "MINT_FEE" [] contractInfo
                  (mkState history (mkHeap params contractInfo))) as Hk.
    unfold mintFee_call_block in Hfee. rewrite Hfee in Hk. exact Hk. }
  unfold manifold_gather, bind at 1. unfold settle at 1. rewrite Hfee.
  unfold bind at 1. unfold claim_lookup, bind at 1.
  unfold the_params, bind at 1, get_heap, ret at 1. cbn beta iota.
  rewrite Hheap1. cbn [h_params].
  rewrite (nonempty_falsy _ Hi), (nonempty_falsy _ Ht).
  unfold ret at 1. cbn beta iota.
  unfold bind. rewrite (unwrap_claim_of_non_array host VNull s1 eq_refl). reflexivity.
Qed.

(** The quote stage when there is no claim, or one that fails the structural
    checks: the fee alone, and nothing is stored. *)
Lemma manifold_quote_fee_only mintFee theClaim s :
  opt_truthy (instanceId (h_params (heap s))) = true
  \/ opt_truthy (tokenId (h_params (heap s))) = true
  \/ truthy theClaim = false ->
  truthy theClaim = false \/ claim_is_usable theClaim = false ->
  manifold_quote host client mintFee theClaim s = (Ok (fee_only mintFee), s).
Proof.
  intros Hids Hbad.
  unfold manifold_quote, bind at 1. unfold the_params, bind, get_heap, ret. cbn.
  destruct (truthy theClaim) eqn:Ht.
  - destruct Hbad as [| Hu]; [discriminate |]. rewrite Hu.
    destruct Hids as [Hi | [Hk | ]]; [rewrite Hi | rewrite Hk | discriminate];
      cbn; rewrite ?orb_true_r; reflexivity.
  - reflexivity.
Qed.

End ManifoldFeeOnly.

(** X11: a Manifold request with neither an instance id nor a token id is
    priced from the MINT_FEE read alone: no claim lookup is issued, the
    quote is the fee as mint price and as total, nothing is written to the
    arguments, and a rejected fee read gives a total of 0, not the default
    fee of the catch block. *)
Theorem manifold_without_ids_is_fee_only
    (host : Host) (std : Standards) (client : PublicClient) (history : list call)
    (params : MintParams) (contractInfo : NFTContractInfo)
    (feeOutcome : result value) (s1 : state Heap) :
  info_provider contractInfo = manifold ->
  truthy (extensionAddress contractInfo) = true ->
  opt_truthy (instanceId params) = false ->
  opt_truthy (tokenId params) = false ->
  mintFee_call_block client contractInfo (mkState history (mkHeap params contractInfo))
  = (feeOutcome, s1) ->
  run_fetchPriceData host std client history params contractInfo
  = (Ok (fee_only (or_null feeOutcome)), s1)
  /\ heap s1 = mkHeap params contractInfo
  /\ (forall e, feeOutcome = Throw e ->
        fee_only (or_null feeOutcome) = priced (VBig 0) (VBig 0)).
Proof.
  intros Hp Hext Hi Ht Hfee.
  assert (Hheap1 : heap s1 = mkHeap params contractInfo).
  { pose proof (callManifoldWithFallback_keeps_heap client
                  (extensionAddress contractInfo) "MINT_FEE" [] contractInfo
                  (mkState history (mkHeap params contractInfo))) as Hk.
    unfold mintFee_call_block in Hfee. rewrite Hfee in Hk. exact Hk. }
  split; [| split; [exact Hheap1 |]].
  - rewrite (run_manifold host std client history params contractInfo Hp Hext).
    unfold manifold_branch, try_catch, manifold_protocol, bind.
    rewrite (manifold_gather_without_ids host client history params contractInfo
               feeOutcome s1 Hi Ht Hfee).
    cbn [fst snd].
    rewrite (manifold_quote_fee_only host client (or_null feeOutcome) VNull s1);
      [reflexivity | right; right; reflexivity | left; reflexivity].
  - intros e ->. reflexivity.
Qed.

(** A bare request on a chain that rejects every read: two attempts at the
    fee, and a total of 0. *)
Lemma manifold_without_ids_is_fee_only_witness :
  run_fetchPriceData Examples.decimal_host Examples.standards Examples.offline []
    (Examples.request Examples.SOME_CONTRACT)
    (manifold_info true false (VStr Examples.SOME_EXTENSION))
  = (Ok (priced (VBig 0) (VBig 0)),
     mkState [mkCall (VStr Examples.SOME_EXTENSION) MANIFOLD_ERC1155_EXTENSION_ABI
                "MINT_FEE" [];
              mkCall (VStr Examples.SOME_EXTENSION) MANIFOLD_ERC721_EXTENSION_ABI
                "MINT_FEE" []]
       (mkHeap (Examples.request Examples.SOME_CONTRACT)
          (manifold_info true false (VStr Examples.SOME_EXTENSION)))).
Proof.
  destruct (manifold_without_ids_is_fee_only Examples.decimal_host Examples.standards
              Examples.offline [] (Examples.request Examples.SOME_CONTRACT)
              (manifold_info true false (VStr Examples.SOME_EXTENSION))
              (Throw CallFailed)
              (mkState
                 [mkCall (VStr Examples.SOME_EXTENSION) MANIFOLD_ERC1155_EXTENSION_ABI
                    "MINT_FEE" [];
                  mkCall (VStr Examples.SOME_EXTENSION) MANIFOLD_ERC721_EXTENSION_ABI
                    "MINT_FEE" []]
                 (mkHeap (Examples.request Examples.SOME_CONTRACT)
                    (manifold_info true false (VStr Examples.SOME_EXTENSION))))
              eq_refl eq_refl eq_refl eq_refl eq_refl) as (Hrun & _ & _).
  exact Hrun.
Defined.



(** ** The thirdweb drop beyond the native quote *)

Section DropQuotes.
Variable host : Host.
Variable std : Standards.
Variable client : PublicClient.

(** What a quote of a claim condition is made of. *)
Lemma drop_quote_ok params condition s q s' :
  drop_quote host std client params condition s = (Ok q, s') ->
  heap s' = heap s
  /\ mintPrice q = Some (getprop condition "pricePerToken")
  /\ ((pays_in_erc20 host std (getprop condition "currency") = Ok true
       /\ totalCost q = VBig 0)
      \/ (pays_in_erc20 host std (getprop condition "currency") = Ok false
          /\ mul_big (getprop condition "pricePerToken") (amount_of params)
             = Ok (totalCost q))).
Proof.
  intros E.
  pose proof (drop_quote_keeps_heap host std client params condition s) as Hk.
  rewrite E in Hk. cbn [snd] in Hk. split; [exact Hk |].
  unfold drop_quote, bind, lift, await in E.
  destruct (pays_in_erc20 host std (getprop condition "currency")) as [[|] | e];
    cbn in E; [| | discriminate].
  - destruct (fetch_erc20_details host client _ _ s) as [[details | e] s1];
      [| discriminate].
    inversion E. subst. cbn. split; [reflexivity | left; split; reflexivity].
  - destruct (mul_big (getprop condition "pricePerToken") (amount_of params))
      as [total | e] eqn:Em; cbn in E; [| discriminate].
    inversion E. subst. cbn. split; [reflexivity | right; split; reflexivity].
Qed.

(** The answers of the drop protocol: the zero quote of an empty drop with
    nothing written, or the quote of the condition it has just stored. *)
Lemma drop_protocol_ok s q s' :
  drop_protocol host std client s = (Ok q, s') ->
  (q = priced (VBig 0) (VBig 0) /\ heap s' = heap s)
  \/ exists condition idNumber start s1,
       heap s1 = mkHeap (h_params (heap s))
                   (set_claimCondition (h_info (heap s))
                      (condition_record idNumber start condition))
       /\ drop_quote host std client (h_params (heap s)) condition s1 = (Ok q, s').
Proof.
  intros E.
  unfold drop_protocol, bind at 1 in E.
  unfold the_params, bind at 1, get_heap, ret at 1 in E. cbn beta iota in E.
  unfold bind at 1, fetch at 1, readContract at 1 in E.
  destruct (client (trace s) (drop_claimCondition_call (h_params (heap s))))
    as [answer |]; [| discriminate].
  cbn beta iota in E.
  destruct answer as [| | | | | | items |]; try discriminate.
  destruct items as [| currentStartId [| count [| more rest]]]; try discriminate.
  destruct (is_big_zero count).
  { left. inversion E. subst. split; reflexivity. }
  right.
  unfold bind at 1, lift, await in E.
  destruct (add host currentStartId count) as [last | e]; [| discriminate].
  unfold ret at 1 in E. cbn beta iota in E.
  unfold bind at 1 in E.
  destruct (sub_big last 1) as [activeConditionId | e]; [| discriminate].
  unfold ret at 1 in E. cbn beta iota in E.
  unfold bind at 1, fetch at 1, readContract at 1 in E. cbn [trace heap] in E.
  match type of E with
  | context [client ?h ?c] => destruct (client h c) as [condition |]
  end; [| discriminate].
  cbn beta iota in E.
  destruct (negb (truthy condition) || negb (typeof_object condition));
    [discriminate |].
  unfold bind at 1, or_TypeError in E.
  destruct (ToNumber host activeConditionId) as [idNumber |]; [| discriminate].
  unfold ret at 1 in E. cbn beta iota in E.
  unfold bind at 1 in E.
  destruct (ToNumber host (getprop condition "startTimestamp")) as [start |];
    [| discriminate].
  unfold ret at 1 in E. cbn beta iota in E.
  unfold bind at 1, assign_claimCondition, bind at 1, get_heap, set_heap in E.
  cbn beta iota in E. cbn [trace heap] in E.
  eexists condition, idNumber, start, _. split; [| exact E]. reflexivity.
Qed.

End DropQuotes.



(** X14: the quote of a thirdweb drop and the value rule of the derived
    configuration agree.  On a classification that carries no claim
    condition yet (as the detector returns it), whenever the drop branch
    returns a quote with a mint price, the configuration that
    getProviderConfig derives from the classification as the run leaves it
    computes, from that mint price and the request, exactly the quote's
    total: 0 for an ERC20 currency, price times amount otherwise. *)
Theorem drop_quote_agrees_with_config
    (host : Host) (std : Standards) (client : PublicClient) (history : list call)
    (params : MintParams) (contractInfo : NFTContractInfo)
    (q : PriceData) (s' : state Heap) (p : value) :
  info_provider contractInfo = thirdweb ->
  isERC1155 contractInfo = false ->
  claimCondition contractInfo = None ->
  run_fetchPriceData host std client history params contractInfo = (Ok q, s') ->
  mintPrice q = Some p ->
  calculateValue
    (mintConfig (getProviderConfig host std thirdweb (Some (h_info (heap s')))
                   (Some params)))
    p params
  = Ok (totalCost q).
Proof.
  intros Hp H1155 Hnone Hrun Hprice.
  rewrite (run_thirdweb_drop host std client history params contractInfo Hp H1155)
    in Hrun.
  unfold thirdweb_drop_branch, try_catch in Hrun.
  destruct (drop_protocol host std client (mkState history (mkHeap params contractInfo)))
    as [[q0 | e] s0] eqn:Eprotocol.
  2: { inversion Hrun. subst. discriminate. }
  inversion Hrun. subst q0 s0. clear Hrun.
  destruct (drop_protocol_ok host std client _ q s' Eprotocol)
    as [[-> Hheap] | (condition & idNumber & start & s1 & Hheap1 & Equote)].
  - rewrite Hheap. cbn [heap h_info]. cbn in Hprice. inversion Hprice. subst p.
    unfold getProviderConfig. rewrite H1155, Hnone. reflexivity.
  - cbn [heap h_params h_info] in Hheap1, Equote.
    destruct (drop_quote_ok host std client params condition s1 q s' Equote)
      as (Hheap & Hmint & Hcases).
    rewrite Hheap, Hheap1. cbn [h_info].
    rewrite Hmint in Hprice. inversion Hprice. subst p.
    unfold getProviderConfig. cbn [isERC1155 set_claimCondition claimCondition].
    rewrite H1155. cbn [mintConfig calculateValue].
    unfold thirdweb_calculateValue.
    cbn [claimCondition set_claimCondition currency condition_record].
    destruct Hcases as [[Hpays Htotal] | [Hpays Htotal]]; rewrite Hpays.
    + rewrite Htotal. reflexivity.
    + unfold price_times_amount. exact Htotal.
Qed.

(** The native drop of the specification, for an amount of 4. *)
Lemma drop_quote_agrees_with_config_witness :
  exists q s',
    run_fetchPriceData Examples.decimal_host Examples.standards
      (Examples.scripted
         [Some (VArr [VBig 5; VBig 3]);
          Some (VObj [("startTimestamp", VBig 1700000000);
                      ("pricePerToken", VBig 1000);
                      ("currency", VStr (THIRDWEB_NATIVE_TOKEN Examples.standards))])])
      [] (Examples.with_amount 4 (Examples.request Examples.SOME_CONTRACT))
      (basic_info thirdweb false true) = (Ok q, s')
    /\ calculateValue
         (mintConfig (getProviderConfig Examples.decimal_host Examples.standards thirdweb
                        (Some (h_info (heap s')))
                        (Some (Examples.with_amount 4
                                 (Examples.request Examples.SOME_CONTRACT)))))
         (VBig 1000)
         (Examples.with_amount 4 (Examples.request Examples.SOME_CONTRACT))
       = Ok (VBig 4000).
Proof.
  destruct (run_fetchPriceData Examples.decimal_host Examples.standards
      (Examples.scripted
         [Some (VArr [VBig 5; VBig 3]);
          Some (VObj [("startTimestamp", VBig 1700000000);
                      ("pricePerToken", VBig 1000);
                      ("currency", VStr (THIRDWEB_NATIVE_TOKEN Examples.standards))])])
      [] (Examples.with_amount 4 (Examples.request Examples.SOME_CONTRACT))
      (basic_info thirdweb false true)) as [[q | e] s'] eqn:Erun;
    [| vm_compute in Erun; discriminate].
  exists q, s'. split; [reflexivity |].
  assert (Eq : q = priced (VBig 1000) (VBig 4000))
    by (vm_compute in Erun; injection Erun as Eq _; symmetry; exact Eq).
  rewrite (drop_quote_agrees_with_config Examples.decimal_host Examples.standards
             _ [] (Examples.with_amount 4 (Examples.request Examples.SOME_CONTRACT))
             (basic_info thirdweb false true) q s' (VBig 1000)
             eq_refl eq_refl eq_refl Erun ltac:(rewrite Eq; reflexivity)).
  rewrite Eq. reflexivity.
Defined.

(** ** The ABI fallback of the Manifold reads *)

(** X15: callManifoldWithFallback issues the read against the ABI of the
    detected standard (ERC721 when the classification says so, ERC1155
    otherwise) and returns its answer; only when that read is rejected does
    it issue the same read against the other ABI, whose outcome (answer or
    rejection) is the result.  It never writes to the arguments.  The two
    ABIs always differ, one of them is the ABI getManifoldABI selects for
    the classification, and the first attempt uses that ABI exactly when the
    classification has one of the two standards. *)
Theorem callManifoldWithFallback_outcome
    (client : PublicClient) (address : value) (functionName : string)
    (args : list value) (contractInfo : NFTContractInfo) (s : state Heap) :
  let primaryABI := if isERC721 contractInfo
                    then MANIFOLD_ERC721_EXTENSION_ABI
                    else MANIFOLD_ERC1155_EXTENSION_ABI in
  let fallbackABI := if isERC721 contractInfo
                     then MANIFOLD_ERC1155_EXTENSION_ABI
                     else MANIFOLD_ERC721_EXTENSION_ABI in
  let primary := mkCall address primaryABI functionName args in
  let fallback := mkCall address fallbackABI functionName args in
  callManifoldWithFallback client address functionName args contractInfo s
  = match client (trace s) primary with
    | Some answer => (Ok answer, mkState (trace s ++ [primary])%list (heap s))
    | None =>
        (outcome (client (trace s ++ [primary])%list fallback),
         mkState (trace s ++ [primary; fallback])%list (heap s))
    end
  /\ primaryABI <> fallbackABI
  /\ (primaryABI = getManifoldABI (Some contractInfo)
      \/ fallbackABI = getManifoldABI (Some contractInfo))
  /\ (primaryABI = getManifoldABI (Some contractInfo)
      <-> isERC721 contractInfo || isERC1155 contractInfo = true).
Proof.
  cbv zeta. split; [| split; [| split]].
  - unfold callManifoldWithFallback, try_catch, fetch, readContract, throw, outcome.
    cbn [trace heap].
    destruct (client (trace s) _) as [answer |]; [reflexivity |].
    rewrite <- app_assoc.
    destruct (client (trace s ++ [_])%list _); reflexivity.
  - destruct (isERC721 contractInfo); discriminate.
  - unfold getManifoldABI.
    destruct (isERC721 contractInfo), (isERC1155 contractInfo); auto.
  - unfold getManifoldABI.
    destruct (isERC721 contractInfo), (isERC1155 contractInfo); cbn;
      split; intros; try reflexivity; discriminate.
Qed.

(** A classification without standards: the first attempt uses the ERC1155
    ABI, which is not the one getManifoldABI selects. *)
Lemma callManifoldWithFallback_outcome_witness :
  callManifoldWithFallback (Examples.scripted [None; Some (VBig 100)])
    (VStr Examples.SOME_EXTENSION) "MINT_FEE" []
    (manifold_info false false (VStr Examples.SOME_EXTENSION))
    (mkState [] (mkHeap (Examples.request Examples.SOME_CONTRACT)
                   (manifold_info false false (VStr Examples.SOME_EXTENSION))))
  = (Ok (VBig 100),
     mkState [mkCall (VStr Examples.SOME_EXTENSION) MANIFOLD_ERC1155_EXTENSION_ABI
                "MINT_FEE" [];
              mkCall (VStr Examples.SOME_EXTENSION) MANIFOLD_ERC721_EXTENSION_ABI
                "MINT_FEE" []]
       (mkHeap (Examples.request Examples.SOME_CONTRACT)
          (manifold_info false false (VStr Examples.SOME_EXTENSION)))).
Proof.
  destruct (callManifoldWithFallback_outcome (Examples.scripted [None; Some (VBig 100)])
              (VStr Examples.SOME_EXTENSION) "MINT_FEE" []
              (manifold_info false false (VStr Examples.SOME_EXTENSION))
              (mkState [] (mkHeap (Examples.request Examples.SOME_CONTRACT)
                             (manifold_info false false
                                (VStr Examples.SOME_EXTENSION)))))
    as (Hrun & _).
  rewrite Hrun. reflexivity.
Defined.

(** ** Drops that cannot be priced *)

(** X16: a thirdweb drop whose protocol cannot be completed is answered with
    the bare total of 0 (no mint price), and nothing is written.  This is so
    after the first read when it is rejected or answers anything but a
    two-element array, and after the second read when the pair has a
    non-zero count and the condition read is rejected or answers something
    that is falsy or not an object. *)
Theorem drop_without_condition_is_free
    (host : Host) (std : Standards) (client : PublicClient) (history : list call)
    (params : MintParams) (contractInfo : NFTContractInfo) :
  info_provider contractInfo = thirdweb ->
  isERC1155 contractInfo = false ->
  ((forall startId count,
      client history (drop_claimCondition_call params)
      <> Some (VArr [startId; count])) ->
   run_fetchPriceData host std client history params contractInfo
   = (Ok (only_total (VBig 0)),
      mkState (history ++ [drop_claimCondition_call params])%list
        (mkHeap params contractInfo)))
  /\ (forall startId count,
        client history (drop_claimCondition_call params)
        = Some (VArr [VBig startId; VBig count]) ->
        count <> 0 ->
        (forall condition,
           client (history ++ [drop_claimCondition_call params])%list
             (getClaimConditionById_call params (VBig (startId + count - 1)))
           = Some condition ->
           truthy condition && typeof_object condition = false) ->
        run_fetchPriceData host std client history params contractInfo
        = (Ok (only_total (VBig 0)),
           mkState (history ++ [drop_claimCondition_call params;
                                getClaimConditionById_call params
                                  (VBig (startId + count - 1))])%list
             (mkHeap params contractInfo))).
Proof.
  intros Hp H1155.
  rewrite (run_thirdweb_drop host std client history params contractInfo Hp H1155).
  split.
  - intros Hshape.
    unfold thirdweb_drop_branch, try_catch, drop_protocol, bind, the_params,
      get_heap, ret, fetch, readContract. simpl.
    destruct (client history (drop_claimCondition_call params)) as [answer |];
      [| reflexivity].
    destruct answer as [| | | | | | items |]; try reflexivity.
    destruct items as [| startId [| count [| more rest]]]; try reflexivity.
    exfalso. exact (Hshape startId count eq_refl).
  - intros startId count Hcc Hcount Hcond.
    unfold thirdweb_drop_branch, try_catch, drop_protocol, bind, the_params,
      get_heap, ret, fetch, readContract, lift, await, throw. simpl.
    rewrite Hcc. simpl.
    apply Z.eqb_neq in Hcount. rewrite Hcount. simpl.
    destruct (client (history ++ [drop_claimCondition_call params])%list
                (getClaimConditionById_call params (VBig (startId + count - 1))))
      as [condition |] eqn:Econd.
    + specialize (Hcond condition eq_refl).
      assert (Hbad : negb (truthy condition) || negb (typeof_object condition) = true).
      { destruct (truthy condition), (typeof_object condition);
          cbn in Hcond |- *; congruence. }
      rewrite Hbad. rewrite <- app_assoc. reflexivity.
    + rewrite <- app_assoc. reflexivity.
Qed.

(** A drop contract that answers nothing. *)
Lemma drop_without_condition_is_free_witness :
  run_fetchPriceData Examples.decimal_host Examples.standards Examples.offline []
    (Examples.request Examples.SOME_CONTRACT) (basic_info thirdweb false true)
  = (Ok (only_total (VBig 0)),
     mkState [drop_claimCondition_call (Examples.request Examples.SOME_CONTRACT)]
       (mkHeap (Examples.request Examples.SOME_CONTRACT)
          (basic_info thirdweb false true))).
Proof.
  destruct (drop_without_condition_is_free Examples.decimal_host Examples.standards
              Examples.offline [] (Examples.request Examples.SOME_CONTRACT)
              (basic_info thirdweb false true) eq_refl eq_refl) as (Hfirst & _).
  apply Hfirst. intros startId count. discriminate.
Defined.

(** ** Generic price discovery *)

Section Discovery.
Variable host : Host.
Variable std : Standards.
Variable client : PublicClient.

(** One round of the loop on an answer that is passed over. *)
Lemma discover_price_skips config params functionName rest s :
  abis (priceDiscovery config) <> [] ->
  no_price config params (client (trace s) (discovery_call config params functionName))
  = true ->
  discover_price client config params (functionName :: rest) s
  = discover_price client config params rest
      (mkState (trace s ++ [discovery_call config params functionName])%list (heap s)).
Proof.
  intros Habi Hskip. unfold discovery_call in *.
  destruct (abis (priceDiscovery config)) as [| fragment others] eqn:Eabis;
    [congruence |].
  cbn [hd] in *. cbn [discover_price]. rewrite Eabis. cbv zeta.
  unfold or_next, attempt, try_catch, bind, fetch, readContract, lift, await, ret, throw.
  destruct (client (trace s) _) as [price |]; [| reflexivity].
  cbn [no_price] in Hskip.
  destruct (is_undefined price); [reflexivity |]. cbn [orb] in Hskip.
  destruct (calculateValue (mintConfig config) price params); [discriminate |].
  reflexivity.
Qed.

(** One round of the loop on a price. *)
Lemma discover_price_hits config params functionName rest s price total :
  abis (priceDiscovery config) <> [] ->
  client (trace s) (discovery_call config params functionName) = Some price ->
  is_undefined price = false ->
  calculateValue (mintConfig config) price params = Ok total ->
  discover_price client config params (functionName :: rest) s
  = (Ok (Some (priced price total)),
     mkState (trace s ++ [discovery_call config params functionName])%list (heap s)).
Proof.
  intros Habi Hanswer Hdefined Hvalue. unfold discovery_call in *.
  destruct (abis (priceDiscovery config)) as [| fragment others] eqn:Eabis;
    [congruence |].
  cbn [hd] in *. cbn [discover_price]. rewrite Eabis. cbv zeta.
  unfold or_next, attempt, try_catch, bind, fetch, readContract, lift, await, ret.
  rewrite Hanswer, Hdefined, Hvalue. reflexivity.
Qed.

Lemma discover_price_all_skipped config params names s :
  abis (priceDiscovery config) <> [] ->
  all_skipped config params client (trace s)
    (map (discovery_call config params) names) = true ->
  discover_price client config params names s
  = (Ok None,
     mkState (trace s ++ map (discovery_call config params) names)%list (heap s)).
Proof.
  intros Habi. revert s.
  induction names as [| functionName rest IH]; intros s Hskipped;
    cbn [map all_skipped] in *.
  - cbn [discover_price]. unfold ret. rewrite app_nil_r. destruct s. reflexivity.
  - apply andb_true_iff in Hskipped. destruct Hskipped as [Hfirst Hrest].
    rewrite (discover_price_skips config params functionName rest s Habi Hfirst).
    rewrite (IH (mkState (trace s ++ [discovery_call config params functionName])%list
                   (heap s)) Hrest). cbn [trace heap].
    rewrite <- app_assoc. reflexivity.
Qed.

Lemma discover_price_first_answer config params skipped functionName rest s price total :
  abis (priceDiscovery config) <> [] ->
  all_skipped config params client (trace s)
    (map (discovery_call config params) skipped) = true ->
  client (trace s ++ map (discovery_call config params) skipped)%list
    (discovery_call config params functionName) = Some price ->
  is_undefined price = false ->
  calculateValue (mintConfig config) price params = Ok total ->
  discover_price client config params (skipped ++ functionName :: rest)%list s
  = (Ok (Some (priced price total)),
     mkState (trace s ++ map (discovery_call config params)
                           (skipped ++ [functionName]))%list (heap s)).
Proof.
  intros Habi. revert s.
  induction skipped as [| skippedName more IH]; intros s Hskipped Hanswer Hdefined Hvalue;
    cbn [map all_skipped List.app] in *.
  - rewrite app_nil_r in Hanswer.
    rewrite (discover_price_hits config params functionName rest s price total
               Habi Hanswer Hdefined Hvalue).
    reflexivity.
  - apply andb_true_iff in Hskipped. destruct Hskipped as [Hfirst Hrest].
    rewrite (discover_price_skips config params skippedName _ s Habi Hfirst).
    rewrite (IH (mkState (trace s ++ [discovery_call config params skippedName])%list
                   (heap s)) Hrest); cbn [trace heap].
    + rewrite <- app_assoc. reflexivity.
    + rewrite <- app_assoc. exact Hanswer.
    + exact Hdefined.
    + exact Hvalue.
Qed.

(** The classifications that fetchPriceData hands to the generic discovery. *)
Lemma run_generic history params contractInfo :
  info_provider contractInfo <> nfts2me ->
  info_provider contractInfo <> thirdweb ->
  (info_provider contractInfo = manifold ->
   truthy (extensionAddress contractInfo) = false) ->
  run_fetchPriceData host std client history params contractInfo
  = generic_branch client
      (getProviderConfig host std (info_provider contractInfo) (Some contractInfo) None)
      (mkState history (mkHeap params contractInfo)).
Proof.
  intros Hn Ht Hm.
  unfold run_fetchPriceData, fetchPriceData, bind, the_info, get_heap, ret. simpl.
  destruct (info_provider contractInfo) eqn:Ep; try congruence; try reflexivity.
  rewrite (Hm eq_refl). reflexivity.
Qed.

Lemma discovery_abis_nonempty (p : NFTProvider) contractInfo :
  abis (priceDiscovery (getProviderConfig host std p (Some contractInfo) None)) <> [].
Proof.
  destruct p; cbn; try discriminate.
  destruct (isERC1155 contractInfo); cbn; [discriminate |].
  destruct (claimCondition contractInfo); discriminate.
Qed.

End Discovery.

(** X17: the generic discovery (every classification but nfts2me, thirdweb
    and Manifold with an extension address) asks the accessors of the
    provider's configuration in order, against its first ABI.  The first
    read that answers a defined price the configuration can value ends the
    search: the quote is that price with the configuration's value as total,
    and no later accessor is read.  Rejected reads, undefined answers and
    prices the value rule rejects are passed over; when every accessor is
    passed over the quote is the zero price, after one read per accessor. *)
Theorem generic_discovery_first_answer_wins
    (host : Host) (std : Standards) (client : PublicClient) (history : list call)
    (params : MintParams) (contractInfo : NFTContractInfo) :
  let config := getProviderConfig host std (info_provider contractInfo)
                  (Some contractInfo) None in
  info_provider contractInfo <> nfts2me ->
  info_provider contractInfo <> thirdweb ->
  (info_provider contractInfo = manifold ->
   truthy (extensionAddress contractInfo) = false) ->
  (forall skipped functionName rest price total,
     functionNames (priceDiscovery config) = (skipped ++ functionName :: rest)%list ->
     all_skipped config params client history
       (map (discovery_call config params) skipped) = true ->
     client (history ++ map (discovery_call config params) skipped)%list
       (discovery_call config params functionName) = Some price ->
     is_undefined price = false ->
     calculateValue (mintConfig config) price params = Ok total ->
     run_fetchPriceData host std client history params contractInfo
     = (Ok (priced price total),
        mkState (history ++ map (discovery_call config params)
                              (skipped ++ [functionName]))%list
          (mkHeap params contractInfo)))
  /\ (all_skipped config params client history
        (map (discovery_call config params) (functionNames (priceDiscovery config)))
      = true ->
      run_fetchPriceData host std client history params contractInfo
      = (Ok (priced (VBig 0) (VBig 0)),
         mkState (history ++ map (discovery_call config params)
                               (functionNames (priceDiscovery config)))%list
           (mkHeap params contractInfo))).
Proof.
  cbv zeta. intros Hn Ht Hm.
  rewrite (run_generic host std client history params contractInfo Hn Ht Hm).
  pose proof (discovery_abis_nonempty host std (info_provider contractInfo) contractInfo)
    as Habi.
  split.
  - intros skipped functionName rest price total Hnames Hskipped Hanswer Hdefined Hvalue.
    unfold generic_branch, bind at 1.
    unfold the_params, bind at 1, get_heap, ret at 1. cbn beta iota.
    cbn [heap h_params]. unfold bind. rewrite Hnames.
    rewrite (discover_price_first_answer client _ params skipped functionName rest
               (mkState history (mkHeap params contractInfo)) price total
               Habi Hskipped Hanswer Hdefined Hvalue).
    reflexivity.
  - intros Hskipped.
    unfold generic_branch, bind at 1.
    unfold the_params, bind at 1, get_heap, ret at 1. cbn beta iota.
    cbn [heap h_params]. unfold bind.
    rewrite (discover_price_all_skipped client _ params _
               (mkState history (mkHeap params contractInfo)) Habi Hskipped).
    reflexivity.
Qed.

(** A generic contract without [mintPrice()] whose [price()] answers 250: two
    reads, and a total of 750 for three tokens. *)
Lemma generic_discovery_first_answer_wins_witness :
  fst (run_fetchPriceData Examples.decimal_host Examples.standards
         (Examples.scripted [None; Some (VBig 250)]) []
         (Examples.with_amount 3 (Examples.request Examples.SOME_CONTRACT))
         (basic_info generic false true))
  = Ok (priced (VBig 250) (VBig 750)).
Proof.
  destruct (generic_discovery_first_answer_wins Examples.decimal_host Examples.standards
              (Examples.scripted [None; Some (VBig 250)]) []
              (Examples.with_amount 3 (Examples.request Examples.SOME_CONTRACT))
              (basic_info generic false true)
              ltac:(discriminate) ltac:(discriminate) ltac:(discriminate))
    as (Hfirst & _).
  rewrite (Hfirst ["mintPrice"] "price" ["MINT_PRICE"; "getMintPrice"]
             (VBig 250) (VBig 750) eq_refl eq_refl eq_refl eq_refl eq_refl).
  reflexivity.
Defined.

(** ** The derived configurations *)

(** X18: getProviderConfig only ever overrides the ABIs, the discovery and
    the value rule.  The name, the extension addresses, the required
    parameters, the ERC20 flag and the name of the mint function are those
    of the static table for every provider and every classification; for a
    provider other than manifold and thirdweb, and for thirdweb without a
    classification, the static entry is returned as it is; for manifold the
    discovery and the mint use the ABI getManifoldABI selects and the value
    is the fee itself. *)
Theorem getProviderConfig_overrides
    (host : Host) (std : Standards) (p : NFTProvider)
    (contractInfo : option NFTContractInfo) (params : option MintParams) :
  let config := getProviderConfig host std p contractInfo params in
  let base := PROVIDER_CONFIGS std p in
  (name config = name base
   /\ extensionAddresses config = extensionAddresses base
   /\ requiredParams config = requiredParams base
   /\ supportsERC20 config = supportsERC20 base
   /\ mint_functionName (mintConfig config) = mint_functionName (mintConfig base))
  /\ (p <> manifold -> p <> thirdweb \/ contractInfo = None -> config = base)
  /\ (p = manifold ->
      abis (priceDiscovery config) = [getManifoldABI contractInfo]
      /\ mint_abi (mintConfig config) = getManifoldABI contractInfo
      /\ forall mintFee request,
           calculateValue (mintConfig config) mintFee request = Ok mintFee).
Proof.
  cbv zeta. split; [| split].
  - destruct p; cbn; try (repeat split; reflexivity).
    destruct contractInfo as [info |]; [| repeat split; reflexivity].
    destruct (isERC1155 info).
    + destruct (match params with
                | Some request => is_hardcoded_address host (contractAddress request)
                | None => false
                end); repeat split; reflexivity.
    + destruct (claimCondition info); repeat split; reflexivity.
  - intros Hm Hother. destruct p; try congruence; try reflexivity.
    destruct Hother as [Ht | ->]; [congruence | reflexivity].
  - intros ->. cbn. repeat split; reflexivity.
Qed.

(** The configuration of a Manifold classification without standards. *)
Lemma getProviderConfig_overrides_witness :
  abis (priceDiscovery
          (getProviderConfig Examples.decimal_host Examples.standards manifold
             (Some (manifold_info false false (VStr Examples.SOME_EXTENSION))) None))
  = [MANIFOLD_ERC721_EXTENSION_ABI].
Proof.
  destruct (getProviderConfig_overrides Examples.decimal_host Examples.standards manifold
              (Some (manifold_info false false (VStr Examples.SOME_EXTENSION))) None)
    as (_ & _ & Hmanifold).
  destruct (Hmanifold eq_refl) as (Habis & _).
  rewrite Habis. reflexivity.
Defined.

(** ** Paths through the detection cascade *)

Section DetectionPaths.
Variable host : Host.
Variable std : Standards.
Variable client : PublicClient.

(** The auto-detection path up to the heuristics. *)
Lemma detectNFTProvider_after_batch params history :
  is_hardcoded_address host (contractAddress params) = false ->
  provider params = None ->
  let addr := contractAddress params in
  let is721 := probe721 std client history addr in
  let is1155 := probe1155 std client history addr in
  detectNFTProvider host std client params (mkState history tt)
  = try_catch
      (matched <- heuristics host std client addr is721 is1155
                    (probe_extensions std client history addr) ;;
       match matched with
       | Some info => ret info
       | None => ret (classified generic is721 is1155)
       end)
      (fun _ => ret (basic_info generic false false))
      (mkState (history ++ interface_probes std addr)%list tt).
Proof.
  intros Hhard Hnone. cbv zeta.
  unfold detectNFTProvider. rewrite Hhard, Hnone.
  unfold try_catch at 1, detection_cascade, bind at 1.
  rewrite interface_batch_runs. reflexivity.
Qed.

Lemma has_entries_of_array first rest (s : state unit) :
  has_entries host (VArr (first :: rest)) s = (Ok true, s).
Proof.
  unfold has_entries, gt_zero, getprop. cbn. reflexivity.
Qed.

Lemma known_extension_is_the_known_one (ext : value) :
  is_known_extension std ext = true ->
  ext = VStr (KNOWN_CONTRACTS_manifoldExtension std).
Proof.
  unfold is_known_extension. cbn. rewrite orb_false_r.
  destruct ext; cbn; try discriminate.
  intros E. apply String.eqb_eq in E. subst. reflexivity.
Qed.

Lemma manifold_step_never_thirdweb is721 is1155 extensions :
  yields (fun r => forall info, r = Some info ->
                   info_provider info = manifold
                   /\ isERC721 info = truthy is721 /\ isERC1155 info = truthy is1155)
         (manifold_step host std is721 is1155 extensions).
Proof.
  unfold manifold_step.
  repeat first
    [ apply yields_ret; intros info E;
      first [discriminate | inversion E; subst; repeat split; reflexivity]
    | yields_step ].
Qed.

Lemma nfts2me_step_never_thirdweb addr is721 is1155 :
  yields (fun r => forall info, r = Some info ->
                   info_provider info = nfts2me
                   /\ isERC721 info = truthy is721 /\ isERC1155 info = truthy is1155)
         (nfts2me_step host client addr is721 is1155).
Proof.
  unfold nfts2me_step, attempt.
  repeat first
    [ apply yields_ret; intros info E;
      first [discriminate | inversion E; subst; repeat split; reflexivity]
    | yields_step ].
Qed.

Lemma heuristics_without_standards addr is721 is1155 extensions :
  truthy is721 = false -> truthy is1155 = false ->
  reads_at_most 1 (heuristics host std client addr is721 is1155 extensions)
  /\ yields (fun r => forall info, r = Some info ->
                      info_provider info <> thirdweb
                      /\ isERC721 info = false /\ isERC1155 info = false)
            (heuristics host std client addr is721 is1155 extensions).
Proof.
  intros H721 H1155. unfold heuristics, thirdweb_erc721_step, thirdweb_erc1155_steps.
  rewrite H721, H1155. cbn [first_of]. split.
  - apply (ram_or_next 0); [lia | apply manifold_step_bound |].
    apply (ram_or_next 1); [lia | apply nfts2me_step_bound |].
    apply (ram_or_next 0); [lia | apply ram_ret |].
    apply (ram_or_next 0); [lia | apply ram_ret |].
    apply ram_ret.
  - apply yields_or_next.
    { intros s r s' E info Ei.
      destruct (manifold_step_never_thirdweb is721 is1155 extensions s r s' E info Ei)
        as (Hp & Ha & Hb).
      rewrite Hp, Ha, Hb, H721, H1155. repeat split; discriminate. }
    apply yields_or_next.
    { intros s r s' E info Ei.
      destruct (nfts2me_step_never_thirdweb addr is721 is1155 s r s' E info Ei)
        as (Hp & Ha & Hb).
      rewrite Hp, Ha, Hb, H721, H1155. repeat split; discriminate. }
    repeat (apply yields_or_next; [apply yields_ret; intros info E; discriminate |]).
    apply yields_ret. intros info E. discriminate.
Qed.

End DetectionPaths.

(** X19: Manifold has priority in the cascade and costs no further read.
    When the extensions probe answers a non-empty array, the detector
    returns a Manifold classification after the three probes of the batch,
    with the flags of the two interface probes.  The extension address is
    the known Manifold extension whenever it occurs anywhere in the array
    (and is a non-empty string), and the first element of the array when it
    does not occur. *)
Theorem detect_manifold_by_extensions
    (host : Host) (std : Standards) (client : PublicClient)
    (params : MintParams) (history : list call) (first : value) (rest : list value) :
  let addr := contractAddress params in
  let known := match List.find (is_known_extension std) (first :: rest) with
               | Some ext => ext
               | None => VUndef
               end in
  is_hardcoded_address host addr = false ->
  provider params = None ->
  probe_extensions std client history addr = VArr (first :: rest) ->
  detectNFTProvider host std client params (mkState history tt)
  = (Ok (manifold_info (truthy (probe1155 std client history addr))
           (truthy (probe721 std client history addr))
           (or_else known first)),
     mkState (history ++ interface_probes std addr)%list tt)
  /\ (In (VStr (KNOWN_CONTRACTS_manifoldExtension std)) (first :: rest) ->
      KNOWN_CONTRACTS_manifoldExtension std <> "" ->
      or_else known first = VStr (KNOWN_CONTRACTS_manifoldExtension std))
  /\ (~ In (VStr (KNOWN_CONTRACTS_manifoldExtension std)) (first :: rest) ->
      or_else known first = first).
Proof.
  cbv zeta. intros Hhard Hnone Hext. split; [| split].
  - pose proof (detectNFTProvider_after_batch host std client params history Hhard Hnone)
      as Hrun.
    cbv zeta in Hrun. rewrite Hrun, Hext.
    unfold try_catch, bind at 1, heuristics. cbn [first_of].
    unfold or_next at 1, bind at 1, manifold_step. cbn [truthy].
    unfold bind at 1. rewrite has_entries_of_array.
    unfold bind at 1, find_known_extension, ret at 1.
    unfold bind at 1.
    destruct (truthy (match List.find (is_known_extension std) (first :: rest) with
                      | Some ext => ext
                      | None => VUndef
                      end)) eqn:Eknown.
    + reflexivity.
    + rewrite has_entries_of_array. reflexivity.
  - intros Hin Hne.
    destruct (List.find (is_known_extension std) (first :: rest)) as [ext |] eqn:Efind.
    + apply find_some in Efind. destruct Efind as [_ Hk].
      rewrite (known_extension_is_the_known_one std ext Hk).
      unfold or_else, truthy, string_truthy.
      destruct (String.eqb_spec (KNOWN_CONTRACTS_manifoldExtension std) "");
        [contradiction | reflexivity].
    + pose proof (find_none _ _ Efind _ Hin) as Hk.
      unfold is_known_extension in Hk. cbn in Hk.
      rewrite String.eqb_refl in Hk. discriminate.
  - intros Hnot.
    destruct (List.find (is_known_extension std) (first :: rest)) as [ext |] eqn:Efind.
    + apply find_some in Efind. destruct Efind as [Hin Hk].
      rewrite (known_extension_is_the_known_one std ext Hk) in Hin. contradiction.
    + reflexivity.
Qed.

(** A contract whose second extension is the known one. *)
Lemma detect_manifold_by_extensions_witness :
  fst (detectNFTProvider Examples.decimal_host Examples.standards
         (Examples.scripted
            [Some (VBool true); None;
             Some (VArr [VStr Examples.SOME_EXTENSION;
                         VStr (KNOWN_CONTRACTS_manifoldExtension Examples.standards)])])
         (Examples.request Examples.SOME_CONTRACT) (mkState [] tt))
  = Ok (manifold_info false true
          (VStr (KNOWN_CONTRACTS_manifoldExtension Examples.standards))).
Proof.
  destruct (detect_manifold_by_extensions Examples.decimal_host Examples.standards
              (Examples.scripted
                 [Some (VBool true); None;
                  Some (VArr [VStr Examples.SOME_EXTENSION;
                              VStr (KNOWN_CONTRACTS_manifoldExtension
                                      Examples.standards)])])
              (Examples.request Examples.SOME_CONTRACT) []
              (VStr Examples.SOME_EXTENSION)
              [VStr (KNOWN_CONTRACTS_manifoldExtension Examples.standards)]
              eq_refl eq_refl eq_refl) as (Hrun & _ & _).
  rewrite Hrun. reflexivity.
Defined.

(** X20: a contract that supports neither standard is never classified as
    thirdweb and costs at most four reads.  When both interface probes are
    rejected or answer something falsy, the thirdweb heuristics are skipped
    altogether: the detector returns manifold, nfts2me or generic, with both
    flags false, after the three probes and at most the n2mVersion read. *)
Theorem detect_without_standards
    (host : Host) (std : Standards) (client : PublicClient)
    (params : MintParams) (history : list call) :
  is_hardcoded_address host (contractAddress params) = false ->
  provider params = None ->
  truthy (probe721 std client history (contractAddress params)) = false ->
  truthy (probe1155 std client history (contractAddress params)) = false ->
  exists info further,
    detectNFTProvider host std client params (mkState history tt)
    = (Ok info,
       mkState ((history ++ interface_probes std (contractAddress params)) ++ further)%list
         tt)
    /\ (List.length further <= 1)%nat
    /\ info_provider info <> thirdweb
    /\ isERC721 info = false /\ isERC1155 info = false.
Proof.
  intros Hhard Hnone H721 H1155.
  pose proof (detectNFTProvider_after_batch host std client params history Hhard Hnone)
    as Hrun.
  cbv zeta in Hrun. rewrite Hrun. clear Hrun.
  destruct (heuristics_without_standards host std client (contractAddress params)
              _ _ (probe_extensions std client history (contractAddress params))
              H721 H1155) as [Hreads Hfinds].
  set (s1 := mkState (history ++ interface_probes std (contractAddress params))%list tt).
  destruct (Hreads s1) as (further & Etrace & Hlen).
  unfold try_catch, bind.
  destruct (heuristics host std client (contractAddress params) _ _ _ s1)
    as [[[info |] | e] [tr []]] eqn:Eh; cbn [snd trace] in Etrace; subst tr.
  - exists info, further. unfold ret. split; [reflexivity |]. split; [exact Hlen |].
    exact (Hfinds s1 (Some info) _ Eh info eq_refl).
  - eexists _, further. unfold ret. split; [reflexivity |]. split; [exact Hlen |].
    cbn. rewrite H721, H1155. repeat split; discriminate.
  - eexists _, further. unfold ret. split; [reflexivity |]. split; [exact Hlen |].
    cbn. repeat split; discriminate.
Qed.

(** A contract that answers nothing at all. *)
Lemma detect_without_standards_witness :
  exists info further,
    detectNFTProvider Examples.decimal_host Examples.standards Examples.offline
      (Examples.request Examples.SOME_CONTRACT) (mkState [] tt)
    = (Ok info,
       mkState (([] ++ interface_probes Examples.standards Examples.SOME_CONTRACT)
                ++ further)%list tt)
    /\ (List.length further <= 1)%nat
    /\ info_provider info <> thirdweb.
Proof.
  destruct (detect_without_standards Examples.decimal_host Examples.standards
              Examples.offline (Examples.request Examples.SOME_CONTRACT) []
              eq_refl eq_refl eq_refl eq_refl)
    as (info & further & Hrun & Hlen & Hp & _).
  exists info, further. split; [exact Hrun |]. split; [exact Hlen | exact Hp].
Defined.

(** X21: an NFTs2Me contract is recognised before any thirdweb heuristic.
    When the extensions probe gives nothing truthy and n2mVersion answers a
    defined value that has a string form, the detector returns nfts2me with
    the flags of the interface probes after four reads, whatever standards
    the contract supports and whatever it would answer to the thirdweb
    probes. *)
Theorem detect_nfts2me_by_version
    (host : Host) (std : Standards) (client : PublicClient)
    (params : MintParams) (history : list call) (version : value) (shown : string) :
  let addr := contractAddress params in
  is_hardcoded_address host addr = false ->
  provider params = None ->
  truthy (probe_extensions std client history addr) = false ->
  client (history ++ interface_probes std addr)%list (n2mVersion_call addr)
  = Some version ->
  is_undefined version = false ->
  template host version = Some shown ->
  detectNFTProvider host std client params (mkState history tt)
  = (Ok (classified nfts2me (probe721 std client history addr)
           (probe1155 std client history addr)),
     mkState (history ++ interface_probes std addr ++ [n2mVersion_call addr])%list tt).
Proof.
  cbv zeta. intros Hhard Hnone Hext Hversion Hdefined Hshown.
  pose proof (detectNFTProvider_after_batch host std client params history Hhard Hnone)
    as Hrun.
  cbv zeta in Hrun. rewrite Hrun. clear Hrun.
  unfold try_catch at 1, bind at 1, heuristics. cbn [first_of].
  unfold or_next at 1, bind at 1, manifold_step. rewrite Hext. unfold ret at 1.
  cbn beta iota.
  unfold or_next at 1, bind at 1, nfts2me_step, attempt, try_catch, bind at 1,
    read, readContract. cbn [trace heap].
  unfold n2mVersion_call in Hversion. rewrite Hversion. rewrite Hdefined.
  unfold bind, interpolate, or_TypeError. rewrite Hshown. unfold ret.
  rewrite <- app_assoc. reflexivity.
Qed.

(** A contract that supports ERC721 and answers n2mVersion. *)
Lemma detect_nfts2me_by_version_witness :
  fst (detectNFTProvider Examples.decimal_host Examples.standards
         (Examples.scripted [Some (VBool true); None; None; Some (VBig 2)])
         (Examples.request Examples.SOME_CONTRACT) (mkState [] tt))
  = Ok (basic_info nfts2me false true).
Proof.
  rewrite (detect_nfts2me_by_version Examples.decimal_host Examples.standards
             (Examples.scripted [Some (VBool true); None; None; Some (VBig 2)])
             (Examples.request Examples.SOME_CONTRACT) [] (VBig 2) "2"
             eq_refl eq_refl eq_refl eq_refl eq_refl eq_refl).
  reflexivity.
Defined.

(** X22: the sharedMetadata read cannot reverse an ERC721 drop
    classification.  When the ERC721 probe is truthy, the extensions probe
    gives nothing truthy, n2mVersion is rejected and claimCondition() answers
    a pair whose elements have a string form, the detector returns thirdweb
    with the flags of the interface probes after six reads, whether the
    sixth (sharedMetadata) answers or is rejected. *)
Theorem detect_thirdweb_drop_by_claimCondition
    (host : Host) (std : Standards) (client : PublicClient)
    (params : MintParams) (history : list call)
    (startId count : value) (shownStart shownCount : string) :
  let addr := contractAddress params in
  let before := (history ++ interface_probes std addr ++ [n2mVersion_call addr])%list in
  is_hardcoded_address host addr = false ->
  provider params = None ->
  truthy (probe721 std client history addr) = true ->
  truthy (probe_extensions std client history addr) = false ->
  client (history ++ interface_probes std addr)%list (n2mVersion_call addr) = None ->
  client before (erc721_claimCondition_call addr) = Some (VArr [startId; count]) ->
  template host startId = Some shownStart ->
  template host count = Some shownCount ->
  detectNFTProvider host std client params (mkState history tt)
  = (Ok (classified thirdweb (probe721 std client history addr)
           (probe1155 std client history addr)),
     mkState (before ++ [erc721_claimCondition_call addr; sharedMetadata_call addr])%list
       tt).
Proof.
  cbv zeta. intros Hhard Hnone H721 Hext Hversion Hcc Hstart Hcount.
  pose proof (detectNFTProvider_after_batch host std client params history Hhard Hnone)
    as Hrun.
  cbv zeta in Hrun. rewrite Hrun. clear Hrun.
  unfold try_catch at 1, bind at 1, heuristics. cbn [first_of].
  unfold or_next at 1, bind at 1, manifold_step. rewrite Hext. unfold ret at 1.
  cbn beta iota.
  unfold or_next at 1, bind at 1, nfts2me_step, attempt, try_catch at 1, bind at 1,
    read at 1, readContract at 1. cbn [trace heap].
  unfold n2mVersion_call in Hversion, Hcc. rewrite Hversion.
  unfold ret at 1. cbn beta iota.
  unfold or_next at 1, bind at 1, thirdweb_erc721_step. rewrite H721.
  unfold attempt, try_catch at 1, bind at 1, read at 1, readContract at 1.
  cbn [trace heap]. rewrite <- app_assoc. rewrite Hcc.
  unfold bind, interpolate, or_TypeError. rewrite Hstart, Hcount.
  unfold ret, try_catch, read, readContract. cbn [trace heap].
  rewrite <- !app_assoc.
  destruct (client _ (sharedMetadata_call (contractAddress params))); reflexivity.
Qed.

(** A drop without sharedMetadata. *)
Lemma detect_thirdweb_drop_by_claimCondition_witness :
  fst (detectNFTProvider Examples.decimal_host Examples.standards
         (Examples.scripted [Some (VBool true); None; None; None;
                             Some (VArr [VBig 5; VBig 3]); None])
         (Examples.request Examples.SOME_CONTRACT) (mkState [] tt))
  = Ok (basic_info thirdweb false true).
Proof.
  rewrite (detect_thirdweb_drop_by_claimCondition Examples.decimal_host
             Examples.standards
             (Examples.scripted [Some (VBool true); None; None; None;
                                 Some (VArr [VBig 5; VBig 3]); None])
             (Examples.request Examples.SOME_CONTRACT) [] (VBig 5) (VBig 3) "5" "3"
             eq_refl eq_refl eq_refl eq_refl eq_refl eq_refl eq_refl eq_refl).
  reflexivity.
Defined.

(** ** The thirdweb extension quote *)

Section ExtensionQuote.
Variable host : Host.
Variable std : Standards.
Variable client : PublicClient.

Lemma run_thirdweb_extension history params contractInfo :
  info_provider contractInfo = thirdweb ->
  isERC1155 contractInfo = true ->
  run_fetchPriceData host std client history params contractInfo
  = thirdweb_extension_branch host client (mkState history (mkHeap params contractInfo)).
Proof.
  intros Hp H1155.
  unfold run_fetchPriceData, fetchPriceData, bind, the_info, get_heap, ret. simpl.
  rewrite Hp, H1155. reflexivity.
Qed.

Lemma amount_of_nonzero params : amount_of params <> 0.
Proof.
  unfold amount_of, count_or_one.
  destruct (amount params) as [[| z] |]; try discriminate.
  destruct (Z.eqb_spec z 0); [discriminate | assumption].
Qed.

(** An accessor pattern: one read, and a match only on a non-zero bigint. *)
Lemma extension_price_outcome params functionName s :
  exists r,
    extension_price client params functionName s
    = (Ok r, mkState (trace s ++ [extension_price_call params functionName])%list (heap s))
    /\ (forall q, r = Some q ->
          exists unit, unit <> 0
            /\ q = priced (VBig (unit * amount_of params)) (VBig (unit * amount_of params)))
    /\ (forall p, client (trace s) (extension_price_call params functionName)
                  = Some (VBig p) ->
          p <> 0 ->
          r = Some (priced (VBig (p * amount_of params)) (VBig (p * amount_of params)))).
Proof.
  unfold extension_price, attempt, try_catch, bind, fetch, readContract, ret.
  destruct (client (trace s) (extension_price_call params functionName))
    as [[| | b | p | n | str | items | fields] |];
    try (exists None; split; [reflexivity | split; intros; discriminate]).
  cbn [truthy]. destruct (Z.eqb_spec p 0) as [-> | Hp]; cbn [negb].
  - exists None. split; [reflexivity |]. split; intros; [discriminate |].
    match goal with H : Some _ = Some _ |- _ => inversion H; subst end. congruence.
  - eexists. split; [reflexivity |]. split.
    + intros q E. inversion E. subst. exists p. split; [exact Hp | reflexivity].
    + intros p' E Hp'. inversion E. subst. reflexivity.
Qed.

(** The claim-condition pattern: one read, and a match only on a positive
    price in field 4. *)
Lemma extension_claimCondition_outcome params s :
  exists r,
    extension_claimCondition client params s
    = (Ok r, mkState (trace s ++ [extension_claimCondition_call params])%list (heap s))
    /\ (forall q, r = Some q ->
          exists unit, unit <> 0
            /\ q = priced (VBig (unit * amount_of params)) (VBig (unit * amount_of params))).
Proof.
  unfold extension_claimCondition, attempt, try_catch, bind, fetch, readContract, ret.
  destruct (client (trace s) (extension_claimCondition_call params))
    as [[| | b | p | n | str | items | fields] |];
    try (exists None; split; [reflexivity | intros; discriminate]).
  destruct (5 <=? List.length items)%nat;
    [| exists None; split; [reflexivity | intros; discriminate]].
  destruct (nth 4 items VUndef) as [| | b | p | n | str | inner | fields];
    try (exists None; split; [reflexivity | intros; discriminate]).
  destruct (Z.ltb_spec 0 p).
  - eexists. split; [reflexivity |].
    intros q E. inversion E. subst. exists p. split; [lia | reflexivity].
  - exists None. split; [reflexivity | intros; discriminate].
Qed.

End ExtensionQuote.

(** X23: the quote of a thirdweb ERC1155 extension.  The branch always
    answers with a quote whose mint price and total are the same number, a
    unit price times the requested amount, after at most three reads and
    without writing to its arguments.  A non-zero bigint answered by price()
    is the unit price and ends the search after one read, also at the
    curated address; a unit price of 0 means all three reads were tried; and
    at the curated address the quote is never free. *)
Theorem thirdweb_extension_quote
    (host : Host) (std : Standards) (client : PublicClient) (history : list call)
    (params : MintParams) (contractInfo : NFTContractInfo) :
  info_provider contractInfo = thirdweb ->
  isERC1155 contractInfo = true ->
  exists unit issued,
    run_fetchPriceData host std client history params contractInfo
    = (Ok (priced (VBig (unit * amount_of params)) (VBig (unit * amount_of params))),
       mkState (history ++ issued)%list (mkHeap params contractInfo))
    /\ (List.length issued <= 3)%nat
    /\ (unit = 0 -> List.length issued = 3%nat)
    /\ (is_hardcoded_address host (contractAddress params) = true ->
        unit * amount_of params <> 0)
    /\ (forall p,
          client history (extension_price_call params "price") = Some (VBig p) ->
          p <> 0 ->
          unit = p /\ issued = [extension_price_call params "price"]).
Proof.
  intros Hp H1155.
  rewrite (run_thirdweb_extension host std client history params contractInfo Hp H1155).
  unfold thirdweb_extension_branch, bind at 1.
  unfold the_params, bind at 1, get_heap, ret at 1. cbn beta iota. cbn [heap h_params].
  cbn [first_of]. unfold bind at 1, or_next at 1, bind at 1.
  pose proof (amount_of_nonzero params) as Hamount.
  destruct (extension_price_outcome client params "price"
              (mkState history (mkHeap params contractInfo)))
    as (r1 & E1 & Hsome1 & Hprice1).
  rewrite E1. cbn [trace heap] in *.
  destruct r1 as [q1 |].
  { destruct (Hsome1 q1 eq_refl) as (unit & Hunit & ->).
    exists unit, [extension_price_call params "price"]. unfold ret.
    split; [reflexivity |]. split; [cbn; lia |]. split; [congruence |].
    split; [intros _; nia |].
    intros p Hanswer Hne. specialize (Hprice1 p Hanswer Hne).
    assert (Heq : unit * amount_of params = p * amount_of params)
      by (unfold priced in Hprice1; congruence).
    split; [| reflexivity].
    apply Z.mul_reg_r in Heq; [exact Heq | exact Hamount]. }
  assert (Hnot1 : forall p,
            client history (extension_price_call params "price") = Some (VBig p) ->
            p <> 0 -> False).
  { intros p Hanswer Hne. specialize (Hprice1 p Hanswer Hne). discriminate. }
  unfold or_next at 1, bind at 1.
  destruct (extension_price_outcome client params "mintPrice"
              (mkState (history ++ [extension_price_call params "price"])%list
                 (mkHeap params contractInfo)))
    as (r2 & E2 & Hsome2 & _).
  rewrite E2. cbn [trace heap] in *.
  destruct r2 as [q2 |].
  { destruct (Hsome2 q2 eq_refl) as (unit & Hunit & ->).
    exists unit, [extension_price_call params "price";
                  extension_price_call params "mintPrice"]. unfold ret.
    rewrite <- app_assoc.
    split; [reflexivity |]. split; [cbn; lia |]. split; [congruence |].
    split; [intros _; nia |].
    intros p Hanswer Hne. destruct (Hnot1 p Hanswer Hne). }
  unfold or_next at 1, bind at 1.
  destruct (extension_claimCondition_outcome client params
              (mkState ((history ++ [extension_price_call params "price"])
                        ++ [extension_price_call params "mintPrice"])%list
                 (mkHeap params contractInfo)))
    as (r3 & E3 & Hsome3).
  rewrite E3. cbn [trace heap] in *.
  rewrite <- !app_assoc. cbn [List.app].
  destruct r3 as [q3 |].
  { destruct (Hsome3 q3 eq_refl) as (unit & Hunit & ->).
    exists unit, [extension_price_call params "price";
                  extension_price_call params "mintPrice";
                  extension_claimCondition_call params]. unfold ret.
    split; [reflexivity |]. split; [cbn; lia |]. split; [congruence |].
    split; [intros _; nia |].
    intros p Hanswer Hne. destruct (Hnot1 p Hanswer Hne). }
  unfold or_next, bind, extension_hardcoded.
  destruct (is_hardcoded_address host (contractAddress params)).
  - exists ONE_XDAI, [extension_price_call params "price";
                      extension_price_call params "mintPrice";
                      extension_claimCondition_call params]. unfold ret.
    split; [reflexivity |]. split; [cbn; lia |]. split; [discriminate |].
    split; [intros _; unfold ONE_XDAI; nia |].
    intros p Hanswer Hne. destruct (Hnot1 p Hanswer Hne).
  - exists 0, [extension_price_call params "price";
               extension_price_call params "mintPrice";
               extension_claimCondition_call params]. unfold ret.
    split; [reflexivity |]. split; [cbn; lia |]. split; [reflexivity |].
    split; [discriminate |].
    intros p Hanswer Hne. destruct (Hnot1 p Hanswer Hne).
Qed.

(** The curated contract on a chain that answers nothing: 1 xDAI per token. *)
Lemma thirdweb_extension_quote_witness :
  exists unit issued,
    run_fetchPriceData Examples.decimal_host Examples.standards Examples.offline []
      (Examples.with_amount 2 (Examples.request Examples.PAGE_CONTRACT))
      (basic_info thirdweb true false)
    = (Ok (priced (VBig (unit * 2)) (VBig (unit * 2))),
       mkState ([] ++ issued)%list
         (mkHeap (Examples.with_amount 2 (Examples.request Examples.PAGE_CONTRACT))
            (basic_info thirdweb true false)))
    /\ unit * 2 <> 0.
Proof.
  destruct (thirdweb_extension_quote Examples.decimal_host Examples.standards
              Examples.offline []
              (Examples.with_amount 2 (Examples.request Examples.PAGE_CONTRACT))
              (basic_info thirdweb true false) eq_refl eq_refl)
    as (unit & issued & Hrun & _ & _ & Hcurated & _).
  exists unit, issued. split; [exact Hrun |].
  apply Hcurated. vm_compute. reflexivity.
Defined.

(** ** The mint arguments and the value sent with them *)

(** X24: for opensea, zora, generic and nfts2me, whenever the arguments of
    the mint are built, the quantity is their last argument,
    [BigInt(params.amount || 1)], preceded at most by the recipient, and the
    value rule of the configuration multiplies the price by that same
    quantity, whatever classification the configuration was derived from. *)
Theorem simple_mint_value_matches_arguments
    (host : Host) (std : Standards) (p : NFTProvider)
    (contractInfo : option NFTContractInfo) (params : option MintParams)
    (request : MintParams) (args : list value) :
  p <> manifold -> p <> thirdweb ->
  buildArgs host std p contractInfo params request = Ok args ->
  exists receiver,
    args = (receiver ++ [VBig (amount_of request)])%list
    /\ (receiver = [] \/ receiver = [opt_value (recipient request)])
    /\ forall price,
         calculateValue (mintConfig (getProviderConfig host std p contractInfo params))
           (VBig price) request
         = Ok (VBig (price * amount_of request)).
Proof.
  intros Hm Ht Hbuilt.
  destruct p; try congruence; cbn in Hbuilt; injection Hbuilt as <-;
    first [ exists []; split; [reflexivity |]; split; [left; reflexivity |];
            intros price; reflexivity
          | exists [opt_value (recipient request)];
            split; [reflexivity |]; split; [right; reflexivity |];
            intros price; reflexivity ].
Qed.

(** Three tokens from a zora contract at a price of 10. *)
Lemma simple_mint_value_matches_arguments_witness :
  (exists receiver,
     [VUndef; VBig 3] = (receiver ++ [VBig 3])%list
     /\ (receiver = [] \/ receiver = [VUndef]))
  /\ calculateValue
       (mintConfig (getProviderConfig Examples.decimal_host Examples.standards zora
                      None None))
       (VBig 10) (Examples.with_amount 3 (Examples.request Examples.SOME_CONTRACT))
     = Ok (VBig 30).
Proof.
  destruct (simple_mint_value_matches_arguments Examples.decimal_host Examples.standards
              zora None None
              (Examples.with_amount 3 (Examples.request Examples.SOME_CONTRACT))
              [VUndef; VBig 3]
              ltac:(discriminate) ltac:(discriminate) eq_refl)
    as (receiver & Hargs & Hreceiver & Hvalue).
  split.
  - exists receiver. split; [exact Hargs | exact Hreceiver].
  - rewrite (Hvalue 10). reflexivity.
Defined.


(** X25: for every thirdweb configuration getProviderConfig can derive, the
    value rule agrees with the arguments of the claim.  The quantity
    argument (after the token id for an ERC1155 classification) is
    [BigInt(params.amount || 1)].  When the configuration does not price by
    the stored claim condition (the static entry and the curated address),
    or the stored currency is absent or the native token, the value of the
    price argument is the price argument times the quantity argument.  When
    it prices by a stored claim condition in an ERC20 currency, the value is
    0 for every price and the currency argument is that token. *)
Theorem thirdweb_mint_value_matches_arguments
    (host : Host) (std : Standards)
    (contractInfo : option NFTContractInfo) (params : option MintParams)
    (request : MintParams) (args : list value) :
  let config := getProviderConfig host std thirdweb contractInfo params in
  let offset := if claims_by_token contractInfo then 1%nat else 0%nat in
  let quantity := nth (1 + offset) args VUndef in
  let currencyArg := nth (2 + offset) args VUndef in
  let price := nth (3 + offset) args VUndef in
  buildArgs host std thirdweb contractInfo params request = Ok args ->
  quantity = VBig (amount_of request)
  /\ (prices_by_condition host contractInfo params = false
      \/ pays_in_erc20 host std (stored_currency contractInfo) = Ok false ->
      forall p, price = VBig p ->
        calculateValue (mintConfig config) price request
        = Ok (VBig (p * amount_of request)))
  /\ (prices_by_condition host contractInfo params = true ->
      pays_in_erc20 host std (stored_currency contractInfo) = Ok true ->
      currencyArg = stored_currency contractInfo
      /\ forall anyPrice,
           calculateValue (mintConfig config) anyPrice request = Ok (VBig 0)).
Proof.
  cbv zeta. unfold buildArgs, getProviderConfig, claims_by_token, prices_by_condition,
    stored_currency.
  destruct contractInfo as [info |].
  2: { cbn. intros E. inversion E. subst. cbn.
       split; [reflexivity |]. split; [| discriminate].
       intros _ p Ep. inversion Ep. subst. reflexivity. }
  destruct (isERC1155 info).
  - destruct (match params with
              | Some p => is_hardcoded_address host (contractAddress p)
              | None => false
              end).
    + cbn. intros E. inversion E. subst. cbn.
      split; [reflexivity |]. split; [| discriminate].
      intros _ p Ep. inversion Ep. subst. reflexivity.
    + unfold extension_buildArgs.
      destruct (BigInt_of_string host (string_or (tokenId request) "1"))
        as [token | e]; [| discriminate].
      intros E. inversion E. subst. clear E. cbn [nth Nat.add negb].
      split; [reflexivity |]. split.
      * intros [Hfalse | Hnative] p Ep; [discriminate |].
        cbn [mintConfig calculateValue]. unfold thirdweb_calculateValue.
        rewrite Hnative, Ep. reflexivity.
      * intros _ Herc20. split.
        -- unfold condition_currency.
           destruct (claimCondition info) as [cc |]; [| cbn in Herc20; discriminate].
           unfold pays_in_erc20 in Herc20. unfold or_else.
           destruct (truthy (currency cc)); [reflexivity | discriminate].
        -- intros anyPrice. cbn [mintConfig calculateValue].
           unfold thirdweb_calculateValue. rewrite Herc20. reflexivity.
  - destruct (claimCondition info) as [cc |] eqn:Ecc.
    + unfold drop_buildArgs. intros E. inversion E. subst. clear E.
      cbn [nth Nat.add is_some].
      split; [reflexivity |]. split.
      * intros [Hfalse | Hnative] p Ep; [discriminate |].
        cbn [mintConfig calculateValue]. unfold thirdweb_calculateValue.
        rewrite Ecc, Hnative, Ep. reflexivity.
      * intros _ Herc20. split.
        -- unfold condition_currency. rewrite Ecc.
           unfold pays_in_erc20 in Herc20. unfold or_else.
           destruct (truthy (currency cc)); [reflexivity | discriminate].
        -- intros anyPrice. cbn [mintConfig calculateValue].
           unfold thirdweb_calculateValue. rewrite Ecc, Herc20. reflexivity.
    + cbn. intros E. inversion E. subst. cbn.
      split; [reflexivity |]. split; [| discriminate].
      intros _ p Ep. inversion Ep. subst. reflexivity.
Qed.

(** Four tokens of a drop whose stored condition is priced 1000 in the native
    currency: the claim carries the price 1000 and the value is 4000. *)
Lemma thirdweb_mint_value_matches_arguments_witness :
  let info :=
    set_claimCondition (basic_info thirdweb false true)
      {| id := Int 7; pricePerToken := VBig 1000;
         currency := VStr (THIRDWEB_NATIVE_TOKEN Examples.standards);
         maxClaimableSupply := VUndef; cc_merkleRoot := VUndef;
         startTimestamp := Int 1700000000; quantityLimitPerWallet := VUndef |} in
  let request := Examples.with_amount 4 (Examples.request Examples.SOME_CONTRACT) in
  exists args,
    buildArgs Examples.decimal_host Examples.standards thirdweb (Some info)
      (Some request) request = Ok args
    /\ nth 3 args VUndef = VBig 1000
    /\ calculateValue
         (mintConfig (getProviderConfig Examples.decimal_host Examples.standards thirdweb
                        (Some info) (Some request)))
         (nth 3 args VUndef) request
       = Ok (VBig 4000).
Proof.
  cbv zeta. eexists. split; [reflexivity |]. split; [reflexivity |].
  destruct (thirdweb_mint_value_matches_arguments Examples.decimal_host
              Examples.standards
              (Some (set_claimCondition (basic_info thirdweb false true)
                       {| id := Int 7; pricePerToken := VBig 1000;
                          currency := VStr (THIRDWEB_NATIVE_TOKEN Examples.standards);
                          maxClaimableSupply := VUndef; cc_merkleRoot := VUndef;
                          startTimestamp := Int 1700000000;
                          quantityLimitPerWallet := VUndef |}))
              (Some (Examples.with_amount 4 (Examples.request Examples.SOME_CONTRACT)))
              (Examples.with_amount 4 (Examples.request Examples.SOME_CONTRACT))
              _ eq_refl) as (_ & Hnative & _).
  exact (Hnative (or_intror eq_refl) 1000 eq_refl).
Defined.


